(** * UI/UX feedback pipeline: parsing, scoring and report contracts

    A shallow embedding of the agents under [src/agents]:
    [vision_agent.py], [heuristic_agent.py], [feedback_agent.py] and
    [wireframe_agent.py].  The generative model call, the prompt builders
    and [json.loads] are collaborators outside the repository; they enter
    the development as section variables.

    Python values are modelled as follows.
    - [str] is a sequence of Unicode code points.
    - [int] is [Z].  The score computation is given twice: in module
      [Binary64] with [float] as an IEEE double, and once more with [float]
      idealised as an exact rational ([Q]), which is easier to reason
      about; the two are proved to return the same score.
    - [dict] is an association list in insertion order.
    - A raised exception is the [Raise] outcome of a computation. *)

From Stdlib Require Import ZArith QArith Qround Qminmax Qabs String Ascii List Lia.
From Stdlib Require PrimFloat SpecFloat FloatOps FloatAxioms.
From stdpp Require Import base tactics option list numbers pretty.

Set Default Proof Using "Type".

(** ** Python runtime model *)

Module Py.

Abbreviation char := N (only parsing).
Abbreviation str := (list N) (only parsing).

(** An ASCII literal as a [str]. *)
Definition u (s : string) : str := map N_of_ascii (list_ascii_of_string s).
#[global] Arguments u : simpl never.

Definition nl : str := [10%N].
Definition dq : str := [34%N].

(** Code points that [str.strip()] removes. *)
Definition whitespace : list char :=
  [9; 10; 11; 12; 13; 28; 29; 30; 31; 32; 133; 160; 5760;
   8192; 8193; 8194; 8195; 8196; 8197; 8198; 8199; 8200; 8201; 8202;
   8232; 8233; 8239; 8287; 12288]%N.

Definition isspace (c : char) : bool := existsb (N.eqb c) whitespace.

Fixpoint lstrip (s : str) : str :=
  match s with
  | c :: s' => if isspace c then lstrip s' else s
  | [] => []
  end.

Definition rstrip (s : str) : str := rev (lstrip (rev s)).

Definition strip (s : str) : str := rstrip (lstrip s).

Fixpoint startswith (s p : str) {struct p} : bool :=
  match p, s with
  | [], _ => true
  | a :: p', b :: s' => N.eqb a b && startswith s' p'
  | _ :: _, [] => false
  end.

Definition endswith (s p : str) : bool := startswith (rev s) (rev p).

(** [s.find(p, start)]: the lowest index [>= start] where [p] occurs. *)
Fixpoint find_at (s p : str) (i : nat) : option nat :=
  if startswith s p then Some i
  else match s with
       | [] => None
       | _ :: s' => find_at s' p (S i)
       end.

Definition find (s p : str) (start : nat) : option nat :=
  if decide (start <= length s)%nat then find_at (drop start s) p start
  else None.

(** [p in s] *)
Definition contains (s p : str) : bool := bool_decide (is_Some (find s p 0)).

Fixpoint upper (s : str) : str :=
  match s with
  | [] => []
  | c :: s' => (if (97 <=? c)%N && (c <=? 122)%N then (c - 32)%N else c) :: upper s'
  end.

Inductive number :=
| Int (z : Z)
| Float (q : Q).

#[warnings="-register-all"]
Inductive json :=
| JNull
| JBool (b : bool)
| JNum (n : number)
| JStr (s : str)
| JArr (l : list json)
| JObj (d : list (str * json)).

Inductive type_error :=
| NotIterable
| Unhashable
| NoLen
| NoItemAssignment
| JoinItem (index : nat).

Inductive exn :=
| JSONDecodeError (msg : str)
| AttributeError (type_name attr : str)
| TypeError (why : type_error) (type_name : str)
| OtherError (msg : str).

Inductive outcome (A : Type) :=
| Ok (a : A)
| Raise (e : exn).
Arguments Ok {A} a.
Arguments Raise {A} e.

#[export] Instance outcome_ret : MRet outcome := @Ok.
#[export] Instance outcome_bind : MBind outcome := fun A B f m =>
  match m with
  | Ok a => f a
  | Raise e => Raise e
  end.

Definition type_name (v : json) : str :=
  match v with
  | JNull => u "NoneType"
  | JBool _ => u "bool"
  | JNum (Int _) => u "int"
  | JNum (Float _) => u "float"
  | JStr _ => u "str"
  | JArr _ => u "list"
  | JObj _ => u "dict"
  end.

Definition num_val (n : number) : Q :=
  match n with
  | Int z => inject_Z z
  | Float q => q
  end.

(** [bool(v)] *)
Definition truthy (v : json) : bool :=
  match v with
  | JNull => false
  | JBool b => b
  | JNum n => negb (Qeq_bool (num_val n) 0)
  | JStr s => negb (bool_decide (s = []))
  | JArr l => match l with [] => false | _ => true end
  | JObj d => match d with [] => false | _ => true end
  end.

(** [len(v)] *)
Definition len (v : json) : outcome nat :=
  match v with
  | JStr s => Ok (length s)
  | JArr l => Ok (length l)
  | JObj d => Ok (length d)
  | _ => Raise (TypeError NoLen (type_name v))
  end.

(** The items a [for] loop or a comprehension draws from [v]. *)
Definition iter (v : json) : outcome (list json) :=
  match v with
  | JArr l => Ok l
  | JStr s => Ok (map (fun c => JStr [c]) s)
  | JObj d => Ok (map (fun kv => JStr (fst kv)) d)
  | _ => Raise (TypeError NotIterable (type_name v))
  end.

Fixpoint lookup {V : Type} (k : str) (d : list (str * V)) : option V :=
  match d with
  | [] => None
  | (k', x) :: d' => if decide (k = k') then Some x else lookup k d'
  end.

(** [d[k] = x] on a dict: replace in place, or append a new key. *)
Fixpoint dict_set (k : str) (x : json) (d : list (str * json)) : list (str * json) :=
  match d with
  | [] => [(k, x)]
  | (k', y) :: d' => if decide (k = k') then (k, x) :: d' else (k', y) :: dict_set k x d'
  end.

(** [v.get(k, dflt)] *)
Definition get (v : json) (k : str) (dflt : json) : outcome json :=
  match v with
  | JObj d => Ok (default dflt (lookup k d))
  | _ => Raise (AttributeError (type_name v) (u "get"))
  end.

(** [v[k] = x] with a string key. *)
Definition setitem (v : json) (k : str) (x : json) : outcome json :=
  match v with
  | JObj d => Ok (JObj (dict_set k x d))
  | _ => Raise (TypeError NoItemAssignment (type_name v))
  end.

(** [k in v] for a dict [v]. *)
Definition has_key (v : json) (k : str) : bool :=
  match v with
  | JObj d => bool_decide (is_Some (lookup k d))
  | _ => false
  end.

(** [v == s] for a string literal [s]. *)
Definition eq_str (v : json) (s : str) : bool :=
  match v with
  | JStr t => bool_decide (t = s)
  | _ => false
  end.

Definition of_nat (n : nat) : json := JNum (Int (Z.of_nat n)).

End Py.
Import Py.

(** ** Numbers of the score computation *)

Definition num_lt (a b : number) : bool := negb (Qle_bool (num_val b) (num_val a)).

(** [a + b] in exact arithmetic: two ints give an int, anything else a
    float.  [Binary64.add] is the addition of doubles. *)
Definition num_add (a b : number) : number :=
  match a, b with
  | Int x, Int y => Int (x + y)
  | _, _ => Float (Qred (num_val a + num_val b))
  end.

(** [min(a, b)] and [max(a, b)] keep the first argument on a tie. *)
Definition py_min (a b : number) : number := if num_lt b a then b else a.
Definition py_max (a b : number) : number := if num_lt a b then b else a.

Definition round_half_even (x : Q) : Z :=
  let f := Qfloor x in
  match (x - inject_Z f ?= 1 # 2)%Q with
  | Lt => f
  | Gt => (f + 1)%Z
  | Eq => if Z.even f then f else (f + 1)%Z
  end.

(** [round(x, 1)] *)
Definition py_round1 (x : Q) : Q := Qred (inject_Z (round_half_even (x * 10)) / 10).

(** ** The score computation on IEEE doubles

    The same statements as [_calculate_score] below, with Python floats as
    binary64 values: [int + float] converts the int (round to nearest even,
    [OverflowError] past the largest double), comparisons between an int and
    a float are exact, and [round(x, 1)] is correctly rounded. *)

Module Binary64.
Import PrimFloat SpecFloat FloatOps.

Inductive number :=
| Int (z : Z)
| Float (f : float).

(** [float(z)] *)
Definition float_of_int (z : Z) : outcome float :=
  match binary_normalize 53 1024 z 0 false with
  | S754_infinity _ => Raise (OtherError (u "int too large to convert to float"))
  | sf => Ok (SF2Prim sf)
  end.

(** The rational a finite double stands for. *)
Definition exact (f : float) : Q :=
  match Prim2SF f with
  | S754_finite s m e =>
      let v := if (0 <=? e)%Z then inject_Z (Zpos m * 2 ^ e)
               else Zpos m # (2 ^ Z.to_pos (- e)) in
      if s then (- v)%Q else v
  | _ => 0%Q
  end.

(** [round(x, 1)]: the double nearest to the exact decimal rounding. *)
Definition round1 (x : float) : float :=
  match Prim2SF x with
  | S754_finite s _ _ =>
      let k := round_half_even (exact x * 10) in
      if (k =? 0)%Z && s then (-0)%float
      else (SF2Prim (binary_normalize 53 1024 k 0 false) / 10)%float
  | _ => x
  end.

(** [a < b] *)
Definition lt (a b : number) : bool :=
  match a, b with
  | Int x, Int y => (x <? y)%Z
  | Float f, Float g => ltb f g
  | Int x, Float g =>
      match Prim2SF g with
      | S754_infinity s => negb s
      | S754_nan => false
      | _ => negb (Qle_bool (exact g) (inject_Z x))
      end
  | Float f, Int y =>
      match Prim2SF f with
      | S754_infinity s => s
      | S754_nan => false
      | _ => negb (Qle_bool (inject_Z y) (exact f))
      end
  end.

Definition to_float (a : number) : outcome float :=
  match a with
  | Int z => float_of_int z
  | Float f => Ok f
  end.

(** [a + b] *)
Definition add (a b : number) : outcome number :=
  match a, b with
  | Int x, Int y => Ok (Int (x + y))
  | _, _ => f ← to_float a; g ← to_float b; Ok (Float (f + g)%float)
  end.

Definition severity_impact : list (str * number) :=
  [(u "critical", Int 10); (u "high", Int 3); (u "medium", Int 1);
   (u "low", Float 0x1.3333333333333p-2)].

Definition severity_impact_get (severity : json) (dflt : number) : outcome number :=
  match severity with
  | JStr s => Ok (default dflt (lookup s severity_impact))
  | JArr _ | JObj _ => Raise (TypeError Unhashable (type_name severity))
  | _ => Ok dflt
  end.

Definition add_deduction (total_deduction : number) (violation : json) : outcome number :=
  severity ← get violation (u "severity") (JStr (u "low"));
  impact ← severity_impact_get severity (Int 0);
  add total_deduction impact.

Fixpoint sum_deductions (violations : list json) (total_deduction : number)
  : outcome number :=
  match violations with
  | [] => Ok total_deduction
  | violation :: rest =>
      total_deduction ← add_deduction total_deduction violation;
      sum_deductions rest total_deduction
  end.

Definition _calculate_score (violations : json) : outcome number :=
  if negb (truthy violations) then Ok (Float 10)
  else
    items ← iter violations;
    total_deduction ← sum_deductions items (Int 0);
    let total_deduction := if lt (Int 10) total_deduction then Int 10 else total_deduction in
    t ← to_float total_deduction;
    let score := (10 - t)%float in
    let rounded := Float (round1 score) in
    Ok (if lt (Int 0) rounded then rounded else Int 0).

Definition ten : float := 10.
Definition one : float := 1.

(** The doubles written [9.7], [5.4] and [0.1] in Python. *)
Definition nine_point_seven : float := 0x1.3666666666666p+3.
Definition five_point_four : float := 0x1.599999999999ap+2.
Definition one_tenth : float := 0x1.999999999999ap-4.
Definition three_tenths : float := 0x1.3333333333333p-2.

(** The statements of [_calculate_score] after the loop. *)
Definition clamp_and_round (total_deduction : number) : outcome number :=
  let total_deduction := if lt (Int 10) total_deduction then Int 10 else total_deduction in
  t ← to_float total_deduction;
  let score := (10 - t)%float in
  let rounded := Float (round1 score) in
  Ok (if lt (Int 0) rounded then rounded else Int 0).

(** *** Decimals with one fractional digit, as doubles *)

(** [r / 10] for an int [r]: the double Python reads a decimal literal with
    one fractional digit as. *)
Definition tenth (r : Z) : float :=
  (SF2Prim (binary_normalize 53 1024 r 0 false) / 10)%float.

Definition is_finite (f : float) : bool :=
  match Prim2SF f with
  | S754_zero _ | S754_finite _ _ _ => true
  | _ => false
  end.

(** [f] is nearer to [q] than the double above it and the double below it:
    [f] is the double nearest to [q]. *)
Definition nearest (q : Q) (f : float) : bool :=
  let gap g := Qabs (exact g - q) in
  is_finite f && is_finite (next_up f) && is_finite (next_down f)
  && negb (Qle_bool (gap (next_up f)) (gap f))
  && negb (Qle_bool (gap (next_down f)) (gap f)).

(** The score for a deduction of [k] tenths. *)
Definition score_of_tenths (k : Z) : number :=
  if (100 <=? k)%Z then Int 0 else Float (tenth (100 - k)).

(** *** The totals the loop can reach

    However the violations are ordered, the running total is an int, one
    of the doubles of [below_ten], or a double above 10. *)

(** The impacts the loop adds, each with its value in tenths. *)
Definition impacts : list (Z * number) :=
  [(100%Z, Int 10); (30%Z, Int 3); (10%Z, Int 1); (3%Z, Float 0x1.3333333333333p-2);
   (0%Z, Int 0)].

(** The totals up to 10, each with the exact sum, in tenths, it stands for. *)
Definition below_ten : list (Z * number) :=
  [(0%Z, Int 0); (3%Z, Float 0x1.3333333333333p-2); (6%Z, Float 0x1.3333333333333p-1);
   (9%Z, Float 0x1.cccccccccccccp-1); (10%Z, Int 1);
   (12%Z, Float 0x1.3333333333333p+0); (13%Z, Float 0x1.4cccccccccccdp+0);
   (15%Z, Float 0x1.8000000000000p+0); (16%Z, Float 0x1.999999999999ap+0);
   (18%Z, Float 0x1.ccccccccccccdp+0); (19%Z, Float 0x1.e666666666666p+0);
   (19%Z, Float 0x1.e666666666667p+0); (20%Z, Int 2);
   (21%Z, Float 0x1.0cccccccccccdp+1); (22%Z, Float 0x1.1999999999999p+1);
   (22%Z, Float 0x1.199999999999ap+1); (23%Z, Float 0x1.2666666666666p+1);
   (24%Z, Float 0x1.3333333333333p+1); (25%Z, Float 0x1.3ffffffffffffp+1);
   (25%Z, Float 0x1.4000000000000p+1); (26%Z, Float 0x1.4ccccccccccccp+1);
   (26%Z, Float 0x1.4cccccccccccdp+1); (27%Z, Float 0x1.5999999999999p+1);
   (28%Z, Float 0x1.6666666666665p+1); (28%Z, Float 0x1.6666666666666p+1);
   (29%Z, Float 0x1.7333333333332p+1); (29%Z, Float 0x1.7333333333333p+1);
   (29%Z, Float 0x1.7333333333334p+1); (30%Z, Int 3);
   (30%Z, Float 0x1.7ffffffffffffp+1); (31%Z, Float 0x1.8cccccccccccbp+1);
   (31%Z, Float 0x1.8ccccccccccccp+1); (31%Z, Float 0x1.8cccccccccccdp+1);
   (32%Z, Float 0x1.9999999999998p+1); (32%Z, Float 0x1.9999999999999p+1);
   (32%Z, Float 0x1.999999999999ap+1); (33%Z, Float 0x1.a666666666665p+1);
   (33%Z, Float 0x1.a666666666666p+1); (34%Z, Float 0x1.b333333333331p+1);
   (34%Z, Float 0x1.b333333333332p+1); (34%Z, Float 0x1.b333333333333p+1);
   (35%Z, Float 0x1.bfffffffffffep+1); (35%Z, Float 0x1.bffffffffffffp+1);
   (35%Z, Float 0x1.c000000000000p+1); (36%Z, Float 0x1.ccccccccccccbp+1);
   (36%Z, Float 0x1.cccccccccccccp+1); (36%Z, Float 0x1.ccccccccccccdp+1);
   (37%Z, Float 0x1.d999999999997p+1); (37%Z, Float 0x1.d999999999998p+1);
   (37%Z, Float 0x1.d999999999999p+1); (38%Z, Float 0x1.e666666666664p+1);
   (38%Z, Float 0x1.e666666666665p+1); (38%Z, Float 0x1.e666666666666p+1);
   (39%Z, Float 0x1.f333333333331p+1); (39%Z, Float 0x1.f333333333332p+1);
   (39%Z, Float 0x1.f333333333333p+1); (39%Z, Float 0x1.f333333333334p+1);
   (40%Z, Int 4); (40%Z, Float 0x1.ffffffffffffdp+1);
   (40%Z, Float 0x1.ffffffffffffep+1); (40%Z, Float 0x1.fffffffffffffp+1);
   (41%Z, Float 0x1.0666666666665p+2); (41%Z, Float 0x1.0666666666666p+2);
   (42%Z, Float 0x1.0ccccccccccccp+2); (42%Z, Float 0x1.0cccccccccccdp+2);
   (43%Z, Float 0x1.1333333333332p+2); (43%Z, Float 0x1.1333333333333p+2);
   (44%Z, Float 0x1.1999999999998p+2); (44%Z, Float 0x1.1999999999999p+2);
   (44%Z, Float 0x1.199999999999ap+2); (45%Z, Float 0x1.1ffffffffffffp+2);
   (45%Z, Float 0x1.2000000000000p+2); (46%Z, Float 0x1.2666666666665p+2);
   (46%Z, Float 0x1.2666666666666p+2); (47%Z, Float 0x1.2cccccccccccbp+2);
   (47%Z, Float 0x1.2ccccccccccccp+2); (47%Z, Float 0x1.2cccccccccccdp+2);
   (48%Z, Float 0x1.3333333333332p+2); (48%Z, Float 0x1.3333333333333p+2);
   (49%Z, Float 0x1.3999999999998p+2); (49%Z, Float 0x1.3999999999999p+2);
   (49%Z, Float 0x1.399999999999ap+2); (50%Z, Int 5);
   (50%Z, Float 0x1.3fffffffffffep+2); (50%Z, Float 0x1.3ffffffffffffp+2);
   (50%Z, Float 0x1.4000000000000p+2); (51%Z, Float 0x1.4666666666665p+2);
   (51%Z, Float 0x1.4666666666666p+2); (52%Z, Float 0x1.4cccccccccccbp+2);
   (52%Z, Float 0x1.4ccccccccccccp+2); (52%Z, Float 0x1.4cccccccccccdp+2);
   (53%Z, Float 0x1.5333333333331p+2); (53%Z, Float 0x1.5333333333332p+2);
   (53%Z, Float 0x1.5333333333333p+2); (54%Z, Float 0x1.5999999999998p+2);
   (54%Z, Float 0x1.5999999999999p+2); (54%Z, Float 0x1.599999999999ap+2);
   (55%Z, Float 0x1.5fffffffffffep+2); (55%Z, Float 0x1.5ffffffffffffp+2);
   (55%Z, Float 0x1.6000000000000p+2); (56%Z, Float 0x1.6666666666664p+2);
   (56%Z, Float 0x1.6666666666665p+2); (56%Z, Float 0x1.6666666666666p+2);
   (57%Z, Float 0x1.6cccccccccccbp+2); (57%Z, Float 0x1.6ccccccccccccp+2);
   (57%Z, Float 0x1.6cccccccccccdp+2); (58%Z, Float 0x1.7333333333331p+2);
   (58%Z, Float 0x1.7333333333332p+2); (58%Z, Float 0x1.7333333333333p+2);
   (59%Z, Float 0x1.7999999999997p+2); (59%Z, Float 0x1.7999999999998p+2);
   (59%Z, Float 0x1.7999999999999p+2); (59%Z, Float 0x1.799999999999ap+2);
   (60%Z, Int 6); (60%Z, Float 0x1.7fffffffffffep+2);
   (60%Z, Float 0x1.7ffffffffffffp+2); (60%Z, Float 0x1.8000000000000p+2);
   (61%Z, Float 0x1.8666666666664p+2); (61%Z, Float 0x1.8666666666665p+2);
   (61%Z, Float 0x1.8666666666666p+2); (62%Z, Float 0x1.8cccccccccccap+2);
   (62%Z, Float 0x1.8cccccccccccbp+2); (62%Z, Float 0x1.8ccccccccccccp+2);
   (62%Z, Float 0x1.8cccccccccccdp+2); (63%Z, Float 0x1.9333333333331p+2);
   (63%Z, Float 0x1.9333333333332p+2); (63%Z, Float 0x1.9333333333333p+2);
   (64%Z, Float 0x1.9999999999997p+2); (64%Z, Float 0x1.9999999999998p+2);
   (64%Z, Float 0x1.9999999999999p+2); (64%Z, Float 0x1.999999999999ap+2);
   (65%Z, Float 0x1.9fffffffffffdp+2); (65%Z, Float 0x1.9fffffffffffep+2);
   (65%Z, Float 0x1.9ffffffffffffp+2); (65%Z, Float 0x1.a000000000000p+2);
   (66%Z, Float 0x1.a666666666664p+2); (66%Z, Float 0x1.a666666666665p+2);
   (66%Z, Float 0x1.a666666666666p+2); (67%Z, Float 0x1.acccccccccccap+2);
   (67%Z, Float 0x1.acccccccccccbp+2); (67%Z, Float 0x1.accccccccccccp+2);
   (67%Z, Float 0x1.acccccccccccdp+2); (68%Z, Float 0x1.b333333333330p+2);
   (68%Z, Float 0x1.b333333333331p+2); (68%Z, Float 0x1.b333333333332p+2);
   (68%Z, Float 0x1.b333333333333p+2); (69%Z, Float 0x1.b999999999997p+2);
   (69%Z, Float 0x1.b999999999998p+2); (69%Z, Float 0x1.b999999999999p+2);
   (69%Z, Float 0x1.b99999999999ap+2); (70%Z, Int 7);
   (70%Z, Float 0x1.bfffffffffffdp+2); (70%Z, Float 0x1.bfffffffffffep+2);
   (70%Z, Float 0x1.bffffffffffffp+2); (70%Z, Float 0x1.c000000000000p+2);
   (71%Z, Float 0x1.c666666666663p+2); (71%Z, Float 0x1.c666666666664p+2);
   (71%Z, Float 0x1.c666666666665p+2); (71%Z, Float 0x1.c666666666666p+2);
   (72%Z, Float 0x1.ccccccccccccap+2); (72%Z, Float 0x1.ccccccccccccbp+2);
   (72%Z, Float 0x1.cccccccccccccp+2); (72%Z, Float 0x1.ccccccccccccdp+2);
   (73%Z, Float 0x1.d333333333330p+2); (73%Z, Float 0x1.d333333333331p+2);
   (73%Z, Float 0x1.d333333333332p+2); (73%Z, Float 0x1.d333333333333p+2);
   (74%Z, Float 0x1.d999999999996p+2); (74%Z, Float 0x1.d999999999997p+2);
   (74%Z, Float 0x1.d999999999998p+2); (74%Z, Float 0x1.d999999999999p+2);
   (74%Z, Float 0x1.d99999999999ap+2); (75%Z, Float 0x1.dfffffffffffdp+2);
   (75%Z, Float 0x1.dfffffffffffep+2); (75%Z, Float 0x1.dffffffffffffp+2);
   (75%Z, Float 0x1.e000000000000p+2); (76%Z, Float 0x1.e666666666663p+2);
   (76%Z, Float 0x1.e666666666664p+2); (76%Z, Float 0x1.e666666666665p+2);
   (76%Z, Float 0x1.e666666666666p+2); (77%Z, Float 0x1.eccccccccccc9p+2);
   (77%Z, Float 0x1.ecccccccccccap+2); (77%Z, Float 0x1.ecccccccccccbp+2);
   (77%Z, Float 0x1.eccccccccccccp+2); (77%Z, Float 0x1.ecccccccccccdp+2);
   (78%Z, Float 0x1.f333333333330p+2); (78%Z, Float 0x1.f333333333331p+2);
   (78%Z, Float 0x1.f333333333332p+2); (78%Z, Float 0x1.f333333333333p+2);
   (79%Z, Float 0x1.f999999999996p+2); (79%Z, Float 0x1.f999999999997p+2);
   (79%Z, Float 0x1.f999999999998p+2); (79%Z, Float 0x1.f999999999999p+2);
   (79%Z, Float 0x1.f99999999999ap+2); (80%Z, Int 8);
   (80%Z, Float 0x1.ffffffffffffcp+2); (80%Z, Float 0x1.ffffffffffffdp+2);
   (80%Z, Float 0x1.ffffffffffffep+2); (80%Z, Float 0x1.fffffffffffffp+2);
   (80%Z, Float 0x1.0000000000000p+3); (81%Z, Float 0x1.0333333333332p+3);
   (81%Z, Float 0x1.0333333333333p+3); (82%Z, Float 0x1.0666666666665p+3);
   (82%Z, Float 0x1.0666666666666p+3); (82%Z, Float 0x1.0666666666667p+3);
   (83%Z, Float 0x1.0999999999998p+3); (83%Z, Float 0x1.0999999999999p+3);
   (83%Z, Float 0x1.099999999999ap+3); (84%Z, Float 0x1.0cccccccccccbp+3);
   (84%Z, Float 0x1.0ccccccccccccp+3); (84%Z, Float 0x1.0cccccccccccdp+3);
   (85%Z, Float 0x1.0fffffffffffep+3); (85%Z, Float 0x1.0ffffffffffffp+3);
   (85%Z, Float 0x1.1000000000000p+3); (85%Z, Float 0x1.1000000000001p+3);
   (86%Z, Float 0x1.1333333333332p+3); (86%Z, Float 0x1.1333333333333p+3);
   (86%Z, Float 0x1.1333333333334p+3); (87%Z, Float 0x1.1666666666664p+3);
   (87%Z, Float 0x1.1666666666665p+3); (87%Z, Float 0x1.1666666666666p+3);
   (87%Z, Float 0x1.1666666666667p+3); (88%Z, Float 0x1.1999999999998p+3);
   (88%Z, Float 0x1.1999999999999p+3); (88%Z, Float 0x1.199999999999ap+3);
   (88%Z, Float 0x1.199999999999bp+3); (89%Z, Float 0x1.1cccccccccccbp+3);
   (89%Z, Float 0x1.1ccccccccccccp+3); (89%Z, Float 0x1.1cccccccccccdp+3);
   (89%Z, Float 0x1.1cccccccccccep+3); (90%Z, Int 9);
   (90%Z, Float 0x1.1fffffffffffep+3); (90%Z, Float 0x1.1ffffffffffffp+3);
   (90%Z, Float 0x1.2000000000000p+3); (90%Z, Float 0x1.2000000000001p+3);
   (91%Z, Float 0x1.2333333333332p+3); (91%Z, Float 0x1.2333333333333p+3);
   (91%Z, Float 0x1.2333333333334p+3); (91%Z, Float 0x1.2333333333335p+3);
   (92%Z, Float 0x1.2666666666665p+3); (92%Z, Float 0x1.2666666666666p+3);
   (92%Z, Float 0x1.2666666666667p+3); (92%Z, Float 0x1.2666666666668p+3);
   (93%Z, Float 0x1.2999999999998p+3); (93%Z, Float 0x1.2999999999999p+3);
   (93%Z, Float 0x1.299999999999ap+3); (93%Z, Float 0x1.299999999999bp+3);
   (94%Z, Float 0x1.2cccccccccccbp+3); (94%Z, Float 0x1.2ccccccccccccp+3);
   (94%Z, Float 0x1.2cccccccccccdp+3); (94%Z, Float 0x1.2cccccccccccep+3);
   (94%Z, Float 0x1.2cccccccccccfp+3); (95%Z, Float 0x1.2fffffffffffep+3);
   (95%Z, Float 0x1.2ffffffffffffp+3); (95%Z, Float 0x1.3000000000000p+3);
   (95%Z, Float 0x1.3000000000001p+3); (95%Z, Float 0x1.3000000000002p+3);
   (96%Z, Float 0x1.3333333333332p+3); (96%Z, Float 0x1.3333333333333p+3);
   (96%Z, Float 0x1.3333333333334p+3); (96%Z, Float 0x1.3333333333335p+3);
   (97%Z, Float 0x1.3666666666664p+3); (97%Z, Float 0x1.3666666666665p+3);
   (97%Z, Float 0x1.3666666666666p+3); (97%Z, Float 0x1.3666666666667p+3);
   (97%Z, Float 0x1.3666666666668p+3); (97%Z, Float 0x1.3666666666669p+3);
   (98%Z, Float 0x1.3999999999998p+3); (98%Z, Float 0x1.3999999999999p+3);
   (98%Z, Float 0x1.399999999999ap+3); (98%Z, Float 0x1.399999999999bp+3);
   (98%Z, Float 0x1.399999999999cp+3); (99%Z, Float 0x1.3cccccccccccbp+3);
   (99%Z, Float 0x1.3ccccccccccccp+3); (99%Z, Float 0x1.3cccccccccccdp+3);
   (99%Z, Float 0x1.3cccccccccccep+3); (99%Z, Float 0x1.3cccccccccccfp+3);
   (100%Z, Int 10); (100%Z, Float 0x1.3fffffffffffep+3);
   (100%Z, Float 0x1.3ffffffffffffp+3); (100%Z, Float 0x1.4000000000000p+3)].

(** The mantissa of the first double above 10, whose exponent is [-49]. *)
Definition above_ten_mantissa : Z := 10 * 2 ^ 49 + 1.

(** A double above 10: [+inf], or a finite double of 53 digits whose
    exponent is above [-49], or is [-49] under a mantissa above that of 10. *)
Definition above_ten_sf (x : spec_float) : bool :=
  match x with
  | S754_infinity false => true
  | S754_finite false m e =>
      (Zpos (Pos.size m) =? 53)%Z && (e <=? 971)%Z
      && ((-48 <=? e)%Z || ((e =? -49)%Z && (above_ten_mantissa <=? Zpos m)%Z))
  | _ => false
  end.

Definition above_ten (total : number) : bool :=
  match total with
  | Int z => (10 <? z)%Z
  | Float f => above_ten_sf (Prim2SF f)
  end.

Definition same (a b : number) : bool :=
  match a, b with
  | Int x, Int y => (x =? y)%Z
  | Float f, Float g => Leibniz.eqb f g
  | _, _ => false
  end.

(** [total] is listed in [below_ten] for the exact sum of [k] tenths. *)
Definition listed (k : Z) (total : number) : bool :=
  existsb (fun entry => (fst entry =? k)%Z && same (snd entry) total) below_ten.

(** Every impact takes a listed total to a listed total or above 10, and
    above 10 only when the exact sum has reached 10. *)
Definition closed : bool :=
  forallb (fun entry =>
    forallb (fun impact =>
      match add (snd entry) (snd impact) with
      | Ok total =>
          listed (fst entry + fst impact) total
          || (above_ten total && (100 <=? fst entry + fst impact)%Z)
      | Raise _ => false
      end) impacts) below_ten.

(** Every listed total is scored as its exact sum. *)
Definition scored : bool :=
  forallb (fun entry =>
    match clamp_and_round (snd entry) with
    | Ok score => same score (score_of_tenths (fst entry))
    | Raise _ => false
    end) below_ten.

(** After [n] violations the total [total] stands for the exact sum of [k]
    tenths: an int holds the sum itself, a double is listed for it or is
    above 10 when the sum has reached 10. *)
Definition tracks (k : Z) (total : number) (n : Z) : Prop :=
  (k <= 100 * n)%Z /\
  (forall z, total = Int z -> (10 * z)%Z = k) /\
  (listed k total = true \/ (above_ten total = true /\ (100 <= k)%Z)).

End Binary64.

(** ** Template texts *)

(** A literal in which [~] stands for the double quote. *)
Definition q (s : string) : str :=
  map (fun c => if (c =? 126)%N then 34%N else c) (u s).
#[global] Arguments q : simpl never.

(** A text given by its lines. *)
Fixpoint text (lines : list str) : str :=
  match lines with
  | [] => []
  | [s] => s
  | s :: rest => s ++ nl ++ text rest
  end.

(** [s.replace(old, new)] for a non-empty [old]: the occurrences are taken
    from the left and do not overlap; [skip] counts the characters of a
    replaced occurrence that are still to be passed over. *)
Fixpoint replace_from (skip : nat) (s old new : str) : str :=
  match s with
  | [] => []
  | c :: s' =>
      match skip with
      | S k => replace_from k s' old new
      | O =>
          if startswith s old then new ++ replace_from (length old - 1) s' old new
          else c :: replace_from 0 s' old new
      end
  end.

Definition replace (s old new : str) : str := replace_from 0 s old new.

(** ** Sample collaborators, used to run the agents on concrete inputs *)

Module Sample.

(** [str(e)] with the interpreter's message texts. *)
Definition exn_text (e : exn) : str :=
  match e with
  | JSONDecodeError msg => msg
  | AttributeError ty attr =>
      u "'" ++ ty ++ u "' object has no attribute '" ++ attr ++ u "'"
  | TypeError NotIterable ty => u "'" ++ ty ++ u "' object is not iterable"
  | TypeError Unhashable ty => u "unhashable type: '" ++ ty ++ u "'"
  | TypeError NoLen ty => u "object of type '" ++ ty ++ u "' has no len()"
  | TypeError NoItemAssignment ty =>
      if decide (ty = u "list") then u "list indices must be integers or slices, not str"
      else u "'" ++ ty ++ u "' object does not support item assignment"
  | TypeError (JoinItem i) ty =>
      u "sequence item " ++ u (pretty i) ++ u ": expected str instance, " ++ ty ++ u " found"
  | OtherError msg => msg
  end.

(** A decoder that agrees with [json.loads] on the texts it is run on in
    this file: two empty containers, one object, and texts such as
    [not json] that begin with no JSON value. *)
Definition json_loads (s : str) : outcome json :=
  if decide (s = u "{}") then Ok (JObj [])
  else if decide (s = u "[]") then Ok (JArr [])
  else if decide (s = u "{" ++ dq ++ u "total_feedback_items" ++ dq ++ u ": 7}")
  then Ok (JObj [(u "total_feedback_items", JNum (Int 7))])
  else Raise (JSONDecodeError (u "Expecting value: line 1 column 1 (char 0)")).

(** Three further replies, with the values [json.loads] decodes them to:
    a feedback reply that claims seven items and holds two, an evaluation
    reply that brings its own [overall_score], and a feedback reply whose
    [feedback_items] is a string. *)
Definition feedback_reply : str :=
  q "{~feedback_items~: [{~id~: 1, ~priority~: ~high~}, {~id~: 2}], ~total_feedback_items~: 7, ~quick_wins~: []}".

Definition evaluation_reply : str :=
  q "{~violations~: [{~severity~: ~high~}], ~overall_score~: 3, ~strengths~: [{~observation~: ~Clear labels~}]}".

Definition text_items_reply : str := q "{~feedback_items~: ~none~}".

Definition json_loads_replies (s : str) : outcome json :=
  if decide (s = feedback_reply)
  then Ok (JObj [(u "feedback_items",
                  JArr [JObj [(u "id", JNum (Int 1)); (u "priority", JStr (u "high"))];
                        JObj [(u "id", JNum (Int 2))]]);
                 (u "total_feedback_items", JNum (Int 7));
                 (u "quick_wins", JArr [])])
  else if decide (s = evaluation_reply)
  then Ok (JObj [(u "violations", JArr [JObj [(u "severity", JStr (u "high"))]]);
                 (u "overall_score", JNum (Int 3));
                 (u "strengths",
                  JArr [JObj [(u "observation", JStr (u "Clear labels"))]])])
  else if decide (s = text_items_reply)
  then Ok (JObj [(u "feedback_items", JStr (u "none"))])
  else json_loads s.

(** A model service that answers every prompt with [reply]. *)
Definition generate_content (reply : str) (prompt : str) : outcome str := Ok reply.

Definition _create_evaluation_prompt (vision_analysis : json) : outcome str :=
  Ok (u "evaluate").

Definition _create_feedback_prompt
    (vision_analysis heuristic_evaluation : json) (platform : str) : outcome str :=
  Ok (u "feedback for " ++ platform).

Definition py_repr (v : json) : str := u "<object>".

(** A feedback result with three items, given out of priority order. *)
Definition feedback_item (id : Z) (priority title : string) : json :=
  JObj [(u "id", JNum (Int id)); (u "title", JStr (u title));
        (u "priority", JStr (u priority));
        (u "what_to_do", JArr [JStr (u "step one"); JStr (u "step two")])].

Definition feedback_result : json :=
  JObj [(u "feedback_items",
         JArr [feedback_item 1 "low" "Tidy spacing";
               feedback_item 2 "critical" "Fix contrast";
               feedback_item 3 "low" "Rename label"]);
        (u "wireframe_instructions",
         JObj [(u "priority_fixes", JArr [JStr (u "Darker text")]);
               (u "color_adjustments", JArr [])])].

(** The message of [json.loads] on a text that starts with no JSON value. *)
Definition decode_error_msg : str := u "Expecting value: line 1 column 1 (char 0)".

(** An evaluation result with three violations, given out of severity
    order; the last one has a severity in a spelling the report does not
    list. *)
Definition violation (severity name : string) : json :=
  JObj [(u "heuristic_name", JStr (u name)); (u "severity", JStr (u severity));
        (u "affected_components", JArr [JStr (u "button"); JStr (u "label")])].

Definition evaluation_result : json :=
  JObj [(u "violations",
         JArr [violation "low" "Aesthetic and minimalist design";
               violation "critical" "Error prevention";
               violation "Blocker" "Visibility of system status"]);
        (u "strengths", JArr [JObj [(u "observation", JStr (u "Clear labels"))]]);
        (u "overall_score", JNum (Int 0))].

(** A serializer that agrees with [json.dumps(v, indent=2)] on the values
    it is run on in this file: [null] and the empty containers. *)
Definition json_dumps (v : json) : str :=
  match v with
  | JNull => u "null"
  | JArr [] => u "[]"
  | JObj [] => u "{}"
  | _ => u "..."
  end.

(** [str(KeyError(k))] is the repr of the key. *)
Definition key_error (k : str) : exn := OtherError (u "'" ++ k ++ u "'").

Definition subscript_error (v : json) : exn :=
  OtherError (u "'" ++ type_name v ++ u "' object is not subscriptable").

(** A configuration with one heuristic, which has four mobile
    considerations, and one guideline category. *)
Definition heuristics : json :=
  JObj [(u "heuristics",
         JArr [JObj [(u "id", JNum (Int 1));
                     (u "name", JStr (u "Visibility of system status"));
                     (u "description", JStr (u "Keep users informed"));
                     (u "mobile_considerations",
                      JArr [JStr (u "loading"); JStr (u "progress");
                            JStr (u "feedback"); JStr (u "network")])]]);
        (u "mobile_specific_guidelines",
         JArr [JObj [(u "category", JStr (u "Touch Targets"));
                     (u "guidelines", JArr [JStr (u "Minimum 44px")])]])].

(** A store that accepts every page, and a store that is full. *)
Definition _save_html (html_content : str) : outcome str :=
  Ok (u "data/outputs/wireframe_20250101_120000.html").

Definition _save_html_full (html_content : str) : outcome str :=
  Raise (OtherError (u "[Errno 28] No space left on device")).

Definition timestamp : str := u "2025-01-01T12:00:00".

(** An image file that is missing, and one that is read. *)
Definition read_image_missing (image_path : str) : outcome (list Byte.byte) :=
  Raise (OtherError (u "[Errno 2] No such file or directory")).

Definition read_image (image_path : str) : outcome (list Byte.byte) := Ok [].

Definition generate_image_content (reply : str) (image_bytes : list Byte.byte)
    (prompt : str) : outcome str := Ok reply.

End Sample.

(** ** The report under construction

    [generate_developer_report] appends to a local list [report] and may
    raise midway; [Report A] threads that list through a computation. *)

Definition Report (A : Type) : Type := list json -> outcome (A * list json).

#[export] Instance Report_ret : MRet Report := fun A a report => Ok (a, report).
#[export] Instance Report_bind : MBind Report := fun A B f m report =>
  match m report with
  | Ok (a, report') => f a report'
  | Raise e => Raise e
  end.

(** [report.append(line)] *)
Definition append (line : json) : Report unit := fun report => Ok (tt, report ++ [line]).

(** An expression that may raise, evaluated inside the report computation. *)
Definition lift {A : Type} (o : outcome A) : Report A := fun report =>
  match o with
  | Ok a => Ok (a, report)
  | Raise e => Raise e
  end.

(** [for x in l: body(x)] *)
Fixpoint for_each {A : Type} (l : list A) (body : A -> Report unit) : Report unit :=
  match l with
  | [] => mret tt
  | x :: l' => body x;; for_each l' body
  end.

(** [for i, x in enumerate(l, i): body(i, x)] *)
Fixpoint for_each_from {A : Type} (i : nat) (l : list A) (body : nat -> A -> Report unit)
  : Report unit :=
  match l with
  | [] => mret tt
  | x :: l' => body i x;; for_each_from (S i) l' body
  end.

(** [if c: m] *)
Definition when (c : bool) (m : Report unit) : Report unit := if c then m else mret tt.

(** [sep.join(l)]: every item has to be a [str]. *)
Fixpoint join_from (sep : str) (i : nat) (l : list json) : outcome str :=
  match l with
  | [] => Ok []
  | JStr s :: l' =>
      rest ← join_from sep (S i) l';
      Ok (match l' with [] => s | _ => s ++ sep ++ rest end)
  | x :: _ => Raise (TypeError (JoinItem i) (type_name x))
  end.

Definition join (sep : str) (l : list json) : outcome str := join_from sep 0 l.

(** Python slice [s[start:stop]] with possibly negative indices. *)
Definition slice_index (n i : Z) : Z :=
  if (i <? 0)%Z then Z.max 0 (n + i) else Z.min i n.

Definition slice (s : str) (start stop : Z) : str :=
  let n := Z.of_nat (length s) in
  let a := slice_index n start in
  let b := slice_index n stop in
  take (Z.to_nat (b - a)) (drop (Z.to_nat a) s).

(** [s.find(p, start)] as Python returns it: [-1] when [p] does not occur. *)
Definition find_z (s p : str) (start : nat) : Z :=
  match find s p start with
  | Some i => Z.of_nat i
  | None => (-1)%Z
  end.

(** ** The agents *)

Section Agents.

(** [str(e)] for a caught exception [e]. *)
Variable exn_text : exn -> str.

(** [json.loads]: the decoded value, [JSONDecodeError], or another
    exception of the decoder. *)
Variable json_loads : str -> outcome json.

(** The external call [client.models.generate_content(...).text]. *)
Variable generate_content : str -> outcome str.

(** The prompt builders; they format their arguments and may raise. *)
Variable _create_evaluation_prompt : json -> outcome str.
Variable _create_feedback_prompt : json -> json -> str -> outcome str.

(** [str(v)] of floats, lists and dicts inside an f-string. *)
Variable py_repr : json -> str.

(** *** Fence stripping, as inlined in the three parse routines *)

Definition clean_fences (response_text : str) : str :=
  let cleaned := strip response_text in
  let cleaned :=
    if startswith cleaned (u "```json") then drop 7 cleaned
    else if startswith cleaned (u "```") then drop 3 cleaned
    else cleaned in
  let cleaned :=
    if endswith cleaned (u "```") then take (length cleaned - 3) cleaned
    else cleaned in
  strip cleaned.

(** vision_agent.py: only [json.JSONDecodeError] is caught. *)
Definition _parse_response (response_text : str) : outcome json :=
  match json_loads (clean_fences response_text) with
  | Ok result => Ok result
  | Raise (JSONDecodeError msg) =>
      Ok (JObj [(u "raw_response", JStr response_text);
                (u "parse_error", JStr (exn_text (JSONDecodeError msg)))])
  | Raise e => Raise e
  end.

(** heuristic_agent.py *)
Definition _parse_evaluation_response (response_text : str) : outcome json :=
  match json_loads (clean_fences response_text) with
  | Ok result => Ok result
  | Raise (JSONDecodeError msg) =>
      Ok (JObj [(u "raw_response", JStr response_text);
                (u "parse_error", JStr (exn_text (JSONDecodeError msg)));
                (u "violations", JArr [])])
  | Raise e => Raise e
  end.

(** feedback_agent.py *)
Definition _parse_feedback_response (response_text : str) : outcome json :=
  match json_loads (clean_fences response_text) with
  | Ok result => Ok result
  | Raise (JSONDecodeError msg) =>
      Ok (JObj [(u "raw_response", JStr response_text);
                (u "parse_error", JStr (exn_text (JSONDecodeError msg)));
                (u "feedback_items", JArr [])])
  | Raise e => Raise e
  end.

(** *** Scoring (heuristic_agent.py) *)

Definition severity_impact : list (str * number) :=
  [(u "critical", Int 10); (u "high", Int 3); (u "medium", Int 1);
   (u "low", Float (3 # 10))].

(** [severity_impact.get(severity, dflt)]: a list or dict key is
    unhashable; a key that is no string equals none of the four. *)
Definition severity_impact_get (severity : json) (dflt : number) : outcome number :=
  match severity with
  | JStr s => Ok (default dflt (lookup s severity_impact))
  | JArr _ | JObj _ => Raise (TypeError Unhashable (type_name severity))
  | _ => Ok dflt
  end.

(** The body of [for violation in violations]. *)
Definition add_deduction (total_deduction : number) (violation : json) : outcome number :=
  severity ← get violation (u "severity") (JStr (u "low"));
  impact ← severity_impact_get severity (Int 0);
  Ok (num_add total_deduction impact).

Fixpoint sum_deductions (violations : list json) (total_deduction : number)
  : outcome number :=
  match violations with
  | [] => Ok total_deduction
  | violation :: rest =>
      total_deduction ← add_deduction total_deduction violation;
      sum_deductions rest total_deduction
  end.

Definition _calculate_score (violations : json) : outcome number :=
  if negb (truthy violations) then Ok (Float 10)
  else
    items ← iter violations;
    total_deduction ← sum_deductions items (Int 0);
    let total_deduction := py_min total_deduction (Int 10) in
    let score := (10 - num_val total_deduction)%Q in
    Ok (py_max (Int 0) (Float (py_round1 score))).

(** *** Evaluation stage (heuristic_agent.py) *)

(** The body of the [try] block of [evaluate]. *)
Definition evaluate_try (vision_analysis : json) : outcome json :=
  prompt ← _create_evaluation_prompt vision_analysis;
  response_text ← generate_content prompt;
  result ← _parse_evaluation_response response_text;
  violations ← get result (u "violations") (JArr []);
  score ← _calculate_score violations;
  setitem result (u "overall_score") (JNum score).

Definition error_result (e : exn) : json := JObj [(u "error", JStr (exn_text e))].

Definition evaluate (vision_analysis : json) : json :=
  match evaluate_try vision_analysis with
  | Ok result => result
  | Raise e => error_result e
  end.

(** *** Feedback stage (feedback_agent.py) *)

Definition generate_feedback_try
    (vision_analysis heuristic_evaluation : json) (platform : str) : outcome json :=
  prompt ← _create_feedback_prompt vision_analysis heuristic_evaluation platform;
  response_text ← generate_content prompt;
  result ← _parse_feedback_response response_text;
  result ← setitem result (u "platform") (JStr platform);
  feedback_items ← get result (u "feedback_items") (JArr []);
  n ← len feedback_items;
  setitem result (u "total_feedback_items") (of_nat n).

Definition generate_feedback
    (vision_analysis heuristic_evaluation : json) (platform : str) : json :=
  match generate_feedback_try vision_analysis heuristic_evaluation platform with
  | Ok result => result
  | Raise e => error_result e
  end.

(** *** Developer report (feedback_agent.py) *)

(** [f"{v}"] *)
Definition fmt (v : json) : str :=
  match v with
  | JStr s => s
  | JNum (Int z) => u (pretty z)
  | JNull => u "None"
  | JBool true => u "True"
  | JBool false => u "False"
  | _ => py_repr v
  end.

(** An f-string given by its pieces. *)
Definition line (pieces : list str) : json := JStr (concat pieces).

(** [report.append] of an f-string. *)
Definition say (pieces : list str) : Report unit := append (line pieces).

(** [f"{v.get(key, dflt)}"] *)
Definition field (v : json) (key : string) (dflt : json) : Report str :=
  x ← lift (get v (u key) dflt); mret (fmt x).

Definition summary_section (summary : json) : Report unit :=
  say [u "## "; [0x1F4CA%N]; u " Summary"; nl];;
  x ← field summary "total_issues" (JNum (Int 0));
  say [u "- **Total Issues Found:** "; x];;
  x ← field summary "critical" (JNum (Int 0));
  say [u "- **Critical:** "; x];;
  x ← field summary "high" (JNum (Int 0));
  say [u "- **High Priority:** "; x];;
  x ← field summary "medium" (JNum (Int 0));
  say [u "- **Medium Priority:** "; x];;
  x ← field summary "low" (JNum (Int 0));
  say [u "- **Low Priority:** "; x];;
  x ← field summary "estimated_total_time" (JStr (u "Unknown"));
  say [u "- **Estimated Time to Fix:** "; x; nl].

Definition quick_win (i : nat) (win : json) : Report unit :=
  x ← field win "change" (JStr (u "N/A"));
  say [u (pretty i); u ". **"; x; u "**"];;
  x ← field win "impact" (JStr (u "N/A"));
  say [u "   - Impact: "; x];;
  x ← field win "effort" (JStr (u "N/A"));
  say [u "   - Effort: "; x; nl].

Definition quick_wins_section (quick_wins : json) : Report unit :=
  when (truthy quick_wins) (
    say [u "## "; [0x26A1%N]; u " Quick Wins (Do These First!)"; nl];;
    say [u "These changes take minimal time but provide maximum impact:"; nl];;
    wins ← lift (iter quick_wins);
    for_each_from 1 wins quick_win).

Definition code_example_block (code_example : json) : Report unit :=
  when (truthy code_example) (
    x ← field code_example "language" (JStr (u "code"));
    say [u "**Code Example ("; x; u "):**"];;
    x ← field code_example "language" (JStr (u "kotlin"));
    say [u "```"; x];;
    code ← lift (get code_example (u "code") (JStr []));
    append code;;
    say [u "```"; nl]).

(** The body of [for item in priority_items]. *)
Definition detail_item (item : json) : Report unit :=
  x ← field item "id" (JStr (u "?"));
  y ← field item "title" (JStr (u "Unknown"));
  say [u "#### "; x; u ". "; y; nl];;
  x ← field item "category" (JStr (u "N/A"));
  say [u "**Category:** "; x; u "  "];;
  x ← field item "estimated_effort" (JStr (u "Unknown"));
  say [u "**Estimated Effort:** "; x; nl];;
  say [u "**Why it matters:**  "];;
  x ← field item "why_it_matters" (JStr (u "N/A"));
  say [x; nl];;
  say [u "**What to do:**"];;
  what_to_do ← lift (get item (u "what_to_do") (JArr []));
  steps ← lift (iter what_to_do);
  for_each steps (fun step => say [u "- "; fmt step]);;
  say [[]];;
  code_example ← lift (get item (u "code_example") (JObj []));
  code_example_block code_example;;
  say [u "**Visual changes needed:**  "];;
  x ← field item "wireframe_changes" (JStr (u "N/A"));
  say [x; nl];;
  say [u "---"; nl].

(** [[item for item in items if item.get('priority') == priority]] *)
Fixpoint select_priority (priority : str) (items : list json) : outcome (list json) :=
  match items with
  | [] => Ok []
  | item :: rest =>
      p ← get item (u "priority") JNull;
      selected ← select_priority priority rest;
      Ok (if eq_str p priority then item :: selected else selected)
  end.

(** The body of [for priority in ['critical', 'high', 'medium', 'low']]. *)
Definition priority_bucket (feedback_items : json) (priority : str) : Report unit :=
  items ← lift (iter feedback_items);
  priority_items ← lift (select_priority priority items);
  when (truthy (JArr priority_items)) (
    say [u "### "; upper priority; u " Priority (";
         u (pretty (length priority_items)); u " items)"; nl];;
    for_each priority_items detail_item).

Definition priorities : list str := [u "critical"; u "high"; u "medium"; u "low"].

(** One bullet list of the visual-design section. *)
Definition bullet_list (title : string) (entries : json) : Report unit :=
  when (truthy entries) (
    say [u title];;
    xs ← lift (iter entries);
    for_each xs (fun x => say [u "- "; fmt x]);;
    say [[]]).

Definition wireframe_section (wireframe_instructions : json) : Report unit :=
  when (truthy wireframe_instructions) (
    say [u "## "; [0x1F3A8%N]; u " Visual Design Changes"; nl];;
    overall ← lift (get wireframe_instructions (u "overall_changes") (JStr []));
    when (truthy overall) (say [u "**Overall:** "; fmt overall; nl]);;
    priority_fixes ← lift (get wireframe_instructions (u "priority_fixes") (JArr []));
    bullet_list "**Priority Visual Fixes:**" priority_fixes;;
    color_adj ← lift (get wireframe_instructions (u "color_adjustments") (JArr []));
    bullet_list "**Color Adjustments:**" color_adj;;
    typo_changes ← lift (get wireframe_instructions (u "typography_changes") (JArr []));
    bullet_list "**Typography Changes:**" typo_changes).

Definition detailed_heading : json :=
  line [u "## "; [0x1F527%N]; u " Detailed Feedback"; nl].

(** The statements of [generate_developer_report] before the final join. *)
Definition developer_report_lines (feedback_result : json) : Report unit :=
  feedback_items ← lift (get feedback_result (u "feedback_items") (JArr []));
  quick_wins ← lift (get feedback_result (u "quick_wins") (JArr []));
  summary ← lift (get feedback_result (u "summary") (JObj []));
  wireframe_instructions ←
    lift (get feedback_result (u "wireframe_instructions") (JObj []));
  say [u "# "; [0x1F3AF%N]; u " UX Feedback Report for Developers"; nl];;
  summary_section summary;;
  quick_wins_section quick_wins;;
  append detailed_heading;;
  for_each priorities (priority_bucket feedback_items);;
  wireframe_section wireframe_instructions.

Definition generate_developer_report (feedback_result : json) : outcome str :=
  match developer_report_lines feedback_result [] with
  | Ok (_, report) => join nl report
  | Raise e => Raise e
  end.

(** *** Evaluation report (heuristic_agent.py) *)

(** ['=' * 70] and ['-' * 70] *)
Definition rule (c : N) : str := replicate 70 c.

(** [sep.join(v)]: [v] has to be iterable and hold strings only. *)
Definition join_value (sep : str) (v : json) : outcome str :=
  items ← iter v; join sep items.

(** [[v for v in violations if v.get('severity') == severity]] *)
Fixpoint select_severity (severity : str) (violations : list json) : outcome (list json) :=
  match violations with
  | [] => Ok []
  | v :: rest =>
      s ← get v (u "severity") JNull;
      selected ← select_severity severity rest;
      Ok (if eq_str s severity then v :: selected else selected)
  end.

(** The body of [for i, v in enumerate(severity_violations, 1)]. *)
Definition violation_entry (i : nat) (v : json) : Report unit :=
  x ← field v "heuristic_name" (JStr (u "Unknown"));
  say [nl; u (pretty i); u ". "; x];;
  x ← field v "issue" (JStr (u "N/A"));
  say [u "   Issue: "; x];;
  components ← lift (get v (u "affected_components") (JArr []));
  affected ← lift (join_value (u ", ") components);
  say [u "   Affected: "; affected];;
  x ← field v "improvement_suggestion" (JStr (u "N/A"));
  say [u "   Suggestion: "; x].

(** The body of [for severity in ['critical', 'high', 'medium', 'low']]. *)
Definition severity_group (violations : json) (severity : str) : Report unit :=
  items ← lift (iter violations);
  severity_violations ← lift (select_severity severity items);
  when (truthy (JArr severity_violations)) (
    say [nl; upper severity; u " Severity (";
         u (pretty (length severity_violations)); u "):"];;
    say [rule 45];;
    for_each_from 1 severity_violations violation_entry).

Definition severities : list str := [u "critical"; u "high"; u "medium"; u "low"].

Definition violations_section (violations : json) : Report unit :=
  when (truthy violations) (
    say [nl; rule 61];;
    n ← lift (len violations);
    say [u "VIOLATIONS FOUND ("; u (pretty n); u ")"];;
    say [rule 61; nl];;
    for_each severities (severity_group violations)).

Definition strength_entry (i : nat) (strength : json) : Report unit :=
  x ← field strength "heuristic_name" (JStr (u "Unknown"));
  say [u (pretty i); u ". "; x];;
  x ← field strength "observation" (JStr (u "N/A"));
  say [u "   "; x; nl].

Definition strengths_section (strengths : json) : Report unit :=
  when (truthy strengths) (
    say [nl; nl; rule 61];;
    n ← lift (len strengths);
    say [u "STRENGTHS ("; u (pretty n); u ")"];;
    say [rule 61; nl];;
    items ← lift (iter strengths);
    for_each_from 1 items strength_entry).

Definition mobile_issue_entry (i : nat) (issue : json) : Report unit :=
  x ← field issue "category" (JStr (u "Unknown"));
  y ← field issue "severity" (JStr (u "unknown"));
  say [u (pretty i); u ". "; x; u " ["; y; u "]"];;
  x ← field issue "issue" (JStr (u "N/A"));
  say [u "   Issue: "; x];;
  x ← field issue "recommendation" (JStr (u "N/A"));
  say [u "   Fix: "; x; nl].

Definition mobile_issues_section (mobile_issues : json) : Report unit :=
  when (truthy mobile_issues) (
    say [nl; rule 61];;
    n ← lift (len mobile_issues);
    say [u "MOBILE-SPECIFIC ISSUES ("; u (pretty n); u ")"];;
    say [rule 61; nl];;
    items ← lift (iter mobile_issues);
    for_each_from 1 items mobile_issue_entry).

(** The statements of [generate_report] before the final join. *)
Definition evaluation_report_lines (evaluation_result : json) : Report unit :=
  violations ← lift (get evaluation_result (u "violations") (JArr []));
  strengths ← lift (get evaluation_result (u "strengths") (JArr []));
  mobile_issues ← lift (get evaluation_result (u "mobile_specific_issues") (JArr []));
  score ← lift (get evaluation_result (u "overall_score") (JNum (Int 0)));
  say [rule 61];;
  say [u "UX HEURISTIC EVALUATION REPORT"];;
  say [rule 61];;
  say [nl; u "**Overall UX Score: "; fmt score; u "/10**"; nl];;
  violations_section violations;;
  strengths_section strengths;;
  mobile_issues_section mobile_issues;;
  say [nl; rule 61].

Definition generate_report (evaluation_result : json) : outcome str :=
  match evaluation_report_lines evaluation_result [] with
  | Ok (_, report) => join nl report
  | Raise e => Raise e
  end.

(** *** Markup extraction (wireframe_agent.py) *)

Definition html_shell (body : str) : str :=
  concat
    [u "<!DOCTYPE html>"; nl;
     u "<html>"; nl;
     u "<head>"; nl;
     u "    <meta charset="; dq; u "UTF-8"; dq; u ">"; nl;
     u "    <meta name="; dq; u "viewport"; dq; u " content="; dq;
     u "width=device-width, initial-scale=1.0"; dq; u ">"; nl;
     u "    <title>Wireframe</title>"; nl;
     u "</head>"; nl;
     u "<body>"; nl;
     body; nl;
     u "</body>"; nl;
     u "</html>"].

(** The text between the first [marker] and the next closing fence; the
    offsets 7 and 3 of the source are the lengths of its two markers. *)
Definition between_fences (cleaned marker : str) : str :=
  let start := (find_z cleaned marker 0 + Z.of_nat (length marker))%Z in
  let stop := find_z cleaned (u "```") (Z.to_nat start) in
  strip (slice cleaned start stop).

Definition has_document_root (cleaned : str) : bool :=
  startswith cleaned (u "<!DOCTYPE") || startswith cleaned (u "<html").

Definition _extract_html (response_text : str) : str :=
  let cleaned := strip response_text in
  let cleaned :=
    if contains cleaned (u "```html") then between_fences cleaned (u "```html")
    else if contains cleaned (u "```") then between_fences cleaned (u "```")
    else cleaned in
  if negb (has_document_root cleaned) then html_shell cleaned else cleaned.

(** *** What the remaining stages take from outside *)

(** [json.dumps(v, indent=2)] *)
Variable json_dumps : json -> str.

(** [self.heuristics], as loaded from the configuration file. *)
Variable heuristics : json.

(** [KeyError(k)], and the exception that [v[k]] or [v[:n]] raises on a
    value that does not support it. *)
Variable key_error : str -> exn.
Variable subscript_error : json -> exn.

(** [open(image_path, "rb").read()], and the model call on an image. *)
Variable read_image : str -> outcome (list Byte.byte).
Variable generate_image_content : list Byte.byte -> str -> outcome str.

(** [str(self._save_html(html_content))], and
    [datetime.now().isoformat()]. *)
Variable _save_html : str -> outcome str.
Variable timestamp : str.

(** [v[k]] with a string key. *)
Definition getitem (v : json) (k : str) : outcome json :=
  match v with
  | JObj d =>
      match lookup k d with
      | Some x => Ok x
      | None => Raise (key_error k)
      end
  | _ => Raise (subscript_error v)
  end.

(** [v[:n]] *)
Definition slice_to (n : nat) (v : json) : outcome json :=
  match v with
  | JArr l => Ok (JArr (take n l))
  | JStr s => Ok (JStr (take n s))
  | _ => Raise (subscript_error v)
  end.

(** *** Perception stage (vision_agent.py) *)

Definition _get_analysis_prompt : str :=
  text [ [];
        u "You are a UI/UX analysis expert. Analyze this mobile app screenshot and extract detailed information.";
        [];
        u "Provide your response ONLY as valid JSON with this exact structure:";
        [];
        u "{";
        q "  ~screen_type~: ~login/home/profile/list/etc~,";
        q "  ~components~: [";
        u "    {";
        q "      ~type~: ~button/text_input/image/label/icon/etc~,";
        q "      ~text~: ~visible text if any~,";
        q "      ~position~: ~top/middle/bottom/top-left/etc~,";
        q "      ~color~: ~describe color~,";
        q "      ~size~: ~small/medium/large~,";
        q "      ~style~: ~primary/secondary/text/outlined/etc~";
        u "    }";
        u "  ],";
        q "  ~layout_structure~: ~describe overall layout~,";
        q "  ~color_scheme~: {";
        q "    ~primary_colors~: [~list of main colors~],";
        q "    ~background~: ~background color~,";
        q "    ~text_colors~: [~list of text colors~]";
        u "  },";
        q "  ~typography~: {";
        q "    ~heading_sizes~: ~describe heading sizes~,";
        q "    ~body_text_size~: ~describe body text size~,";
        q "    ~font_weights~: ~describe font weights used~";
        u "  },";
        q "  ~spacing_and_density~: {";
        q "    ~overall_density~: ~tight/comfortable/spacious~,";
        q "    ~padding~: ~describe padding~,";
        q "    ~element_spacing~: ~describe spacing between elements~";
        u "  },";
        q "  ~interactive_elements~: [";
        u "    {";
        q "      ~element~: ~describe element~,";
        q "      ~action~: ~what it likely does~,";
        q "      ~visibility~: ~how easy to find/use~";
        u "    }";
        u "  ],";
        q "  ~visual_hierarchy~: ~describe how eye flows through the screen~,";
        q "  ~accessibility_observations~: [~list any obvious accessibility issues~],";
        q "  ~notable_patterns~: [~list UI patterns used~]";
        u "}";
        [];
        u "Be specific and detailed. Return ONLY the JSON, no additional text.";
        [] ].

(** The body of the [try] block of [analyze_screenshot]. *)
Definition analyze_screenshot_try (image_path : str) : outcome json :=
  image_bytes ← read_image image_path;
  let prompt := _get_analysis_prompt in
  response_text ← generate_image_content image_bytes prompt;
  _parse_response response_text.

Definition analyze_screenshot (image_path : str) : json :=
  match analyze_screenshot_try image_path with
  | Ok result => result
  | Raise e => error_result e
  end.

(** *** Prompt of the evaluation stage (heuristic_agent.py) *)

(** The body of [for h in self.heuristics['heuristics']]. *)
Definition heuristic_entry (h : json) : Report unit :=
  id ← lift (getitem h (u "id"));
  name ← lift (getitem h (u "name"));
  say [fmt id; u ". "; fmt name];;
  description ← lift (getitem h (u "description"));
  say [u "   Description: "; fmt description];;
  considerations ← lift (getitem h (u "mobile_considerations"));
  first_three ← lift (slice_to 3 considerations);
  joined ← lift (join_value (u ", ") first_three);
  say [u "   Mobile considerations: "; joined];;
  say [[]].

Definition _format_heuristics_for_prompt : outcome str :=
  entries ← getitem heuristics (u "heuristics");
  hs ← iter entries;
  match for_each hs heuristic_entry [] with
  | Ok (_, output) => join nl output
  | Raise e => Raise e
  end.

(** The body of [for guideline in self.heuristics['mobile_specific_guidelines']]. *)
Definition guideline_entry (guideline : json) : Report unit :=
  category ← lift (getitem guideline (u "category"));
  say [u "**"; fmt category; u ":**"];;
  guidelines ← lift (getitem guideline (u "guidelines"));
  gs ← lift (iter guidelines);
  for_each gs (fun g => say [u "  - "; fmt g]);;
  say [[]].

Definition _format_mobile_guidelines : outcome str :=
  entries ← getitem heuristics (u "mobile_specific_guidelines");
  guidelines ← iter entries;
  match for_each guidelines guideline_entry [] with
  | Ok (_, output) => join nl output
  | Raise e => Raise e
  end.

(** [HeuristicAgent._create_evaluation_prompt]; the evaluation stage above
    takes its prompt builder as a parameter of that name. *)
Definition create_evaluation_prompt (vision_analysis : json) : outcome str :=
  screen_type ← get vision_analysis (u "screen_type") (JStr (u "unknown"));
  components ← get vision_analysis (u "components") (JArr []);
  color_scheme ← get vision_analysis (u "color_scheme") (JObj []);
  accessibility_obs ← get vision_analysis (u "accessibility_observations") (JArr []);
  spacing ← get vision_analysis (u "spacing_and_density") (JObj []);
  n ← len components;
  heuristics_text ← _format_heuristics_for_prompt;
  guidelines_text ← _format_mobile_guidelines;
  Ok (concat
      [ text [ [];
            u "You are a UX evaluation expert. Evaluate this mobile UI design against Nielsen's 10 Usability Heuristics and mobile UX best practices.";
            [];
            u "## UI ANALYSIS DATA:";
            [];
            u "**Screen Type:** " ];
        fmt screen_type;
        text [ [];
            [];
            u "**Components Detected:** " ];
        u (pretty n);
        nl;
        json_dumps components;
        text [ [];
            [];
            u "**Color Scheme:**";
            [] ];
        json_dumps color_scheme;
        text [ [];
            [];
            u "**Spacing & Density:**";
            [] ];
        json_dumps spacing;
        text [ [];
            [];
            u "**Accessibility Observations:**";
            [] ];
        json_dumps accessibility_obs;
        text [ [];
            [];
            u "## NIELSEN'S 10 HEURISTICS TO EVALUATE:";
            [];
            [] ];
        heuristics_text;
        text [ [];
            [];
            u "## MOBILE-SPECIFIC GUIDELINES:";
            [];
            [] ];
        guidelines_text;
        text [ [];
            [];
            u "## YOUR TASK:";
            [];
            u "Evaluate this UI against EACH heuristic and identify violations. For each violation found:";
            [];
            u "1. Specify which heuristic is violated";
            u "2. Assign severity: critical/high/medium/low";
            u "3. Describe the specific issue";
            u "4. List affected components";
            u "5. Suggest improvements";
            [];
            u "**IMPORTANT:** Return ONLY valid JSON with this structure:";
            [];
            u "{";
            q "  ~violations~: [";
            u "    {";
            q "      ~heuristic_id~: 1,";
            q "      ~heuristic_name~: ~Visibility of system status~,";
            q "      ~severity~: ~high~,";
            q "      ~issue~: ~Detailed description of the problem~,";
            q "      ~affected_components~: [~component type or name~],";
            q "      ~evidence~: ~What you observed in the UI data~,";
            q "      ~improvement_suggestion~: ~Specific actionable advice~";
            u "    }";
            u "  ],";
            q "  ~strengths~: [";
            u "    {";
            q "      ~heuristic_id~: 4,";
            q "      ~heuristic_name~: ~Consistency and standards~,";
            q "      ~observation~: ~What the UI does well~";
            u "    }";
            u "  ],";
            q "  ~mobile_specific_issues~: [";
            u "    {";
            q "      ~category~: ~Touch Targets / Typography / Color / etc~,";
            q "      ~severity~: ~high/medium/low~,";
            q "      ~issue~: ~Description~,";
            q "      ~recommendation~: ~How to fix~";
            u "    }";
            u "  ]";
            u "}";
            [];
            u "Be thorough but fair. Only report actual violations you can identify from the data.";
            u "Return ONLY the JSON, no additional text.";
            [] ] ]).

(** *** Prompt of the feedback stage (feedback_agent.py) *)

(** [FeedbackAgent._create_feedback_prompt] *)
Definition create_feedback_prompt
    (vision_analysis heuristic_evaluation : json) (platform : str) : outcome str :=
  violations ← get heuristic_evaluation (u "violations") (JArr []);
  mobile_issues ← get heuristic_evaluation (u "mobile_specific_issues") (JArr []);
  screen_type ← get vision_analysis (u "screen_type") (JStr (u "unknown"));
  components ← get vision_analysis (u "components") (JArr []);
  n ← len components;
  Ok (concat
      [ text [ [];
            u "You are a senior UX developer and mentor. Your job is to help a developer improve their mobile UI by providing clear, actionable, and encouraging feedback.";
            [];
            u "## CONTEXT";
            [];
            u "**Platform:** " ];
        platform;
        text [ [];
            u "**Screen Type:** " ];
        fmt screen_type;
        text [ [];
            u "**Components:** " ];
        u (pretty n);
        text [ u " UI elements detected";
            [];
            u "## VIOLATIONS IDENTIFIED";
            [];
            [] ];
        json_dumps violations;
        text [ [];
            [];
            u "## MOBILE-SPECIFIC ISSUES";
            [];
            [] ];
        json_dumps mobile_issues;
        text [ [];
            [];
            u "## YOUR TASK";
            [];
            u "Transform these technical violations into helpful, actionable feedback that a developer can immediately implement. For EACH violation or issue:";
            [];
            q "1. **Title**: Short, action-oriented (e.g., ~Add Loading Indicators~, ~Improve Color Contrast~)";
            u "2. **Why it matters**: Explain the user impact in 1-2 sentences";
            u "3. **What to do**: Step-by-step actions (3-5 bullet points)";
            u "4. **Priority**: critical/high/medium/low based on severity and user impact";
            u "5. **Wireframe change**: Describe visual changes needed (for wireframe generator)";
            [];
            u "## OUTPUT FORMAT";
            [];
            u "Return ONLY valid JSON with this structure:";
            [];
            u "{";
            q "  ~feedback_items~: [";
            u "    {";
            q "      ~id~: 1,";
            q "      ~title~: ~Add Loading State Indicators~,";
            q "      ~category~: ~Visibility of system status~,";
            q "      ~priority~: ~high~,";
            q "      ~why_it_matters~: ~Users need visual feedback when actions are processing. Without loading indicators, users may think the app is frozen or broken, leading to frustration and multiple taps.~,";
            q "      ~what_to_do~: [";
            q "        ~Add a progress indicator when quiz categories are tapped~,";
            q "        ~Show a spinner overlay during data fetching~,";
            q "        ~Disable buttons during loading to prevent double-taps~,";
            q "        ~Add success/error feedback after actions complete~";
            u "      ],";
            q "      ~code_example~: {";
            q "        ~language~: ~kotlin~,";
            q "        ~description~: ~Add loading state with ProgressBar~,";
            q "        ~code~: ~// In your Activity or Fragment\nval progressBar = findViewById<ProgressBar>(R.id.progressBar)\nval quizButton = findViewById<Button>(R.id.quizButton)\n\nquizButton.setOnClickListener {\n    // Show loading\n    progressBar.visibility = View.VISIBLE\n    quizButton.isEnabled = false\n    \n    // Fetch quiz data\n    viewModel.loadQuiz().observe(this) { result ->\n        progressBar.visibility = View.GONE\n        quizButton.isEnabled = true\n        // Handle result\n    }\n}~";
            u "      },";
            q "      ~wireframe_changes~: ~Add a circular progress spinner in the center of each quiz category card when tapped. Show semi-transparent overlay during loading.~,";
            q "      ~affected_components~: [~quiz category cards~],";
            q "      ~estimated_effort~: ~30 minutes~";
            u "    }";
            u "  ],";
            q "  ~wireframe_instructions~: {";
            q "    ~overall_changes~: ~Summary of all visual changes needed~,";
            q "    ~priority_fixes~: [";
            q "      ~Most important visual change #1~,";
            q "      ~Most important visual change #2~,";
            q "      ~Most important visual change #3~";
            u "    ],";
            q "    ~layout_modifications~: [";
            q "      ~Specific layout adjustments needed~";
            u "    ],";
            q "    ~color_adjustments~: [";
            q "      ~Color/contrast changes needed~";
            u "    ],";
            q "    ~typography_changes~: [";
            q "      ~Font size/weight adjustments needed~";
            u "    ]";
            u "  },";
            q "  ~quick_wins~: [";
            u "    {";
            q "      ~change~: ~Increase 'Beginner' text size to 16sp~,";
            q "      ~impact~: ~Improves readability significantly~,";
            q "      ~effort~: ~5 minutes~";
            u "    }";
            u "  ],";
            q "  ~summary~: {";
            q "    ~total_issues~: 6,";
            q "    ~critical~: 0,";
            q "    ~high~: 2,";
            q "    ~medium~: 3,";
            q "    ~low~: 1,";
            q "    ~estimated_total_time~: ~3-4 hours~";
            u "  }";
            u "}";
            [];
            u "Be specific, practical, and encouraging. Focus on actionable improvements that will have the biggest impact on user experience.";
            [] ] ]).

(** *** Wireframe stage (wireframe_agent.py) *)

Definition _create_wireframe_prompt (vision_analysis feedback_result : json)
  : outcome str :=
  screen_type ← get vision_analysis (u "screen_type") (JStr (u "mobile app"));
  components ← get vision_analysis (u "components") (JArr []);
  color_scheme ← get vision_analysis (u "color_scheme") (JObj []);
  feedback_items ← get feedback_result (u "feedback_items") (JArr []);
  wireframe_instructions ← get feedback_result (u "wireframe_instructions") (JObj []);
  first_components ← slice_to 10 components;
  Ok (concat
      [ text [ [];
            u "You are an expert UI/UX designer. Create an IMPROVED mobile UI wireframe in HTML/CSS based on the original design analysis and feedback.";
            [];
            u "## ORIGINAL DESIGN ANALYSIS";
            [];
            u "**Screen Type:** " ];
        fmt screen_type;
        text [ [];
            [];
            u "**Components:**";
            [] ];
        json_dumps first_components;
        text [ [];
            [];
            u "**Color Scheme:**";
            [] ];
        json_dumps color_scheme;
        text [ [];
            [];
            u "## FEEDBACK TO IMPLEMENT";
            [];
            u "**Feedback Items:**";
            [] ];
        json_dumps feedback_items;
        text [ [];
            [];
            u "**Wireframe Instructions:**";
            [] ];
        json_dumps wireframe_instructions;
        text [ [];
            [];
            u "## YOUR TASK";
            [];
            u "Create a COMPLETE, IMPROVED mobile UI wireframe as a single HTML file with embedded CSS.";
            [];
            u "**Requirements:**";
            [];
            u "1. **Mobile-first design** (max-width: 375px, scale up for display)";
            u "2. **Implement ALL feedback suggestions:**";
            u "   - Fix color contrast issues";
            u "   - Adjust typography sizes";
            u "   - Improve spacing and layout";
            u "   - Add missing UI elements (loading indicators, labels, etc.)";
            u "   - Fix inconsistencies";
            [];
            u "3. **Use modern CSS:**";
            u "   - Flexbox/Grid for layout";
            u "   - Proper spacing (padding, margins)";
            u "   - Mobile-friendly touch targets (min 44px)";
            u "   - Smooth transitions and hover states";
            [];
            u "4. **Include annotations:**";
            u "   - Add small labels showing what was improved";
            u "   - Use a subtle annotation style (small text, muted color)";
            [];
            u "5. **Make it realistic but clean:**";
            u "   - Use actual UI components (buttons, cards, inputs)";
            u "   - Include icons (use emoji or Unicode symbols)";
            u "   - Proper visual hierarchy";
            [];
            u "## OUTPUT FORMAT";
            [];
            u "Return ONLY the HTML code inside a single code block, like this:";
            u "```html";
            u "<!DOCTYPE html>";
            u "<html>";
            u "<head>";
            q "    <meta charset=~UTF-8~>";
            q "    <meta name=~viewport~ content=~width=device-width, initial-scale=1.0~>";
            u "    <title>Improved Mobile UI Wireframe</title>";
            u "    <style>";
            u "        /* Your CSS here */";
            u "    </style>";
            u "</head>";
            u "<body>";
            u "    <!-- Your improved UI here -->";
            u "</body>";
            u "</html>";
            u "```";
            [];
            u "Create a complete, functional wireframe that clearly shows the improvements.";
            u "Make it look professional and polished.";
            [] ] ]).

(** The viewer page of [_create_complete_html], cut at its five
    placeholders. *)
Definition viewer_open : str :=
  text [ u "<!DOCTYPE html>";
        q "<html lang=~en~>";
        u "<head>";
        q "    <meta charset=~UTF-8~>";
        q "    <meta name=~viewport~ content=~width=device-width, initial-scale=1.0~>";
        u "    <title>UX Feedback - Improved Wireframe</title>";
        u "    <style>";
        u "        * {";
        u "            margin: 0;";
        u "            padding: 0;";
        u "            box-sizing: border-box;";
        u "        }";
        u "        ";
        u "        body {";
        u "            font-family: -apple-system, BlinkMacSystemFont, 'Segoe UI', Roboto, sans-serif;";
        u "            background: linear-gradient(135deg, #667eea 0%, #764ba2 100%);";
        u "            min-height: 100vh;";
        u "            padding: 20px;";
        u "        }";
        u "        ";
        u "        .container {";
        u "            max-width: 1400px;";
        u "            margin: 0 auto;";
        u "        }";
        u "        ";
        u "        .header {";
        u "            text-align: center;";
        u "            color: white;";
        u "            margin-bottom: 30px;";
        u "        }";
        u "        ";
        u "        .header h1 {";
        u "            font-size: 2.5em;";
        u "            margin-bottom: 10px;";
        u "        }";
        u "        ";
        u "        .stats {";
        u "            background: rgba(255, 255, 255, 0.1);";
        u "            backdrop-filter: blur(10px);";
        u "            border-radius: 15px;";
        u "            padding: 20px;";
        u "            margin-bottom: 30px;";
        u "            color: white;";
        u "        }";
        u "        ";
        u "        .stats-grid {";
        u "            display: grid;";
        u "            grid-template-columns: repeat(auto-fit, minmax(150px, 1fr));";
        u "            gap: 15px;";
        u "            margin-top: 15px;";
        u "        }";
        u "        ";
        u "        .stat-item {";
        u "            text-align: center;";
        u "            padding: 15px;";
        u "            background: rgba(255, 255, 255, 0.1);";
        u "            border-radius: 10px;";
        u "        }";
        u "        ";
        u "        .stat-value {";
        u "            font-size: 2em;";
        u "            font-weight: bold;";
        u "            display: block;";
        u "        }";
        u "        ";
        u "        .stat-label {";
        u "            font-size: 0.9em;";
        u "            opacity: 0.9;";
        u "        }";
        u "        ";
        u "        .wireframe-section {";
        u "            background: white;";
        u "            border-radius: 20px;";
        u "            padding: 30px;";
        u "            box-shadow: 0 20px 60px rgba(0, 0, 0, 0.3);";
        u "        }";
        u "        ";
        u "        .controls {";
        u "            display: flex;";
        u "            gap: 15px;";
        u "            margin-bottom: 20px;";
        u "            flex-wrap: wrap;";
        u "        }";
        u "        ";
        u "        .btn {";
        u "            padding: 12px 24px;";
        u "            border: none;";
        u "            border-radius: 8px;";
        u "            font-size: 16px;";
        u "            font-weight: 600;";
        u "            cursor: pointer;";
        u "            transition: all 0.3s ease;";
        u "            display: flex;";
        u "            align-items: center;";
        u "            gap: 8px;";
        u "        }";
        u "        ";
        u "        .btn-primary {";
        u "            background: #667eea;";
        u "            color: white;";
        u "        }";
        u "        ";
        u "        .btn-primary:hover {";
        u "            background: #5568d3;";
        u "            transform: translateY(-2px);";
        u "            box-shadow: 0 5px 15px rgba(102, 126, 234, 0.4);";
        u "        }";
        u "        ";
        u "        .btn-secondary {";
        u "            background: #48bb78;";
        u "            color: white;";
        u "        }";
        u "        ";
        u "        .btn-secondary:hover {";
        u "            background: #38a169;";
        u "            transform: translateY(-2px);";
        u "            box-shadow: 0 5px 15px rgba(72, 187, 120, 0.4);";
        u "        }";
        u "        ";
        u "        .wireframe-viewer {";
        u "            background: #f7fafc;";
        u "            border-radius: 15px;";
        u "            padding: 20px;";
        u "            min-height: 600px;";
        u "            border: 2px solid #e2e8f0;";
        u "        }";
        u "        ";
        u "        .wireframe-iframe {";
        u "            width: 100%;";
        u "            min-height: 800px;";
        u "            border: none;";
        u "            background: white;";
        u "            border-radius: 10px;";
        u "            box-shadow: 0 4px 6px rgba(0, 0, 0, 0.1);";
        u "        }";
        u "        ";
        u "        .info {";
        u "            margin-top: 20px;";
        u "            padding: 15px;";
        u "            background: #ebf8ff;";
        u "            border-left: 4px solid #3182ce;";
        u "            border-radius: 5px;";
        u "        }";
        u "        ";
        u "        .info h3 {";
        u "            color: #2c5282;";
        u "            margin-bottom: 10px;";
        u "        }";
        u "        ";
        u "        .info ul {";
        u "            margin-left: 20px;";
        u "            color: #2d3748;";
        u "        }";
        u "        ";
        u "        .info li {";
        u "            margin: 5px 0;";
        u "        }";
        u "        ";
        u "        @media (max-width: 768px) {";
        u "            .header h1 {";
        u "                font-size: 1.8em;";
        u "            }";
        u "            ";
        u "            .stats-grid {";
        u "                grid-template-columns: repeat(2, 1fr);";
        u "            }";
        u "            ";
        u "            .controls {";
        u "                flex-direction: column;";
        u "            }";
        u "            ";
        u "            .btn {";
        u "                width: 100%;";
        u "                justify-content: center;";
        u "            }";
        u "        }";
        u "    </style>";
        u "</head>";
        u "<body>";
        q "    <div class=~container~>";
        q "        <div class=~header~>";
        u "            <h1>" ++ [0x1F3A8%N] ++ u " Improved UI Wireframe</h1>";
        u "            <p>Based on UX Heuristic Evaluation & Feedback</p>";
        u "        </div>";
        u "        ";
        q "        <div class=~stats~>";
        u "            <h2>" ++ [0x1F4CA%N] ++ u " Evaluation Summary</h2>";
        q "            <div class=~stats-grid~>";
        q "                <div class=~stat-item~>";
        q "                    <span class=~stat-value~>" ].

Definition viewer_after_total : str :=
  text [ u "</span>";
        q "                    <span class=~stat-label~>Total Issues</span>";
        u "                </div>";
        q "                <div class=~stat-item~>";
        q "                    <span class=~stat-value~ style=~color: #f56565;~>" ].

Definition viewer_after_high : str :=
  text [ u "</span>";
        q "                    <span class=~stat-label~>High Priority</span>";
        u "                </div>";
        q "                <div class=~stat-item~>";
        q "                    <span class=~stat-value~ style=~color: #ed8936;~>" ].

Definition viewer_after_medium : str :=
  text [ u "</span>";
        q "                    <span class=~stat-label~>Medium Priority</span>";
        u "                </div>";
        q "                <div class=~stat-item~>";
        q "                    <span class=~stat-value~ style=~color: #48bb78;~>" ].

Definition viewer_after_low : str :=
  text [ u "</span>";
        q "                    <span class=~stat-label~>Low Priority</span>";
        u "                </div>";
        u "            </div>";
        u "        </div>";
        u "        ";
        q "        <div class=~wireframe-section~>";
        q "            <div class=~controls~>";
        q "                <button class=~btn btn-primary~ onclick=~exportAsPNG()~>";
        u "                    " ++ [0x1F4E5%N] ++ u " Export as PNG";
        u "                </button>";
        q "                <button class=~btn btn-secondary~ onclick=~exportAsJPG()~>";
        u "                    " ++ [0x1F4E5%N] ++ u " Export as JPG";
        u "                </button>";
        q "                <button class=~btn btn-primary~ onclick=~downloadHTML()~>";
        u "                    " ++ [0x1F4BE%N] ++ u " Download HTML";
        u "                </button>";
        u "            </div>";
        u "            ";
        q "            <div class=~wireframe-viewer~>";
        u "                <iframe ";
        q "                    id=~wireframe-iframe~ ";
        q "                    class=~wireframe-iframe~";
        u "                    srcdoc='" ].

Definition viewer_close : str :=
  text [ u "'";
        u "                ></iframe>";
        u "            </div>";
        u "            ";
        q "            <div class=~info~>";
        u "                <h3>" ++ [0x2139%N] ++ [0xFE0F%N] ++ u " How to Export</h3>";
        u "                <ul>";
        u "                    <li><strong>Export as PNG/JPG:</strong> Click the export button to download the wireframe as an image</li>";
        u "                    <li><strong>Download HTML:</strong> Get the complete HTML code to edit further</li>";
        u "                    <li><strong>View in Browser:</strong> This page is already saved and can be opened in any browser</li>";
        u "                </ul>";
        u "            </div>";
        u "        </div>";
        u "    </div>";
        u "    ";
        q "    <script src=~https://cdnjs.cloudflare.com/ajax/libs/html2canvas/1.4.1/html2canvas.min.js~></script>";
        u "    <script>";
        u "        async function exportAsPNG() {";
        u "            const iframe = document.getElementById('wireframe-iframe');";
        u "            const iframeDocument = iframe.contentDocument || iframe.contentWindow.document;";
        u "            ";
        u "            try {";
        u "                const canvas = await html2canvas(iframeDocument.body, {";
        u "                    scale: 2,";
        u "                    backgroundColor: '#ffffff',";
        u "                    logging: false";
        u "                });";
        u "                ";
        u "                canvas.toBlob(function(blob) {";
        u "                    const url = URL.createObjectURL(blob);";
        u "                    const a = document.createElement('a');";
        u "                    a.href = url;";
        u "                    a.download = 'improved-wireframe-' + Date.now() + '.png';";
        u "                    a.click();";
        u "                    URL.revokeObjectURL(url);";
        u "                });";
        u "                ";
        u "                showNotification('PNG export started!');";
        u "            } catch (error) {";
        u "                console.error('Export error:', error);";
        u "                alert('Export failed. Try downloading the HTML instead.');";
        u "            }";
        u "        }";
        u "        ";
        u "        async function exportAsJPG() {";
        u "            const iframe = document.getElementById('wireframe-iframe');";
        u "            const iframeDocument = iframe.contentDocument || iframe.contentWindow.document;";
        u "            ";
        u "            try {";
        u "                const canvas = await html2canvas(iframeDocument.body, {";
        u "                    scale: 2,";
        u "                    backgroundColor: '#ffffff',";
        u "                    logging: false";
        u "                });";
        u "                ";
        u "                canvas.toBlob(function(blob) {";
        u "                    const url = URL.createObjectURL(blob);";
        u "                    const a = document.createElement('a');";
        u "                    a.href = url;";
        u "                    a.download = 'improved-wireframe-' + Date.now() + '.jpg';";
        u "                    a.click();";
        u "                    URL.revokeObjectURL(url);";
        u "                }, 'image/jpeg', 0.95);";
        u "                ";
        u "                showNotification('JPG export started!');";
        u "            } catch (error) {";
        u "                console.error('Export error:', error);";
        u "                alert('Export failed. Try downloading the HTML instead.');";
        u "            }";
        u "        }";
        u "        ";
        u "        function downloadHTML() {";
        u "            const iframe = document.getElementById('wireframe-iframe');";
        u "            const html = iframe.srcdoc;";
        u "            ";
        u "            const blob = new Blob([html], { type: 'text/html' });";
        u "            const url = URL.createObjectURL(blob);";
        u "            const a = document.createElement('a');";
        u "            a.href = url;";
        u "            a.download = 'improved-wireframe-' + Date.now() + '.html';";
        u "            a.click();";
        u "            URL.revokeObjectURL(url);";
        u "            ";
        u "            showNotification('HTML downloaded!');";
        u "        }";
        u "        ";
        u "        function showNotification(message) {";
        u "            const notification = document.createElement('div');";
        u "            notification.textContent = message;";
        u "            notification.style.cssText = `";
        u "                position: fixed;";
        u "                top: 20px;";
        u "                right: 20px;";
        u "                background: #48bb78;";
        u "                color: white;";
        u "                padding: 15px 25px;";
        u "                border-radius: 8px;";
        u "                box-shadow: 0 4px 6px rgba(0,0,0,0.1);";
        u "                z-index: 10000;";
        u "                animation: slideIn 0.3s ease;";
        u "            `;";
        u "            document.body.appendChild(notification);";
        u "            ";
        u "            setTimeout(() => {";
        u "                notification.style.animation = 'slideOut 0.3s ease';";
        u "                setTimeout(() => notification.remove(), 300);";
        u "            }, 3000);";
        u "        }";
        u "    </script>";
        u "    ";
        u "    <style>";
        u "        @keyframes slideIn {";
        u "            from { transform: translateX(400px); opacity: 0; }";
        u "            to { transform: translateX(0); opacity: 1; }";
        u "        }";
        u "        ";
        u "        @keyframes slideOut {";
        u "            from { transform: translateX(0); opacity: 1; }";
        u "            to { transform: translateX(400px); opacity: 0; }";
        u "        }";
        u "    </style>";
        u "</body>";
        u "</html>" ].

Definition _create_complete_html
    (wireframe_html : str) (vision_analysis feedback_result : json) : outcome str :=
  summary ← get feedback_result (u "summary") (JObj []);
  total_issues ← get summary (u "total_issues") (JNum (Int 0));
  high ← get summary (u "high") (JNum (Int 0));
  medium ← get summary (u "medium") (JNum (Int 0));
  low ← get summary (u "low") (JNum (Int 0));
  Ok (concat
        [ viewer_open; fmt total_issues; viewer_after_total; fmt high;
          viewer_after_high; fmt medium; viewer_after_medium; fmt low;
          viewer_after_low; replace wireframe_html (u "'") (u "&#39;");
          viewer_close ]).

(** The body of the [try] block of [generate_wireframe]. *)
Definition generate_wireframe_try (vision_analysis feedback_result : json)
  : outcome json :=
  prompt ← _create_wireframe_prompt vision_analysis feedback_result;
  response_text ← generate_content prompt;
  let html_code := _extract_html response_text in
  complete_html ← _create_complete_html html_code vision_analysis feedback_result;
  output_path ← _save_html complete_html;
  Ok (JObj [(u "wireframe_html", JStr html_code);
            (u "complete_html", JStr complete_html);
            (u "output_path", JStr output_path);
            (u "timestamp", JStr timestamp)]).

Definition generate_wireframe (vision_analysis feedback_result : json) : json :=
  match generate_wireframe_try vision_analysis feedback_result with
  | Ok result => result
  | Raise e => error_result e
  end.

(** *** Vocabulary of the statements below *)

(** [n] is the number of items of the sequence [v]: the items of a list,
    the characters of a string, the keys of a mapping. *)
Inductive has_length : json -> nat -> Prop :=
| length_of_list (l : list json) : has_length (JArr l) (length l)
| length_of_text (s : str) : has_length (JStr s) (length s)
| length_of_dict (d : list (str * json)) : has_length (JObj d) (length d).

(** [a] occurs in [b] as a contiguous piece. *)
Definition within (a b : str) : Prop := exists pre post, b = pre ++ a ++ post.

(** A response that carries no fence and no surrounding white space. *)
Definition bare (b : str) : Prop :=
  strip b = b /\ startswith b (u "```") = false /\ endswith b (u "```") = false.

Definition fenced_json (b : str) : str := u "```json" ++ nl ++ b ++ nl ++ u "```".
Definition fenced_plain (b : str) : str := u "```" ++ nl ++ b ++ nl ++ u "```".

(** A result that carries a failure key next to a stage-computed field. *)
Definition mixes_shapes (result : json) : bool :=
  (has_key result (u "parse_error") || has_key result (u "error"))
  && (has_key result (u "overall_score") || has_key result (u "platform")
      || has_key result (u "total_feedback_items")).

(** The severity a violation record is scored with. *)
Definition severity_of (violation : list (str * json)) : json :=
  default (JStr (u "low")) (lookup (u "severity") violation).

Definition hashable (v : json) : bool :=
  match v with
  | JArr _ | JObj _ => false
  | _ => true
  end.

(** The deduction table in the words of the specification. *)
Definition weight (severity : json) : Q :=
  match severity with
  | JStr s =>
      if decide (s = u "critical") then 10
      else if decide (s = u "high") then 3
      else if decide (s = u "medium") then 1
      else if decide (s = u "low") then 3 # 10
      else 0
  | _ => 0
  end.

Definition total_weight (violations : list (list (str * json))) : Q :=
  foldr (fun d acc => weight (severity_of d) + acc)%Q 0%Q violations.

Definition known_severity (s : str) : Prop :=
  s = u "critical" \/ s = u "high" \/ s = u "medium" \/ s = u "low".

(** A violation record that carries nothing but a severity label. *)
(** The deduction of a severity in tenths, and the sum over a list. *)
Definition tenths_of (severity : json) : Z :=
  match severity with
  | JStr s =>
      if decide (s = u "critical") then 100
      else if decide (s = u "high") then 30
      else if decide (s = u "medium") then 10
      else if decide (s = u "low") then 3
      else 0
  | _ => 0
  end.

Definition total_tenths (violations : list (list (str * json))) : Z :=
  foldr (fun d acc => tenths_of (severity_of d) + acc)%Z 0%Z violations.

Definition violation_with (severity : string) : json :=
  JObj [(u "severity", JStr (u severity))].

(** The repair step of [_extract_html] on an extracted text. *)
Definition repair (core : str) : str :=
  if has_document_root core then core else html_shell core.

(** The prefix/suffix trim of the parse routines, for any opening fence. *)
Definition prefix_suffix_trim (opening response_text : str) : str :=
  let cleaned := strip response_text in
  let cleaned :=
    if startswith cleaned opening then drop (length opening) cleaned
    else if startswith cleaned (u "```") then drop 3 cleaned
    else cleaned in
  let cleaned :=
    if endswith cleaned (u "```") then take (length cleaned - 3) cleaned
    else cleaned in
  strip cleaned.

(** [marker] occurs in [s] right after [pre], and nowhere before that
    place; [rest] is what follows it. *)
Definition first_occurrence (marker s pre rest : str) : Prop :=
  s = pre ++ marker ++ rest /\
  forall a b, s = a ++ marker ++ b -> length pre <= length a.

Definition raw_response_entry (response_text : str) : str * json :=
  (u "raw_response", JStr response_text).

Definition parse_error_entry (msg : str) : str * json :=
  (u "parse_error", JStr (exn_text (JSONDecodeError msg))).

(** The lines a report computation appends to an empty report. *)
Definition lines_of (m : Report unit) : outcome (list json) :=
  match m [] with
  | Ok (_, report) => Ok report
  | Raise e => Raise e
  end.

(** A computation that only ever appends to the report it is given. *)
Definition appends_only {A : Type} (m : Report A) : Prop :=
  forall report,
    m report = match m [] with
               | Ok (a, out) => Ok (a, report ++ out)
               | Raise e => Raise e
               end.

(** A computation that returns [a] and appends exactly [out]. *)
Definition produces {A : Type} (m : Report A) (a : A) (out : list json) : Prop :=
  forall report, m report = Ok (a, report ++ out).

Definition is_text (v : json) : bool := match v with JStr _ => true | _ => false end.
Definition is_list (v : json) : bool := match v with JArr _ => true | _ => false end.
Definition is_dict (v : json) : bool := match v with JObj _ => true | _ => false end.

(** A computation that succeeds and appends strings only. *)
Definition renders (m : Report unit) : Prop :=
  exists out, produces m tt out /\ Forall (fun x => is_text x = true) out.

(** [item.get('priority') == priority], for an item that is a mapping. *)
Definition has_priority (priority : str) (item : json) : bool :=
  match item with
  | JObj d => eq_str (default JNull (lookup (u "priority") d)) priority
  | _ => false
  end.

(** The elements a [for] loop visits in [v]: the items of a list, the
    characters of a string, the keys of a mapping. *)
Inductive elements : json -> list json -> Prop :=
  | elements_list l : elements (JArr l) l
  | elements_text s : elements (JStr s) (map (fun c => JStr [c]) s)
  | elements_dict d : elements (JObj d) (map (fun kv => JStr (fst kv)) d).

(** The four lines of a code example [c]; the third is the [code] value
    itself, as it was given. *)
Definition example_lines (c : list (str * json)) : list json :=
  [JStr (u "**Code Example (" ++ fmt (default (JStr (u "code")) (lookup (u "language") c))
         ++ u "):**");
   JStr (u "```" ++ fmt (default (JStr (u "kotlin")) (lookup (u "language") c)));
   default (JStr []) (lookup (u "code") c);
   JStr (u "```" ++ nl)].

(** The lines of one feedback item [d], written out; [steps] are the
    elements of its [what_to_do] and [example] the lines of its code
    example. *)
Definition item_lines (d : list (str * json)) (steps example : list json) : list json :=
  let shown key dflt := fmt (default (JStr (u dflt)) (lookup (u key) d)) in
  [JStr (u "#### " ++ shown "id" "?" ++ u ". " ++ shown "title" "Unknown" ++ nl);
   JStr (u "**Category:** " ++ shown "category" "N/A" ++ u "  ");
   JStr (u "**Estimated Effort:** " ++ shown "estimated_effort" "Unknown" ++ nl);
   JStr (u "**Why it matters:**  ");
   JStr (shown "why_it_matters" "N/A" ++ nl);
   JStr (u "**What to do:**")]
  ++ map (fun step => JStr (u "- " ++ fmt step)) steps
  ++ [JStr []]
  ++ example
  ++ [JStr (u "**Visual changes needed:**  ");
      JStr (shown "wireframe_changes" "N/A" ++ nl);
      JStr (u "---" ++ nl)].

(** [block] is the rendering of the feedback item [item]. *)
Definition is_item_block (item : json) (block : list json) : Prop :=
  exists d steps example,
    item = JObj d /\
    elements (default (JArr []) (lookup (u "what_to_do") d)) steps /\
    (let code_example := default (JObj []) (lookup (u "code_example") d) in
     if truthy code_example
     then exists c, code_example = JObj c /\ example = example_lines c
     else example = []) /\
    block = item_lines d steps example.

(** [lines] is the rendering of one priority bucket of [items]. *)
Definition is_bucket (priority : str) (items lines : list json) : Prop :=
  let chosen := List.filter (has_priority priority) items in
  sublist chosen items /\
  match chosen with
  | [] => lines = []
  | _ :: _ =>
      exists blocks,
        Forall2 is_item_block chosen blocks /\
        lines = JStr (u "### " ++ upper priority ++ u " Priority ("
                      ++ u (pretty (length chosen)) ++ u " items)" ++ nl)
                :: concat blocks
  end.

(** [lines] is one bullet list of the visual-design section. *)
Definition is_bullet_list (title : string) (entries : json) (lines : list json) : Prop :=
  if truthy entries
  then exists xs, elements entries xs /\
         lines = JStr (u title) :: map (fun x => JStr (u "- " ++ fmt x)) xs ++ [JStr []]
  else lines = [].

Definition visual_heading : json :=
  line [u "## "; [0x1F3A8%N]; u " Visual Design Changes"; nl].

(** [lines] is the visual-design section for [wireframe_instructions]. *)
Definition is_visual_section (wireframe_instructions : json) (lines : list json) : Prop :=
  if truthy wireframe_instructions
  then exists d overall fixes colors typo,
         wireframe_instructions = JObj d /\
         lines = [visual_heading] ++ overall ++ fixes ++ colors ++ typo /\
         overall = (let o := default (JStr []) (lookup (u "overall_changes") d) in
                    if truthy o then [line [u "**Overall:** "; fmt o; nl]] else []) /\
         is_bullet_list "**Priority Visual Fixes:**"
           (default (JArr []) (lookup (u "priority_fixes") d)) fixes /\
         is_bullet_list "**Color Adjustments:**"
           (default (JArr []) (lookup (u "color_adjustments") d)) colors /\
         is_bullet_list "**Typography Changes:**"
           (default (JArr []) (lookup (u "typography_changes") d)) typo
  else lines = [].

(** The seven lines of the summary [s]. *)
Definition summary_lines (s : list (str * json)) : list json :=
  let count key := fmt (default (JNum (Int 0)) (lookup (u key) s)) in
  [JStr (u "## " ++ [0x1F4CA%N] ++ u " Summary" ++ nl);
   JStr (u "- **Total Issues Found:** " ++ count "total_issues");
   JStr (u "- **Critical:** " ++ count "critical");
   JStr (u "- **High Priority:** " ++ count "high");
   JStr (u "- **Medium Priority:** " ++ count "medium");
   JStr (u "- **Low Priority:** " ++ count "low");
   JStr (u "- **Estimated Time to Fix:** "
         ++ fmt (default (JStr (u "Unknown")) (lookup (u "estimated_total_time") s)) ++ nl)].

(** [block] is the rendering of the quick win [win], numbered [i]. *)
Definition is_quick_win_block (i : nat) (win : json) (block : list json) : Prop :=
  exists w,
    win = JObj w /\
    let shown key := fmt (default (JStr (u "N/A")) (lookup (u key) w)) in
    block = [JStr (u (pretty i) ++ u ". **" ++ shown "change" ++ u "**");
             JStr (u "   - Impact: " ++ shown "impact");
             JStr (u "   - Effort: " ++ shown "effort" ++ nl)].

(** [lines] is the quick-wins section: nothing for an empty value, else two
    heading lines and the wins numbered from 1. *)
Definition is_quick_wins (quick_wins : json) (lines : list json) : Prop :=
  if truthy quick_wins
  then exists wins blocks,
         elements quick_wins wins /\
         Forall2 (fun ix block => is_quick_win_block (fst ix) (snd ix) block)
                 (zip (seq 1 (length wins)) wins) blocks /\
         lines = JStr (u "## " ++ [0x26A1%N] ++ u " Quick Wins (Do These First!)" ++ nl)
                 :: JStr (u "These changes take minimal time but provide maximum impact:"
                          ++ nl)
                 :: concat blocks
  else lines = [].

(** [lines] is the part of the report ahead of the detailed feedback: the
    title, the summary and the quick wins. *)
Definition is_front_matter (summary quick_wins : json) (lines : list json) : Prop :=
  exists s quick,
    summary = JObj s /\
    is_quick_wins quick_wins quick /\
    lines = JStr (u "# " ++ [0x1F3AF%N] ++ u " UX Feedback Report for Developers" ++ nl)
            :: summary_lines s ++ quick.

(** Field types under which the report renders. A field that is absent is
    always acceptable. *)
Definition field_ok (d : list (str * json)) (key : string) (ok : json -> bool) : bool :=
  match lookup (u key) d with
  | Some v => ok v
  | None => true
  end.

Definition list_of (ok : json -> bool) (v : json) : bool :=
  match v with
  | JArr l => forallb ok l
  | _ => false
  end.

Definition code_example_ok (v : json) : bool :=
  match v with
  | JNull => true
  | JObj d => field_ok d "code" is_text
  | _ => false
  end.

Definition item_ok (v : json) : bool :=
  match v with
  | JObj d => field_ok d "what_to_do" is_list && field_ok d "code_example" code_example_ok
  | _ => false
  end.

Definition wireframe_instructions_ok (v : json) : bool :=
  match v with
  | JObj d =>
      field_ok d "priority_fixes" is_list && field_ok d "color_adjustments" is_list
      && field_ok d "typography_changes" is_list
  | _ => false
  end.

Definition well_typed (feedback_result : json) : bool :=
  match feedback_result with
  | JObj d =>
      field_ok d "feedback_items" (list_of item_ok)
      && field_ok d "quick_wins" (list_of is_dict)
      && field_ok d "summary" is_dict
      && field_ok d "wireframe_instructions" wireframe_instructions_ok
  | _ => false
  end.

(** The report of the empty mapping, line by line. *)
Definition empty_report : list str :=
  [u "# " ++ [0x1F3AF%N] ++ u " UX Feedback Report for Developers" ++ nl;
   u "## " ++ [0x1F4CA%N] ++ u " Summary" ++ nl;
   u "- **Total Issues Found:** 0";
   u "- **Critical:** 0";
   u "- **High Priority:** 0";
   u "- **Medium Priority:** 0";
   u "- **Low Priority:** 0";
   u "- **Estimated Time to Fix:** Unknown" ++ nl;
   u "## " ++ [0x1F527%N] ++ u " Detailed Feedback" ++ nl].

(** [sep.join] of a list of strings. *)
Fixpoint join_text (sep : str) (l : list str) : str :=
  match l with
  | [] => []
  | [s] => s
  | s :: l' => s ++ sep ++ join_text sep l'
  end.

(** A list item that [_calculate_score] can score: a mapping whose
    severity, if present, is hashable. *)
Definition scorable (v : json) : bool :=
  match v with
  | JObj d => hashable (severity_of d)
  | _ => false
  end.

(** The exception the loop of [_calculate_score] raises at an item. *)
Definition score_error (v : json) : exn :=
  match v with
  | JObj d => TypeError Unhashable (type_name (severity_of d))
  | _ => AttributeError (type_name v) (u "get")
  end.

(** The text of a JSON object: it opens and closes with a brace. *)
Definition is_object_text (b : str) : Prop := exists m, b = u "{" ++ m ++ u "}".

(** [v.get('severity') == severity], for a violation that is a mapping. *)
Definition has_severity (severity : str) (v : json) : bool :=
  match v with
  | JObj d => eq_str (default JNull (lookup (u "severity") d)) severity
  | _ => false
  end.

(** A violation that some severity group of the evaluation report lists. *)
Definition listed (v : json) : bool := existsb (fun s => has_severity s v) severities.

(** [block] is the rendering of the violation [v], numbered [i]: four
    lines, the affected components joined by a comma and a space. *)
Definition is_violation_block (i : nat) (v : json) (block : list json) : Prop :=
  exists d affected,
    v = JObj d /\
    elements (default (JArr []) (lookup (u "affected_components") d)) (map JStr affected) /\
    block =
      [JStr (nl ++ u (pretty i) ++ u ". "
             ++ fmt (default (JStr (u "Unknown")) (lookup (u "heuristic_name") d)));
       JStr (u "   Issue: " ++ fmt (default (JStr (u "N/A")) (lookup (u "issue") d)));
       JStr (u "   Affected: " ++ join_text (u ", ") affected);
       JStr (u "   Suggestion: "
             ++ fmt (default (JStr (u "N/A")) (lookup (u "improvement_suggestion") d)))].

(** [lines] is the rendering of one severity group of [items]: a heading, a
    dashed rule, and the entries numbered from 1. *)
Definition is_severity_group (severity : str) (items lines : list json) : Prop :=
  let chosen := List.filter (has_severity severity) items in
  match chosen with
  | [] => lines = []
  | _ :: _ =>
      exists blocks,
        Forall2 (fun ix block => is_violation_block (fst ix) (snd ix) block)
                (zip (seq 1 (length chosen)) chosen) blocks /\
        lines = JStr (nl ++ upper severity ++ u " Severity ("
                      ++ u (pretty (length chosen)) ++ u "):")
                :: JStr (replicate 70 45%N)
                :: concat blocks
  end.

(** [lines] is the violations section of the evaluation report. *)
Definition is_violations_section (violations : json) (lines : list json) : Prop :=
  if truthy violations
  then exists items g_critical g_high g_medium g_low,
         elements violations items /\
         lines = [JStr (nl ++ replicate 70 61%N);
                  JStr (u "VIOLATIONS FOUND (" ++ u (pretty (length items)) ++ u ")");
                  JStr (replicate 70 61%N ++ nl)]
                 ++ g_critical ++ g_high ++ g_medium ++ g_low /\
         is_severity_group (u "critical") items g_critical /\
         is_severity_group (u "high") items g_high /\
         is_severity_group (u "medium") items g_medium /\
         is_severity_group (u "low") items g_low
  else lines = [].

(** The four lines every evaluation report opens with. *)
Definition evaluation_report_head (score : json) : list json :=
  [line [rule 61]; line [u "UX HEURISTIC EVALUATION REPORT"]; line [rule 61];
   line [nl; u "**Overall UX Score: "; fmt score; u "/10**"; nl]].

(** The evaluation report that has no section: the banner, the score line
    and the closing rule. *)
Definition bare_evaluation_report (score : json) : str :=
  join_text nl [rule 61; u "UX HEURISTIC EVALUATION REPORT"; rule 61;
                nl ++ u "**Overall UX Score: " ++ fmt score ++ u "/10**" ++ nl;
                nl ++ rule 61].

(** Field types under which the evaluation report renders. *)
Definition violation_ok (v : json) : bool :=
  match v with
  | JObj d => field_ok d "affected_components" (list_of is_text)
  | _ => false
  end.

Definition evaluation_ok (evaluation_result : json) : bool :=
  match evaluation_result with
  | JObj d =>
      field_ok d "violations" (list_of violation_ok)
      && field_ok d "strengths" (list_of is_dict)
      && field_ok d "mobile_specific_issues" (list_of is_dict)
  | _ => false
  end.

(** Two mappings that hold the same value, or both none, under each of
    [keys]. *)
Definition agree_on (keys : list str) (d d' : list (str * json)) : Prop :=
  Forall (fun k => lookup k d = lookup k d') keys.

(** The fields of the perception result that the evaluation prompt reads. *)
Definition evaluation_prompt_fields : list str :=
  [u "screen_type"; u "components"; u "color_scheme";
   u "accessibility_observations"; u "spacing_and_density"].

(** The fields the feedback prompt reads, of the perception result and of
    the evaluation result. *)
Definition feedback_prompt_analysis_fields : list str :=
  [u "screen_type"; u "components"].
Definition feedback_prompt_evaluation_fields : list str :=
  [u "violations"; u "mobile_specific_issues"].

(** The fields the wireframe stage reads, of the perception result and of
    the feedback result. *)
Definition wireframe_analysis_fields : list str :=
  [u "screen_type"; u "components"; u "color_scheme"].
Definition wireframe_feedback_fields : list str :=
  [u "feedback_items"; u "wireframe_instructions"; u "summary"].

(** The single quote, and the text that stands for it in the viewer page. *)
Definition quote : N := 39%N.
Definition escaped (wireframe_html : str) : str :=
  replace wireframe_html (u "'") (u "&#39;").

(** The result mapping of a wireframe stage that went through. *)
Definition wireframe_result (html_code complete_html output_path : str) : json :=
  JObj [(u "wireframe_html", JStr html_code);
        (u "complete_html", JStr complete_html);
        (u "output_path", JStr output_path);
        (u "timestamp", JStr timestamp)].

(** The four lines one heuristic contributes to the prompt. *)
Definition is_heuristic_block (h : json) (block : list json) : Prop :=
  exists d id name description considerations shown,
    h = JObj d /\
    lookup (u "id") d = Some id /\ lookup (u "name") d = Some name /\
    lookup (u "description") d = Some description /\
    lookup (u "mobile_considerations") d = Some considerations /\
    ((exists l, considerations = JArr l /\ take 3 l = map JStr shown) \/
     (exists t, considerations = JStr t /\ shown = map (fun c => [c]) (take 3 t))) /\
    block = [JStr (fmt id ++ u ". " ++ fmt name);
             JStr (u "   Description: " ++ fmt description);
             JStr (u "   Mobile considerations: " ++ join_text (u ", ") shown);
             JStr []].

(** ** Facts about the string primitives *)

Lemma lstrip_spec s : exists pre, s = pre ++ lstrip s.
Proof.
  induction s as [|c s [pre IH]]; [by exists []|]. simpl.
  destruct (isspace c); [exists (c :: pre); simpl; congruence | by exists []].
Qed.

Lemma rstrip_spec s : exists post, s = rstrip s ++ post.
Proof.
  unfold rstrip. destruct (lstrip_spec (rev s)) as [pre H].
  exists (rev pre). rewrite <- rev_app_distr, <- H. by rewrite rev_involutive.
Qed.

Lemma within_refl s : within s s.
Proof. exists [], []. by rewrite app_nil_r. Qed.

Lemma within_trans a b c : within a b -> within b c -> within a c.
Proof.
  intros (p1 & q1 & ->) (p2 & q2 & ->).
  exists (p2 ++ p1), (q1 ++ q2). by rewrite <- !app_assoc.
Qed.

Lemma within_drop n s : within (drop n s) s.
Proof. exists (take n s), []. by rewrite app_nil_r, take_drop. Qed.

Lemma within_take n s : within (take n s) s.
Proof. exists [], (drop n s). simpl. by rewrite take_drop. Qed.

Lemma within_strip s : within (strip s) s.
Proof.
  unfold strip. destruct (lstrip_spec s) as [pre H].
  destruct (rstrip_spec (lstrip s)) as [post H'].
  exists pre, post. by rewrite <- H', <- H.
Qed.

Lemma startswith_app p r : startswith (p ++ r) p = true.
Proof.
  induction p as [|a p IH]; simpl; [done|]. by rewrite N.eqb_refl, IH.
Qed.

Lemma startswith_inv s p : startswith s p = true -> exists r, s = p ++ r.
Proof.
  revert s. induction p as [|a p IH]; intros s H; [by exists s|].
  destruct s as [|b s]; simpl in H; [done|].
  apply andb_true_iff in H as [Hab H]. apply N.eqb_eq in Hab as ->.
  destruct (IH _ H) as [r ->]. by exists r.
Qed.

Lemma startswith_shorter s p q : startswith s (p ++ q) = true -> startswith s p = true.
Proof.
  intros H. destruct (startswith_inv _ _ H) as [r ->].
  rewrite <- app_assoc. apply startswith_app.
Qed.

Lemma endswith_app r p : endswith (r ++ p) p = true.
Proof. unfold endswith. rewrite rev_app_distr. apply startswith_app. Qed.

Lemma take_without_suffix (r p : str) : take (length (r ++ p) - length p) (r ++ p) = r.
Proof.
  rewrite length_app. replace (length r + length p - length p) with (length r) by lia.
  by rewrite take_app_length.
Qed.

Lemma lstrip_head c s : isspace c = false -> lstrip (c :: s) = c :: s.
Proof. intros H. simpl. by rewrite H. Qed.

Lemma rstrip_last s c : isspace c = false -> rstrip (s ++ [c]) = s ++ [c].
Proof.
  intros H. unfold rstrip. rewrite rev_app_distr. simpl. rewrite H.
  change (c :: rev s) with ([c] ++ rev s).
  by rewrite rev_app_distr, rev_involutive.
Qed.

Lemma rstrip_space s c : isspace c = true -> rstrip (s ++ [c]) = rstrip s.
Proof. intros H. unfold rstrip. rewrite rev_app_distr. simpl. by rewrite H. Qed.

Lemma strip_space_r s c : isspace c = true -> strip (s ++ [c]) = strip s.
Proof.
  intros H. unfold strip. induction s as [|x s IH]; simpl.
  - by rewrite H.
  - destruct (isspace x) eqn:Hx; [done|].
    change (x :: s ++ [c]) with ((x :: s) ++ [c]). by apply rstrip_space.
Qed.

Lemma strip_space_l s c : isspace c = true -> strip (c :: s) = strip s.
Proof. intros H. unfold strip. simpl. by rewrite H. Qed.

Lemma lstrip_id s : (forall c, head s = Some c -> isspace c = false) -> lstrip s = s.
Proof. destruct s as [|c s]; simpl; [done|]. intros H. by rewrite (H c). Qed.

Lemma rstrip_id s : (forall c, last s = Some c -> isspace c = false) -> rstrip s = s.
Proof.
  intros H. destruct s as [|x s _] using rev_ind; [done|].
  apply rstrip_last, H, last_snoc.
Qed.

Lemma strip_id s :
  (forall c, head s = Some c -> isspace c = false) ->
  (forall c, last s = Some c -> isspace c = false) -> strip s = s.
Proof. intros H1 H2. unfold strip. rewrite (lstrip_id _ H1). by apply rstrip_id. Qed.

Lemma strip_between_newlines b : strip (nl ++ b ++ nl) = strip b.
Proof.
  unfold nl. simpl. rewrite strip_space_l by reflexivity.
  by rewrite strip_space_r.
Qed.

Lemma lstrip_head_nonspace s c : head (lstrip s) = Some c -> isspace c = false.
Proof.
  induction s as [|x s IH]; simpl; [done|].
  destruct (isspace x) eqn:Hx; [done|]. simpl. by intros [= <-].
Qed.

Lemma last_rev {A : Type} (l : list A) : last (rev l) = head l.
Proof. destruct l as [|x l]; simpl; [done|apply last_snoc]. Qed.

Lemma rstrip_last_nonspace s c : last (rstrip s) = Some c -> isspace c = false.
Proof. unfold rstrip. rewrite last_rev. apply lstrip_head_nonspace. Qed.

Lemma rstrip_head s c : head (rstrip s) = Some c -> head s = Some c.
Proof.
  destruct (rstrip_spec s) as [post H]. intros Hh. rewrite H.
  by destruct (rstrip s).
Qed.

Lemma strip_idem s : strip (strip s) = strip s.
Proof.
  apply strip_id.
  - intros c H. unfold strip in H. apply rstrip_head in H.
    by apply lstrip_head_nonspace in H.
  - intros c H. by apply rstrip_last_nonspace in H.
Qed.

(** ** Fence stripping *)

Lemma drop_fence_suffix (r : str) :
  (if endswith (r ++ u "```") (u "```")
   then take (length (r ++ u "```") - 3) (r ++ u "```") else r ++ u "```") = r.
Proof. rewrite endswith_app. apply (take_without_suffix r (u "```")). Qed.

Lemma strip_fenced_json b : strip (fenced_json b) = fenced_json b.
Proof.
  apply strip_id; unfold fenced_json.
  - intros c H. vm_compute in H. by injection H as <-.
  - intros c. rewrite !app_assoc, last_app. by intros [= <-].
Qed.

Lemma strip_fenced_plain b : strip (fenced_plain b) = fenced_plain b.
Proof.
  apply strip_id; unfold fenced_plain.
  - intros c H. vm_compute in H. by injection H as <-.
  - intros c. rewrite !app_assoc, last_app. by intros [= <-].
Qed.

Lemma clean_fences_fenced_json b : clean_fences (fenced_json b) = strip b.
Proof.
  unfold clean_fences. rewrite strip_fenced_json. unfold fenced_json.
  rewrite (startswith_app (u "```json")).
  change 7 with (length (u "```json")). rewrite drop_app_length.
  rewrite !app_assoc, drop_fence_suffix, <- app_assoc.
  apply strip_between_newlines.
Qed.

Lemma clean_fences_fenced_plain b : clean_fences (fenced_plain b) = strip b.
Proof.
  unfold clean_fences. rewrite strip_fenced_plain. unfold fenced_plain.
  assert (startswith (u "```" ++ nl ++ b ++ nl ++ u "```") (u "```json") = false)
    as -> by reflexivity.
  rewrite (startswith_app (u "```")).
  change 3 with (length (u "```")) at 1. rewrite drop_app_length.
  rewrite !app_assoc, drop_fence_suffix, <- app_assoc.
  apply strip_between_newlines.
Qed.

Lemma clean_fences_bare b : bare b -> clean_fences b = b.
Proof.
  intros (Hs & Hp & He). unfold clean_fences. rewrite Hs.
  destruct (startswith b (u "```json")) eqn:Hj.
  - apply (startswith_shorter b (u "```") (u "json")) in Hj. congruence.
  - by rewrite Hp, He.
Qed.

Lemma clean_fences_is_trim s : clean_fences s = prefix_suffix_trim (u "```json") s.
Proof. reflexivity. Qed.

Lemma clean_fences_within s : within (clean_fences s) s.
Proof.
  unfold clean_fences. cbv zeta.
  eapply within_trans; [apply within_strip|].
  eapply within_trans; [|apply (within_strip s)].
  set (t := strip s).
  eapply within_trans with
    (b := if startswith t (u "```json") then drop 7 t
          else if startswith t (u "```") then drop 3 t else t).
  - case_match; first [apply within_take | apply within_refl].
  - repeat case_match; first [apply within_drop | apply within_refl].
Qed.

Lemma startswith_cancel p r t : startswith (p ++ r) (p ++ t) = startswith r t.
Proof. induction p as [|a p IH]; simpl; [done|]. by rewrite N.eqb_refl, IH. Qed.

Lemma startswith_false s p : (forall r, s <> p ++ r) -> startswith s p = false.
Proof.
  intros H. destruct (startswith s p) eqn:E; [|done].
  destruct (startswith_inv _ _ E) as [r ->]. by destruct (H r).
Qed.

Lemma endswith_inv s p : endswith s p = true -> exists r, s = r ++ p.
Proof.
  unfold endswith. intros H. destruct (startswith_inv _ _ H) as [r Hr].
  exists (rev r). apply (f_equal (@rev N)) in Hr.
  by rewrite rev_involutive, rev_app_distr, rev_involutive in Hr.
Qed.

Lemma endswith_false s p : (forall r, s <> r ++ p) -> endswith s p = false.
Proof.
  intros H. destruct (endswith s p) eqn:E; [|done].
  destruct (endswith_inv _ _ E) as [r ->]. by destruct (H r).
Qed.

Lemma strip_padded ws1 t ws2 :
  Forall (fun c => isspace c = true) ws1 -> Forall (fun c => isspace c = true) ws2 ->
  strip (ws1 ++ t ++ ws2) = strip t.
Proof.
  intros H1 H2. induction H1 as [|c ws1 Hc _ IH].
  - simpl. induction ws2 as [|c ws2 IH] using rev_ind; [by rewrite app_nil_r|].
    apply Forall_app in H2 as [H2 Hc]. apply Forall_cons in Hc as [Hc _].
    rewrite app_assoc, strip_space_r by done. by apply IH.
  - simpl. by rewrite strip_space_l.
Qed.

(** What is left of a text from which a trailing fence, if there is one, has
    been cut. *)
Lemma cut_trailing_fence (r : str) :
  (forall r', r = r' ++ u "```" ->
     (if endswith r (u "```") then take (length r - 3) r else r) = r') /\
  ((forall r', r <> r' ++ u "```") ->
     (if endswith r (u "```") then take (length r - 3) r else r) = r).
Proof.
  split.
  - intros r' ->. apply drop_fence_suffix.
  - intros H. by rewrite endswith_false.
Qed.

Lemma clean_fences_json_fence s r :
  strip s = u "```json" ++ r ->
  clean_fences s
  = strip (if endswith r (u "```") then take (length r - 3) r else r).
Proof.
  intros Hs. unfold clean_fences. cbv zeta. rewrite Hs.
  rewrite (startswith_app (u "```json")).
  change 7 with (length (u "```json")). by rewrite drop_app_length.
Qed.

Lemma clean_fences_plain_fence s r :
  strip s = u "```" ++ r -> (forall t, r <> u "json" ++ t) ->
  clean_fences s
  = strip (if endswith r (u "```") then take (length r - 3) r else r).
Proof.
  intros Hs Hr. unfold clean_fences. cbv zeta. rewrite Hs.
  change (u "```json") with (u "```" ++ u "json").
  rewrite startswith_cancel, (startswith_false r (u "json") Hr).
  rewrite (startswith_app (u "```")).
  change 3 with (length (u "```")) at 1. by rewrite drop_app_length.
Qed.

Lemma clean_fences_no_fence s :
  (forall t, strip s <> u "```" ++ t) ->
  clean_fences s
  = strip (if endswith (strip s) (u "```") then take (length (strip s) - 3) (strip s)
           else strip s).
Proof.
  intros H. unfold clean_fences. cbv zeta.
  assert (startswith (strip s) (u "```") = false) as Hp by (by apply startswith_false).
  assert (startswith (strip s) (u "```json") = false) as ->.
  { destruct (startswith (strip s) (u "```json")) eqn:E; [|done].
    apply (startswith_shorter _ (u "```") (u "json")) in E. congruence. }
  by rewrite Hp.
Qed.

Lemma strip_fenced (fence body : str) c :
  head fence = Some c -> isspace c = false ->
  strip (fence ++ body ++ u "```") = fence ++ body ++ u "```".
Proof.
  intros Hh Hc. apply strip_id.
  - intros c'. destruct fence; [done|]. simpl in *. congruence.
  - intros c'. rewrite !app_assoc, last_app. by intros [= <-].
Qed.

(** Claim C3. The cleanup of the parse routines is a textual trim of the
    white-space-trimmed response: exactly the leading fence ([```json], else
    [```]) and exactly the trailing fence [```] are cut, each only if
    present, and what lies between is trimmed of white space and otherwise
    kept as it is.  So a text wrapped in a fence, with or without newlines
    inside and white space around, is cleaned to that text trimmed; the
    cleaned text is a contiguous piece of the response; a bare response is
    left unchanged (so cleaning twice equals cleaning once); and the fenced
    and the bare response reach the decoder as the same text and parse to
    the same value in all three parse routines. *)
Theorem C3_fence_stripping_exact :
  (forall s r,
     strip s = u "```json" ++ r ->
     (forall r', r = r' ++ u "```" -> clean_fences s = strip r') /\
     ((forall r', r <> r' ++ u "```") -> clean_fences s = strip r)) /\
  (forall s r,
     strip s = u "```" ++ r -> (forall t, r <> u "json" ++ t) ->
     (forall r', r = r' ++ u "```" -> clean_fences s = strip r') /\
     ((forall r', r <> r' ++ u "```") -> clean_fences s = strip r)) /\
  (forall s,
     (forall t, strip s <> u "```" ++ t) ->
     (forall r', strip s = r' ++ u "```" -> clean_fences s = strip r') /\
     ((forall r', strip s <> r' ++ u "```") -> clean_fences s = strip s)) /\
  (forall ws1 body ws2,
     Forall (fun c => isspace c = true) ws1 -> Forall (fun c => isspace c = true) ws2 ->
     clean_fences (ws1 ++ u "```json" ++ body ++ u "```" ++ ws2) = strip body /\
     ((forall t, body <> u "json" ++ t) ->
      clean_fences (ws1 ++ u "```" ++ body ++ u "```" ++ ws2) = strip body)) /\
  (forall s, within (clean_fences s) s) /\
  (forall b, clean_fences (fenced_json b) = strip b /\
             clean_fences (fenced_plain b) = strip b) /\
  (forall b, bare b ->
     clean_fences (fenced_json b) = b /\
     clean_fences (fenced_plain b) = b /\
     clean_fences b = b /\
     clean_fences (clean_fences (fenced_json b)) = clean_fences (fenced_json b) /\
     forall v, json_loads b = Ok v ->
       _parse_response (fenced_json b) = Ok v /\
       _parse_response b = Ok v /\
       _parse_evaluation_response (fenced_json b) = Ok v /\
       _parse_evaluation_response b = Ok v /\
       _parse_feedback_response (fenced_json b) = Ok v /\
       _parse_feedback_response b = Ok v).
Proof.
  split.
  { intros s r Hs. rewrite (clean_fences_json_fence s r Hs).
    destruct (cut_trailing_fence r) as [H1 H2].
    split; [intros r' Hr; by rewrite (H1 r' Hr)|intros Hr; by rewrite (H2 Hr)]. }
  split.
  { intros s r Hs Hj. rewrite (clean_fences_plain_fence s r Hs Hj).
    destruct (cut_trailing_fence r) as [H1 H2].
    split; [intros r' Hr; by rewrite (H1 r' Hr)|intros Hr; by rewrite (H2 Hr)]. }
  split.
  { intros s Hs. rewrite (clean_fences_no_fence s Hs).
    destruct (cut_trailing_fence (strip s)) as [H1 H2].
    split; [intros r' Hr; by rewrite (H1 r' Hr)|].
    intros Hr. rewrite (H2 Hr). apply strip_idem. }
  split.
  { intros ws1 body ws2 H1 H2. split.
    - assert (Hs : strip (ws1 ++ u "```json" ++ body ++ u "```" ++ ws2)
                   = u "```json" ++ body ++ u "```").
      { replace (ws1 ++ u "```json" ++ body ++ u "```" ++ ws2)
          with (ws1 ++ (u "```json" ++ body ++ u "```") ++ ws2)
          by (by rewrite <- !app_assoc).
        rewrite strip_padded by done.
        by apply (strip_fenced (u "```json") body 96%N). }
      rewrite (clean_fences_json_fence _ _ Hs).
      by rewrite (proj1 (cut_trailing_fence (body ++ u "```")) body eq_refl).
    - intros Hj.
      assert (Hs : strip (ws1 ++ u "```" ++ body ++ u "```" ++ ws2)
                   = u "```" ++ body ++ u "```").
      { replace (ws1 ++ u "```" ++ body ++ u "```" ++ ws2)
          with (ws1 ++ (u "```" ++ body ++ u "```") ++ ws2)
          by (by rewrite <- !app_assoc).
        rewrite strip_padded by done.
        by apply (strip_fenced (u "```") body 96%N). }
      assert (Hj' : forall t, body ++ u "```" <> u "json" ++ t).
      { intros t Ht. destruct body as [|c1 body]; [done|].
        destruct body as [|c2 body]; [done|]. destruct body as [|c3 body]; [done|].
        destruct body as [|c4 body]; [done|].
        injection Ht as -> -> -> -> Ht. by destruct (Hj body). }
      rewrite (clean_fences_plain_fence _ _ Hs Hj').
      by rewrite (proj1 (cut_trailing_fence (body ++ u "```")) body eq_refl). }
  split; [exact clean_fences_within|].
  split; [intros b; split; [apply clean_fences_fenced_json|apply clean_fences_fenced_plain]|].
  intros b Hb.
  assert (Hj : clean_fences (fenced_json b) = b).
  { rewrite clean_fences_fenced_json. apply Hb. }
  assert (Hp : clean_fences (fenced_plain b) = b).
  { rewrite clean_fences_fenced_plain. apply Hb. }
  pose proof (clean_fences_bare b Hb) as Hc.
  split; [done|]. split; [done|]. split; [done|]. split; [congruence|].
  intros v Hv.
  unfold _parse_response, _parse_evaluation_response, _parse_feedback_response.
  rewrite Hj, Hc, Hv. done.
Qed.

(** ** Parse failures and the stage results *)

(** Claim C4. When the decoder rejects the cleaned text, each parse routine
    returns, instead of raising, the mapping with the original text under
    [raw_response] and the message under [parse_error]; the evaluation
    parser adds [violations = []], the score of an empty list is 10.0, and
    [evaluate] returns the fallback with [overall_score = 10.0]. *)
Theorem C4_unparseable_fallback (response_text msg : str) :
  json_loads (clean_fences response_text) = Raise (JSONDecodeError msg) ->
  _parse_response response_text =
    Ok (JObj [raw_response_entry response_text; parse_error_entry msg]) /\
  _parse_evaluation_response response_text =
    Ok (JObj [raw_response_entry response_text; parse_error_entry msg;
              (u "violations", JArr [])]) /\
  _parse_feedback_response response_text =
    Ok (JObj [raw_response_entry response_text; parse_error_entry msg;
              (u "feedback_items", JArr [])]) /\
  _calculate_score (JArr []) = Ok (Float 10) /\
  forall vision_analysis prompt,
    _create_evaluation_prompt vision_analysis = Ok prompt ->
    generate_content prompt = Ok response_text ->
    evaluate vision_analysis =
      JObj [raw_response_entry response_text; parse_error_entry msg;
            (u "violations", JArr []); (u "overall_score", JNum (Float 10))].
Proof.
  intros H.
  unfold _parse_response, _parse_evaluation_response, _parse_feedback_response.
  rewrite H. repeat split.
  intros va prompt Hp Hc. unfold evaluate, evaluate_try.
  rewrite Hp. cbn. rewrite Hc. cbn.
  unfold _parse_evaluation_response. rewrite H. reflexivity.
Qed.

(** Claim C10. When the external call of the feedback stage succeeds and
    the decoder rejects the cleaned text, [generate_feedback] returns,
    without raising, the fallback mapping extended with
    [feedback_items = []], the caller's platform and
    [total_feedback_items = 0]. *)
Theorem C10_feedback_parse_failure
    (vision_analysis heuristic_evaluation : json) (platform prompt response_text msg : str) :
  _create_feedback_prompt vision_analysis heuristic_evaluation platform = Ok prompt ->
  generate_content prompt = Ok response_text ->
  json_loads (clean_fences response_text) = Raise (JSONDecodeError msg) ->
  generate_feedback_try vision_analysis heuristic_evaluation platform =
    Ok (JObj [raw_response_entry response_text; parse_error_entry msg;
              (u "feedback_items", JArr []); (u "platform", JStr platform);
              (u "total_feedback_items", JNum (Int 0))]) /\
  generate_feedback vision_analysis heuristic_evaluation platform =
    JObj [raw_response_entry response_text; parse_error_entry msg;
          (u "feedback_items", JArr []); (u "platform", JStr platform);
          (u "total_feedback_items", JNum (Int 0))].
Proof.
  intros Hp Hc H.
  assert (generate_feedback_try vision_analysis heuristic_evaluation platform =
    Ok (JObj [raw_response_entry response_text; parse_error_entry msg;
              (u "feedback_items", JArr []); (u "platform", JStr platform);
              (u "total_feedback_items", JNum (Int 0))])) as Htry.
  { unfold generate_feedback_try. rewrite Hp. cbn. rewrite Hc. cbn.
    unfold _parse_feedback_response. rewrite H. reflexivity. }
  split; [exact Htry|]. unfold generate_feedback. by rewrite Htry.
Qed.

(** Claim C9, as amended.  A call failure yields the mapping with the single
    key [error], and the perception parser's fallback has the two keys
    [raw_response] and [parse_error] only.  The evaluation and feedback
    stages do stamp their computed fields into the parse-failure fallback:
    it then carries [overall_score], respectively [platform] and
    [total_feedback_items], next to [parse_error]. *)
Theorem C9_result_shapes :
  (forall vision_analysis e,
     evaluate_try vision_analysis = Raise e ->
     evaluate vision_analysis = JObj [(u "error", JStr (exn_text e))]) /\
  (forall vision_analysis heuristic_evaluation platform e,
     generate_feedback_try vision_analysis heuristic_evaluation platform = Raise e ->
     generate_feedback vision_analysis heuristic_evaluation platform =
       JObj [(u "error", JStr (exn_text e))]) /\
  (forall response_text msg,
     json_loads (clean_fences response_text) = Raise (JSONDecodeError msg) ->
     _parse_response response_text =
       Ok (JObj [raw_response_entry response_text; parse_error_entry msg]) /\
     (forall vision_analysis prompt,
        _create_evaluation_prompt vision_analysis = Ok prompt ->
        generate_content prompt = Ok response_text ->
        evaluate vision_analysis =
          JObj [raw_response_entry response_text; parse_error_entry msg;
                (u "violations", JArr []); (u "overall_score", JNum (Float 10))] /\
        mixes_shapes (evaluate vision_analysis) = true) /\
     (forall vision_analysis heuristic_evaluation platform prompt,
        _create_feedback_prompt vision_analysis heuristic_evaluation platform = Ok prompt ->
        generate_content prompt = Ok response_text ->
        generate_feedback vision_analysis heuristic_evaluation platform =
          JObj [raw_response_entry response_text; parse_error_entry msg;
                (u "feedback_items", JArr []); (u "platform", JStr platform);
                (u "total_feedback_items", JNum (Int 0))] /\
        mixes_shapes (generate_feedback vision_analysis heuristic_evaluation platform)
          = true)).
Proof.
  split; [|split].
  - intros va e H. unfold evaluate. by rewrite H.
  - intros va he pf e H. unfold generate_feedback. by rewrite H.
  - intros text msg H. split; [|split].
    + unfold _parse_response. by rewrite H.
    + intros va prompt Hp Hc.
      assert (evaluate va =
        JObj [raw_response_entry text; parse_error_entry msg;
              (u "violations", JArr []); (u "overall_score", JNum (Float 10))]) as ->.
      { unfold evaluate, evaluate_try. rewrite Hp. cbn. rewrite Hc. cbn.
        unfold _parse_evaluation_response. by rewrite H. }
      done.
    + intros va he pf prompt Hp Hc.
      assert (generate_feedback va he pf =
        JObj [raw_response_entry text; parse_error_entry msg;
              (u "feedback_items", JArr []); (u "platform", JStr pf);
              (u "total_feedback_items", JNum (Int 0))]) as ->.
      { unfold generate_feedback, generate_feedback_try. rewrite Hp. cbn. rewrite Hc. cbn.
        unfold _parse_feedback_response. by rewrite H. }
      done.
Qed.

(** ** Recomputed item count *)

Lemma lookup_dict_set_eq k x d : lookup k (dict_set k x d) = Some x.
Proof.
  induction d as [|[k' y] d IH]; simpl.
  - by rewrite decide_True.
  - destruct (decide (k = k')) as [->|Hne]; simpl.
    + by rewrite decide_True.
    + by rewrite decide_False.
Qed.

Lemma lookup_dict_set_ne k k' x d : k <> k' -> lookup k' (dict_set k x d) = lookup k' d.
Proof.
  intros Hne. induction d as [|[k0 y] d IH]; simpl.
  - by rewrite decide_False.
  - destruct (decide (k = k0)) as [->|Hk]; simpl.
    + by rewrite !decide_False.
    + by rewrite IH.
Qed.

Lemma len_has_length v n : len v = Ok n -> has_length v n.
Proof. destruct v; try done; intros [= <-]; constructor. Qed.

Lemma has_length_len v n : has_length v n -> len v = Ok n.
Proof. by intros []. Qed.

(** Claim C5. Whenever [generate_feedback] returns through its normal
    path, the result is a mapping whose [total_feedback_items] is the
    integer length of the [feedback_items] of that same result: the number
    of items when it is a list, and 0 when the key is absent; the items are
    those of the parsed response, whose own [total_feedback_items] entry,
    if any, is overwritten. *)
Theorem C5_total_feedback_items_recomputed
    (vision_analysis heuristic_evaluation : json) (platform : str) (result : json) :
  generate_feedback_try vision_analysis heuristic_evaluation platform = Ok result ->
  generate_feedback vision_analysis heuristic_evaluation platform = result /\
  exists d n prompt response_text parsed,
    result = JObj d /\
    has_length (default (JArr []) (lookup (u "feedback_items") d)) n /\
    lookup (u "total_feedback_items") d = Some (JNum (Int (Z.of_nat n))) /\
    (forall items, lookup (u "feedback_items") d = Some (JArr items) ->
       lookup (u "total_feedback_items") d
       = Some (JNum (Int (Z.of_nat (length items))))) /\
    (lookup (u "feedback_items") d = None ->
       lookup (u "total_feedback_items") d = Some (JNum (Int 0))) /\
    lookup (u "platform") d = Some (JStr platform) /\
    generate_content prompt = Ok response_text /\
    _parse_feedback_response response_text = Ok (JObj parsed) /\
    lookup (u "feedback_items") d = lookup (u "feedback_items") parsed.
Proof.
  intros H. split; [unfold generate_feedback; by rewrite H|].
  unfold generate_feedback_try in H.
  destruct (_create_feedback_prompt _ _ _) as [prompt|] eqn:Hp; [|done]. cbn in H.
  destruct (generate_content prompt) as [text|] eqn:Hc; [|done]. cbn in H.
  destruct (_parse_feedback_response text) as [parsed|] eqn:Hparse; [|done]. cbn in H.
  destruct parsed as [| | | | |parsed]; try done. cbn in H.
  rewrite lookup_dict_set_ne in H by done.
  destruct (len _) as [n|] eqn:Hn; [|done]. cbn in H. injection H as <-.
  exists (dict_set (u "total_feedback_items") (of_nat n)
            (dict_set (u "platform") (JStr platform) parsed)), n, prompt, text, parsed.
  assert (Hitems : lookup (u "feedback_items")
            (dict_set (u "total_feedback_items") (of_nat n)
               (dict_set (u "platform") (JStr platform) parsed))
          = lookup (u "feedback_items") parsed).
  { by rewrite !lookup_dict_set_ne. }
  rewrite Hitems.
  assert (Htotal : lookup (u "total_feedback_items")
            (dict_set (u "total_feedback_items") (of_nat n)
               (dict_set (u "platform") (JStr platform) parsed))
          = Some (JNum (Int (Z.of_nat n)))) by apply lookup_dict_set_eq.
  rewrite Htotal.
  split; [done|]. split; [by apply len_has_length|]. split; [done|].
  split; [|split; [|split; [|done]]].
  - intros items Hl. rewrite Hl in Hn. by injection Hn as <-.
  - intros Hnone. rewrite Hnone in Hn. by injection Hn as <-.
  - rewrite lookup_dict_set_ne by done. apply lookup_dict_set_eq.
Qed.

(** ** Scoring *)

Lemma num_add_val a b : (num_val (num_add a b) == num_val a + num_val b)%Q.
Proof.
  destruct a, b; simpl; try apply Qred_correct. by rewrite inject_Z_plus.
Qed.

Lemma py_min_val a b : (num_val (py_min a b) == Qmin (num_val a) (num_val b))%Q.
Proof.
  unfold py_min, num_lt. destruct (Qle_bool (num_val a) (num_val b)) eqn:H; simpl.
  - apply Qle_bool_iff in H. symmetry. by apply Q.min_l.
  - symmetry. apply Q.min_r. apply Qlt_le_weak, Qnot_le_lt.
    intros Hle. apply Qle_bool_iff in Hle. congruence.
Qed.

Lemma py_max_val a b : (num_val (py_max a b) == Qmax (num_val a) (num_val b))%Q.
Proof.
  unfold py_max, num_lt. destruct (Qle_bool (num_val b) (num_val a)) eqn:H; simpl.
  - apply Qle_bool_iff in H. symmetry. by apply Q.max_l.
  - symmetry. apply Q.max_r. apply Qlt_le_weak, Qnot_le_lt.
    intros Hle. apply Qle_bool_iff in Hle. congruence.
Qed.

Lemma round_half_even_comp x y : (x == y)%Q -> round_half_even x = round_half_even y.
Proof.
  intros H. unfold round_half_even. rewrite (Qfloor_comp _ _ H).
  assert ((x - inject_Z (Qfloor y) ?= 1 # 2) = (y - inject_Z (Qfloor y) ?= 1 # 2))%Q as ->.
  { apply Qcompare_comp; [by rewrite H|reflexivity]. }
  reflexivity.
Qed.

Lemma py_round1_comp x y : (x == y)%Q -> py_round1 x = py_round1 y.
Proof.
  intros H. unfold py_round1.
  rewrite (round_half_even_comp (x * 10) (y * 10)); [done|by rewrite H].
Qed.

Lemma round_half_even_Z k : round_half_even (inject_Z k) = k.
Proof.
  unfold round_half_even. rewrite Qfloor_Z.
  assert ((inject_Z k - inject_Z k ?= 1 # 2) = Lt)%Q as ->; [|done].
  apply Qlt_alt. assert (inject_Z k - inject_Z k == 0)%Q as -> by ring. done.
Qed.

(** Rounding to one decimal leaves a multiple of a tenth unchanged. *)
Lemma py_round1_tenths k : (py_round1 (k # 10) == k # 10)%Q.
Proof.
  unfold py_round1. rewrite Qred_correct.
  rewrite (round_half_even_comp _ (inject_Z k)), round_half_even_Z.
  - unfold Qeq, Qdiv, Qmult, Qinv, inject_Z. simpl. lia.
  - unfold Qeq, Qmult, inject_Z. simpl. lia.
Qed.

Lemma impact_weight severity :
  hashable severity = true ->
  exists impact, severity_impact_get severity (Int 0) = Ok impact
                 /\ (num_val impact == weight severity)%Q.
Proof.
  destruct severity as [| |n|s| |]; intros H; try done; simpl;
    try (by eexists; split; [reflexivity|]).
  unfold severity_impact. simpl.
  repeat case_decide; simpl; eexists; (split; [reflexivity|done]).
Qed.

Lemma sum_deductions_val (ds : list (list (str * json))) (acc : number) :
  Forall (fun d => hashable (severity_of d) = true) ds ->
  exists total, sum_deductions (JObj <$> ds) acc = Ok total
                /\ (num_val total == num_val acc + total_weight ds)%Q.
Proof.
  intros H. revert acc. induction H as [|d ds Hd _ IH]; intros acc; simpl.
  - exists acc. split; [done|]. ring.
  - destruct (impact_weight _ Hd) as (w & Hw & Hval).
    unfold add_deduction. cbn. fold (severity_of d). rewrite Hw. cbn.
    destruct (IH (num_add acc w)) as (total & Ht & Htv).
    exists total. split; [done|]. rewrite Htv, num_add_val, Hval. ring.
Qed.

Lemma total_weight_tenths ds : exists k : Z, (0 <= k)%Z /\ (total_weight ds == k # 10)%Q.
Proof.
  induction ds as [|d ds (k & Hk0 & Hk)]; simpl.
  - by exists 0%Z.
  - assert (exists j : Z, (0 <= j)%Z /\ (weight (severity_of d) == j # 10)%Q)
      as (j & Hj0 & Hj).
    { destruct (severity_of d); simpl; try (by exists 0%Z).
      repeat case_decide;
        [exists 100%Z | exists 30%Z | exists 10%Z | exists 3%Z | exists 0%Z]; done. }
    exists (j + k)%Z. split; [lia|]. rewrite Hj, Hk.
    unfold Qeq, Qplus. simpl. lia.
Qed.

Lemma clamped_remainder_tenths ds :
  exists j : Z, (0 <= j <= 100)%Z /\ (10 - Qmin (total_weight ds) 10 == j # 10)%Q.
Proof.
  destruct (total_weight_tenths ds) as (k & Hk0 & Hk).
  destruct (Z_le_gt_dec k 100) as [Hle|Hgt].
  - exists (100 - k)%Z. split; [lia|].
    rewrite Q.min_l; rewrite Hk; unfold Qle, Qeq, Qminus, Qplus, Qopp; simpl; lia.
  - exists 0%Z. split; [lia|].
    rewrite Q.min_r; [done|]. rewrite Hk. unfold Qle. simpl. lia.
Qed.

Lemma score_of_records (ds : list (list (str * json))) :
  ds <> [] ->
  Forall (fun d => hashable (severity_of d) = true) ds ->
  exists score,
    _calculate_score (JArr (JObj <$> ds)) = Ok score /\
    (num_val score == Qmax 0 (py_round1 (10 - Qmin (total_weight ds) 10)))%Q.
Proof.
  intros Hne H. unfold _calculate_score.
  assert (truthy (JArr (JObj <$> ds)) = true) as -> by (by destruct ds).
  destruct (sum_deductions_val ds (Int 0) H) as (total & Ht & Hv).
  cbn. rewrite Ht. cbn. eexists. split; [reflexivity|].
  rewrite py_max_val. cbn [num_val].
  assert (py_round1 (10 - num_val (py_min total (Int 10)))
          = py_round1 (10 - Qmin (total_weight ds) 10)) as ->; [|reflexivity].
  apply py_round1_comp. rewrite py_min_val, Hv. cbn [num_val].
  assert (inject_Z 0 + total_weight ds == total_weight ds)%Q as -> by ring.
  reflexivity.
Qed.

(** Claim C2, as amended.  A severity string outside the four labels
    deducts nothing, so a single such violation scores 10.0.  A record
    without a severity key is scored as [low]: it deducts 0.3 and a single
    such violation scores 9.7. *)
Theorem C2_unknown_and_missing_severity :
  (forall s, ~ known_severity s ->
     severity_impact_get (JStr s) (Int 0) = Ok (Int 0) /\
     forall d, lookup (u "severity") d = Some (JStr s) ->
       add_deduction (Int 0) (JObj d) = Ok (Int 0) /\
       _calculate_score (JArr [JObj d]) = Ok (Float 10)) /\
  (forall d, lookup (u "severity") d = None ->
     add_deduction (Int 0) (JObj d) = Ok (Float (3 # 10)) /\
     _calculate_score (JArr [JObj d]) = Ok (Float (97 # 10))) /\
  _calculate_score (JArr [violation_with "unknown"]) = Ok (Float 10) /\
  _calculate_score (JArr [JObj []]) = Ok (Float (97 # 10)).
Proof.
  split; [|split; [|by vm_compute]].
  - intros s Hs.
    assert (Hget : severity_impact_get (JStr s) (Int 0) = Ok (Int 0)).
    { unfold severity_impact_get, severity_impact, known_severity in *. simpl.
      repeat case_decide; try done; exfalso; apply Hs; auto. }
    split; [done|]. intros d Hd.
    assert (Hadd : add_deduction (Int 0) (JObj d) = Ok (Int 0)).
    { unfold add_deduction, get. rewrite Hd.
      cbv beta iota delta [mbind outcome_bind from_option id].
      by rewrite Hget. }
    split; [done|]. unfold _calculate_score. cbn -[add_deduction]. by rewrite Hadd.
  - intros d Hd.
    assert (Hadd : add_deduction (Int 0) (JObj d) = Ok (Float (3 # 10))).
    { unfold add_deduction. cbn. by rewrite Hd. }
    split; [done|]. unfold _calculate_score. cbn -[add_deduction]. by rewrite Hadd.
Qed.

(** ** Markup extraction *)

Lemma find_at_shorter s p q i :
  is_Some (find_at s (p ++ q) i) -> is_Some (find_at s p i).
Proof.
  revert i. induction s as [|c s IH]; intros i; simpl.
  - destruct (startswith [] (p ++ q)) eqn:E; [|by intros []].
    by rewrite (startswith_shorter _ _ _ E).
  - destruct (startswith (c :: s) (p ++ q)) eqn:E.
    + by rewrite (startswith_shorter _ _ _ E).
    + intros H. destruct (startswith (c :: s) p); [done|]. by apply IH.
Qed.

Lemma contains_shorter s p q : contains s p = false -> contains s (p ++ q) = false.
Proof.
  unfold contains, find. rewrite !bool_decide_eq_false.
  destruct (decide (0 <= length s)); [|by intros _ []].
  rewrite drop_0. intros H H'. by apply H, find_at_shorter with q.
Qed.

Lemma slice_index_id n i : (0 <= i <= n)%Z -> slice_index n i = i.
Proof. intros H. unfold slice_index. destruct (Z.ltb_spec i 0); lia. Qed.

Lemma slice_nat (s : str) (a b : nat) :
  a <= b <= length s -> slice s (Z.of_nat a) (Z.of_nat b) = take (b - a) (drop a s).
Proof.
  intros H. unfold slice. rewrite !slice_index_id by lia.
  rewrite Nat2Z.id. f_equal. lia.
Qed.

Lemma html_shell_root core : has_document_root (html_shell core) = true.
Proof. reflexivity. Qed.

Lemma repair_root core : has_document_root (repair core) = true.
Proof.
  unfold repair. destruct (has_document_root core) eqn:E; [done|apply html_shell_root].
Qed.

Lemma extract_html_repair response_text :
  exists core, _extract_html response_text = repair core.
Proof.
  unfold _extract_html. cbv zeta.
  match goal with
  | |- exists core, (if negb (has_document_root ?c) then _ else _) = _ =>
      exists c; unfold repair; by destruct (has_document_root c)
  end.
Qed.

Lemma find_at_unfold s p i :
  find_at s p i
  = if startswith s p then Some i
    else match s with [] => None | _ :: s' => find_at s' p (S i) end.
Proof. by destruct s. Qed.

Lemma find_at_first marker pre rest i :
  (forall a b, pre ++ marker ++ rest = a ++ marker ++ b -> length pre <= length a) ->
  find_at (pre ++ marker ++ rest) marker i = Some (i + length pre).
Proof.
  revert i. induction pre as [|c pre IH]; intros i H.
  - rewrite find_at_unfold. simpl. rewrite startswith_app. f_equal. lia.
  - rewrite find_at_unfold.
    assert (startswith ((c :: pre) ++ marker ++ rest) marker = false) as ->.
    { apply startswith_false. intros r Hr. specialize (H [] r Hr). simpl in H. lia. }
    simpl. rewrite IH.
    + f_equal. lia.
    + intros a b Hab. specialize (H (c :: a) b). simpl in H.
      rewrite Hab in H. specialize (H eq_refl). lia.
Qed.

Lemma find_at_absent marker s i : ~ within marker s -> find_at s marker i = None.
Proof.
  revert i. induction s as [|c s IH]; intros i H; rewrite find_at_unfold.
  - rewrite startswith_false; [done|].
    intros r Hr. apply H. exists [], r. exact Hr.
  - rewrite startswith_false.
    + apply IH. intros (a & b & ->). apply H. by exists (c :: a), b.
    + intros r Hr. apply H. exists [], r. exact Hr.
Qed.

Lemma find_at_sound marker s i j :
  find_at s marker i = Some j ->
  exists k, j = i + k /\
            first_occurrence marker s (take k s) (drop (k + length marker) s).
Proof.
  revert i. induction s as [|c s IH]; intros i; rewrite find_at_unfold.
  - destruct (startswith [] marker) eqn:E; [|done]. intros [= <-].
    destruct (startswith_inv _ _ E) as [r Hr].
    exists 0. split; [lia|]. split; [|simpl; lia].
    destruct marker; [|done]. by destruct r.
  - destruct (startswith (c :: s) marker) eqn:E.
    + intros [= <-]. destruct (startswith_inv _ _ E) as [r Hr].
      exists 0. split; [lia|]. split; [|simpl; lia].
      rewrite Hr. simpl. by rewrite drop_app_length.
    + intros H. destruct (IH _ H) as (k & -> & Hs & Hmin).
      exists (S k). split; [lia|]. split.
      * simpl. by rewrite <- Hs.
      * intros a b Hab. destruct a as [|x a].
        -- simpl in Hab. rewrite Hab, startswith_app in E. discriminate E.
        -- injection Hab as -> Hab. specialize (Hmin a b Hab).
           simpl. lia.
Qed.

Lemma find_at_none_inv marker s i : find_at s marker i = None -> ~ within marker s.
Proof.
  revert i. induction s as [|c s IH]; intros i; rewrite find_at_unfold.
  - destruct (startswith [] marker) eqn:E; [done|]. intros _ (a & b & H).
    destruct a; [|done]. simpl in H. by rewrite H, startswith_app in E.
  - destruct (startswith (c :: s) marker) eqn:E; [done|]. intros H (a & b & Hab).
    destruct a as [|x a].
    + simpl in Hab. by rewrite Hab, startswith_app in E.
    + injection Hab as -> Hab. apply (IH _ H). by exists a, b.
Qed.

(** [find] decides first occurrences: what it returns is the place of the
    first one, and it returns none only when there is none. *)
Lemma find_first_inv marker s i :
  find s marker 0 = Some i ->
  first_occurrence marker s (take i s) (drop (i + length marker) s).
Proof.
  unfold find. rewrite decide_True by lia. rewrite drop_0. intros H.
  by destruct (find_at_sound _ _ _ _ H) as (k & -> & Hk).
Qed.

Lemma find_none_inv marker s : find s marker 0 = None -> ~ within marker s.
Proof.
  unfold find. rewrite decide_True by lia. rewrite drop_0. apply find_at_none_inv.
Qed.

Lemma find_first marker s pre rest :
  first_occurrence marker s pre rest -> find s marker 0 = Some (length pre).
Proof.
  intros [-> H]. unfold find. rewrite decide_True by lia. rewrite drop_0.
  by rewrite find_at_first.
Qed.

Lemma find_after marker s start rest body post :
  drop start s = rest -> start <= length s ->
  first_occurrence marker rest body post ->
  find s marker start = Some (start + length body).
Proof.
  intros Hd Hl [Hr H]. unfold find. rewrite decide_True by done.
  replace (drop start s) with rest by (symmetry; exact Hd).
  rewrite Hr. apply find_at_first. by rewrite <- Hr.
Qed.

Lemma find_after_absent marker s start :
  start <= length s -> ~ within marker (drop start s) -> find s marker start = None.
Proof.
  intros Hl H. unfold find. rewrite decide_True by done. by apply find_at_absent.
Qed.

Lemma contains_first marker s pre rest :
  first_occurrence marker s pre rest -> contains s marker = true.
Proof.
  intros H. unfold contains. rewrite (find_first _ _ _ _ H).
  by apply bool_decide_eq_true.
Qed.

Lemma contains_absent marker s : ~ within marker s -> contains s marker = false.
Proof.
  intros H. unfold contains, find. rewrite decide_True by lia. rewrite drop_0.
  rewrite (find_at_absent _ _ _ H). apply bool_decide_eq_false. by intros [].
Qed.

(** The text between the first marker and the closing fence after it. *)
Lemma between_fences_closed marker cleaned pre rest body post :
  first_occurrence marker cleaned pre rest ->
  first_occurrence (u "```") rest body post ->
  between_fences cleaned marker = strip body.
Proof.
  intros Hm Hc.
  pose proof (find_first _ _ _ _ Hm) as Hfind.
  destruct Hm as [Hcleaned _].
  assert (Hdrop : drop (length pre + length marker) cleaned = rest).
  { rewrite Hcleaned, (app_assoc pre marker), <- length_app. apply drop_app_length. }
  assert (Hrest : rest = body ++ u "```" ++ post) by apply Hc.
  assert (Hlen : length cleaned = length pre + length marker + length rest).
  { rewrite Hcleaned, !length_app. lia. }
  assert (Hlen' : length rest = length body + 3 + length post).
  { rewrite Hrest, !length_app. simpl. lia. }
  assert (Hstop : find cleaned (u "```") (length pre + length marker)
                  = Some (length pre + length marker + length body)).
  { apply (find_after _ _ _ rest body post); [done|lia|done]. }
  unfold between_fences, find_z. cbv zeta. rewrite Hfind.
  rewrite <- Nat2Z.inj_add, Nat2Z.id.
  match goal with
  | |- context [find ?a ?b ?c] =>
      replace (find a b c) with (Some (length pre + length marker + length body))
        by (symmetry; exact Hstop)
  end.
  etransitivity.
  { apply (f_equal strip).
    apply (slice_nat cleaned (length pre + length marker)
             (length pre + length marker + length body)). lia. }
  replace (length pre + length marker + length body - (length pre + length marker))
    with (length body) by lia.
  f_equal. etransitivity; [apply (f_equal (take (length body))), Hdrop|].
  rewrite Hrest. apply take_app_length.
Qed.

(** The same when no closing fence follows: [find] returns [-1] and the
    slice ends before the last character. *)
Lemma between_fences_unclosed marker cleaned pre rest :
  first_occurrence marker cleaned pre rest ->
  ~ within (u "```") rest ->
  between_fences cleaned marker = strip (take (length rest - 1) rest).
Proof.
  intros Hm Hno.
  pose proof (find_first _ _ _ _ Hm) as Hfind.
  destruct Hm as [Hcleaned _].
  assert (Hdrop : drop (length pre + length marker) cleaned = rest).
  { rewrite Hcleaned, (app_assoc pre marker), <- length_app. apply drop_app_length. }
  assert (Hlen : length cleaned = length pre + length marker + length rest).
  { rewrite Hcleaned, !length_app. lia. }
  assert (Hstop : find cleaned (u "```") (length pre + length marker) = None).
  { apply find_after_absent; [lia|]. by rewrite Hdrop. }
  unfold between_fences, find_z. cbv zeta. rewrite Hfind.
  rewrite <- Nat2Z.inj_add, Nat2Z.id.
  match goal with
  | |- context [find ?a ?b ?c] =>
      replace (find a b c) with (@None nat) by (symmetry; exact Hstop)
  end.
  f_equal. unfold slice, slice_index. rewrite Hlen.
  destruct (Z.ltb_spec (Z.of_nat (length pre + length marker)) 0); [lia|].
  change (-1 <? 0)%Z with true. cbv iota.
  rewrite Z.min_l by lia. rewrite Nat2Z.id.
  replace (drop (length pre + length marker) cleaned) with rest
    by (symmetry; exact Hdrop).
  f_equal. lia.
Qed.

(** Claim C8, as amended.  The extraction searches the stripped response
    for the first [```html] marker, else for the first [```] marker, and
    takes the stripped text between that marker and the first [```] after
    it, whatever else, single backticks included, stands before the marker
    or between the two; a response without any fence is taken whole.  The
    repair step then wraps a text that lacks a document root in the
    document shell, so the result of every extraction begins with
    [<!DOCTYPE] or [<html]. *)
Theorem C8_markup_extraction :
  (forall response_text,
     has_document_root (_extract_html response_text) = true /\
     exists core, _extract_html response_text = repair core) /\
  (forall core, has_document_root core = false -> repair core = html_shell core) /\
  (forall response_text pre rest body post,
     first_occurrence (u "```html") (strip response_text) pre rest ->
     first_occurrence (u "```") rest body post ->
     _extract_html response_text = repair (strip body)) /\
  (forall response_text pre rest body post,
     ~ within (u "```html") (strip response_text) ->
     first_occurrence (u "```") (strip response_text) pre rest ->
     first_occurrence (u "```") rest body post ->
     _extract_html response_text = repair (strip body)) /\
  (forall response_text,
     ~ within (u "```") (strip response_text) ->
     _extract_html response_text = repair (strip response_text)).
Proof.
  split; [|split; [|split; [|split]]].
  - intros text. destruct (extract_html_repair text) as [core H].
    split; [|by exists core]. rewrite H. apply repair_root.
  - intros core H. unfold repair. by rewrite H.
  - intros text pre rest body post Hm Hc.
    unfold _extract_html, repair. cbv zeta.
    rewrite (contains_first _ _ _ _ Hm), (between_fences_closed _ _ _ _ _ _ Hm Hc).
    by destruct (has_document_root _).
  - intros text pre rest body post Hno Hm Hc.
    unfold _extract_html, repair. cbv zeta.
    rewrite (contains_absent _ _ Hno), (contains_first _ _ _ _ Hm).
    rewrite (between_fences_closed _ _ _ _ _ _ Hm Hc).
    by destruct (has_document_root _).
  - intros text Hno.
    unfold _extract_html, repair. cbv zeta.
    assert (Hh : ~ within (u "```html") (strip text)).
    { intros (a & b & H). apply Hno. exists a, (u "html" ++ b). by rewrite H. }
    rewrite (contains_absent _ _ Hh), (contains_absent _ _ Hno).
    by destruct (has_document_root _).
Qed.

(** ** The report computations append only *)

Lemma appends_only_ret {A : Type} (a : A) : appends_only (mret a : Report A).
Proof. intros report. cbn. by rewrite app_nil_r. Qed.

Lemma appends_only_append x : appends_only (append x).
Proof. by intros report. Qed.

Lemma appends_only_lift {A : Type} (o : outcome A) : appends_only (lift o).
Proof. intros report. destruct o; cbn; [by rewrite app_nil_r|done]. Qed.

Lemma appends_only_bind {A B : Type} (m : Report A) (k : A -> Report B) :
  appends_only m -> (forall a, appends_only (k a)) -> appends_only (m ≫= k).
Proof.
  intros Hm Hk report. unfold mbind, Report_bind. rewrite (Hm report).
  destruct (m []) as [[a out]|e]; [|done].
  rewrite (Hk a (report ++ out)), (Hk a out).
  destruct (k a []) as [[b out']|e]; [|done]. by rewrite app_assoc.
Qed.

Lemma appends_only_when c m : appends_only m -> appends_only (when c m).
Proof. intros H. destruct c; [exact H|apply appends_only_ret]. Qed.

Lemma appends_only_for_each {A : Type} (l : list A) body :
  (forall x, appends_only (body x)) -> appends_only (for_each l body).
Proof.
  intros H. induction l as [|x l IH]; simpl.
  - apply appends_only_ret.
  - apply appends_only_bind; [apply H|by intros _].
Qed.

Lemma appends_only_for_each_from {A : Type} i (l : list A) body :
  (forall j x, appends_only (body j x)) -> appends_only (for_each_from i l body).
Proof.
  intros H. revert i. induction l as [|x l IH]; intros i; simpl.
  - apply appends_only_ret.
  - apply appends_only_bind; [apply H|by intros _].
Qed.

Lemma appends_only_say pieces : appends_only (say pieces).
Proof. apply appends_only_append. Qed.

Lemma appends_only_field v key dflt : appends_only (field v key dflt).
Proof.
  apply appends_only_bind; [apply appends_only_lift|intros x; apply appends_only_ret].
Qed.

Ltac appends :=
  repeat first
    [ apply appends_only_bind
    | apply appends_only_ret
    | apply appends_only_say
    | apply appends_only_append
    | apply appends_only_lift
    | apply appends_only_field
    | apply appends_only_when
    | apply appends_only_for_each
    | apply appends_only_for_each_from
    | match goal with |- forall _, _ => intro end ].

Lemma summary_section_appends summary : appends_only (summary_section summary).
Proof. unfold summary_section. appends. Qed.

Lemma quick_win_appends i win : appends_only (quick_win i win).
Proof. unfold quick_win. appends. Qed.

Lemma quick_wins_section_appends quick_wins : appends_only (quick_wins_section quick_wins).
Proof. unfold quick_wins_section. appends. Qed.

Lemma code_example_block_appends code_example :
  appends_only (code_example_block code_example).
Proof. unfold code_example_block. appends. Qed.

Lemma detail_item_appends item : appends_only (detail_item item).
Proof. unfold detail_item. appends. Qed.

Lemma priority_bucket_appends feedback_items priority :
  appends_only (priority_bucket feedback_items priority).
Proof. unfold priority_bucket. appends. Qed.

Lemma bullet_list_appends title entries : appends_only (bullet_list title entries).
Proof. unfold bullet_list. appends. Qed.

Lemma wireframe_section_appends wi : appends_only (wireframe_section wi).
Proof. unfold wireframe_section. appends. Qed.

(** A successful sequence splits into the outputs of its two parts. *)
Lemma bind_output {A B : Type} (m : Report A) (k : A -> Report B) b out :
  (forall a, appends_only (k a)) ->
  (m ≫= k) [] = Ok (b, out) ->
  exists a o1 o2, m [] = Ok (a, o1) /\ k a [] = Ok (b, o2) /\ out = o1 ++ o2.
Proof.
  intros Hk. unfold mbind, Report_bind.
  destruct (m []) as [[a o1]|e]; [|done].
  rewrite (Hk a o1). destruct (k a []) as [[b' o2]|e] eqn:E; [|done].
  intros [= <- <-]. by exists a, o1, o2.
Qed.

Lemma for_each_output {A : Type} (l : list A) body out :
  (forall x, appends_only (body x)) ->
  for_each l body [] = Ok (tt, out) ->
  exists blocks,
    Forall2 (fun x block => body x [] = Ok (tt, block)) l blocks /\ out = concat blocks.
Proof.
  intros Hb. revert out. induction l as [|x l IH]; intros out; simpl.
  - intros [= <-]. by exists [].
  - intros H. apply bind_output in H as ([] & o1 & o2 & H1 & H2 & ->);
      [|intros _; by apply appends_only_for_each].
    destruct (IH _ H2) as (blocks & HF & ->).
    exists (o1 :: blocks). split; [by constructor|done].
Qed.

Lemma for_each_from_output {A : Type} i (l : list A) body out :
  (forall j x, appends_only (body j x)) ->
  for_each_from i l body [] = Ok (tt, out) ->
  exists blocks,
    Forall2 (fun ix block => body (fst ix) (snd ix) [] = Ok (tt, block))
            (zip (seq i (length l)) l) blocks /\
    out = concat blocks.
Proof.
  intros Hb. revert i out. induction l as [|x l IH]; intros i out; simpl.
  - intros [= <-]. by exists [].
  - intros H. apply bind_output in H as ([] & o1 & o2 & H1 & H2 & ->);
      [|intros _; by apply appends_only_for_each_from].
    destruct (IH _ _ H2) as (blocks & HF & ->).
    exists (o1 :: blocks). split; [by constructor|done].
Qed.

Lemma join_from_inv sep i l doc :
  join_from sep i l = Ok doc ->
  exists texts, l = map JStr texts /\ doc = join_text sep texts.
Proof.
  revert i doc. induction l as [|x l IH]; intros i doc; simpl.
  - intros [= <-]. by exists [].
  - destruct x as [| | |s| |]; try done.
    destruct (join_from sep (S i) l) as [rest|e] eqn:Hr; [|done]. cbn.
    intros [= <-]. destruct (IH _ _ Hr) as (texts & -> & ->).
    exists (s :: texts). split; [done|]. by destruct texts.
Qed.

Lemma join_inv sep l doc :
  join sep l = Ok doc -> exists texts, l = map JStr texts /\ doc = join_text sep texts.
Proof. apply join_from_inv. Qed.

(** ** Priority buckets of the developer report *)

Lemma select_priority_filter priority items chosen :
  select_priority priority items = Ok chosen ->
  chosen = List.filter (has_priority priority) items.
Proof.
  revert chosen. induction items as [|item rest IH]; intros chosen; simpl.
  - by intros [= <-].
  - destruct item as [| | | | |d]; try done. cbn.
    destruct (select_priority priority rest) as [selected|e]; [|done]. cbn.
    intros [= <-]. rewrite (IH selected eq_refl). by destruct (eq_str _ _).
Qed.

Lemma sublist_filter_bool {A : Type} (f : A -> bool) (l : list A) :
  sublist (List.filter f l) l.
Proof.
  induction l as [|x l IH]; simpl; [constructor|].
  destruct (f x); by constructor.
Qed.

Lemma say_output pieces out : say pieces [] = Ok (tt, out) -> out = [line pieces].
Proof. by intros [= <-]. Qed.

Lemma run_lift_ok {A B : Type} (a : A) (k : A -> Report B) report :
  (lift (Ok a) ≫= k) report = k a report.
Proof. reflexivity. Qed.

Lemma run_lift_raise {A B : Type} e (k : A -> Report B) report :
  (lift (Raise e) ≫= k) report = Raise e.
Proof. reflexivity. Qed.

Lemma run_say {B : Type} pieces (k : unit -> Report B) report :
  (say pieces ≫= k) report = k tt (report ++ [line pieces]).
Proof. reflexivity. Qed.

Lemma run_append {B : Type} x (k : unit -> Report B) report :
  (append x ≫= k) report = k tt (report ++ [x]).
Proof. reflexivity. Qed.

Lemma run_field {B : Type} d key dflt (k : str -> Report B) report :
  (field (JObj d) key dflt ≫= k) report = k (fmt (default dflt (lookup (u key) d))) report.
Proof. reflexivity. Qed.

Lemma for_each_say {A : Type} (xs : list A) (f : A -> list str) report :
  for_each xs (fun x => say (f x)) report = Ok (tt, report ++ map (fun x => line (f x)) xs).
Proof.
  revert report. induction xs as [|x xs IH]; intros report; simpl.
  - cbn. by rewrite app_nil_r.
  - rewrite run_say, IH. by rewrite <- app_assoc.
Qed.

Lemma run_for_each_say {A B : Type} (xs : list A) (f : A -> list str)
    (k : unit -> Report B) report :
  (for_each xs (fun x => say (f x)) ≫= k) report
  = k tt (report ++ map (fun x => line (f x)) xs).
Proof. unfold mbind, Report_bind. by rewrite for_each_say. Qed.

Lemma get_obj d k dflt : get (JObj d) k dflt = Ok (default dflt (lookup k d)).
Proof. reflexivity. Qed.

Lemma bullets_lines (xs : list json) :
  map (fun x => line [u "- "; fmt x]) xs = map (fun x => JStr (u "- " ++ fmt x)) xs.
Proof. apply map_ext. intros x. unfold line. cbn [concat]. by rewrite app_nil_r. Qed.

Lemma elements_list_inv l xs : elements (JArr l) xs -> l = xs.
Proof. by inversion 1. Qed.

Lemma elements_text_inv t xs : elements (JStr t) xs -> xs = map (fun c => JStr [c]) t.
Proof. by inversion 1. Qed.

Lemma chars_texts (t : str) (shown : list str) :
  map JStr shown = map (fun c => JStr [c]) t -> shown = map (fun c => [c]) t.
Proof.
  revert shown. induction t as [|c t IH]; intros [|x shown] H; try done.
  injection H as -> H. cbn [map]. f_equal. by apply IH.
Qed.

Lemma iter_elements v xs : iter v = Ok xs -> elements v xs.
Proof. destruct v; intros [= <-]; constructor. Qed.

Lemma code_example_block_run code_example report :
  code_example_block code_example report =
  if truthy code_example
  then match code_example with
       | JObj c => Ok (tt, report ++ example_lines c)
       | _ => Raise (AttributeError (type_name code_example) (u "get"))
       end
  else Ok (tt, report).
Proof.
  unfold code_example_block, when. destruct (truthy code_example); [|done].
  destruct code_example as [| | | | |c]; try done.
  rewrite run_field, run_say, run_field, run_say, get_obj.
  rewrite run_lift_ok, run_append. unfold say, append, example_lines, line. cbn [concat].
  by rewrite <- !app_assoc, !app_nil_r.
Qed.

(** What one item appends, line by line. *)
Lemma detail_item_output item block :
  detail_item item [] = Ok (tt, block) -> is_item_block item block.
Proof.
  destruct item as [| | | | |d]; try done.
  unfold detail_item, is_item_block.
  rewrite !run_field, run_say, run_field, run_say, run_field, run_say, run_say,
    run_field, run_say, run_say.
  rewrite !get_obj, run_lift_ok.
  destruct (iter (default (JArr []) (lookup (u "what_to_do") d))) as [steps|e] eqn:Hsteps;
    [rewrite run_lift_ok|by rewrite run_lift_raise].
  rewrite run_for_each_say, bullets_lines, run_say, run_lift_ok.
  unfold mbind at 1, Report_bind at 1. rewrite code_example_block_run.
  intros H. exists d, steps.
  exists (if truthy (default (JObj []) (lookup (u "code_example") d))
          then match default (JObj []) (lookup (u "code_example") d) with
               | JObj c => example_lines c
               | _ => []
               end
          else []).
  split; [done|]. split; [by apply iter_elements|].
  cbv zeta. destruct (truthy (default (JObj []) (lookup (u "code_example") d))).
  - destruct (default (JObj []) (lookup (u "code_example") d)) as [| | | | |c]; try done.
    split; [by exists c|].
    rewrite run_say, run_field, run_say in H. unfold say, append in H.
    injection H as <-. unfold item_lines, line. cbn [concat app].
    by rewrite <- !app_assoc, !app_nil_r.
  - split; [done|].
    rewrite run_say, run_field, run_say in H. unfold say, append in H.
    injection H as <-. unfold item_lines, line. cbn [concat app].
    by rewrite <- !app_assoc, !app_nil_r.
Qed.

Lemma priority_bucket_output feedback_items priority items lines :
  iter feedback_items = Ok items ->
  priority_bucket feedback_items priority [] = Ok (tt, lines) ->
  is_bucket priority items lines.
Proof.
  intros Hi H. unfold priority_bucket in H. rewrite Hi, run_lift_ok in H.
  destruct (select_priority priority items) as [chosen|e] eqn:Hs;
    [rewrite run_lift_ok in H|by rewrite run_lift_raise in H].
  apply select_priority_filter in Hs. unfold is_bucket. cbv zeta. rewrite <- Hs.
  split; [rewrite Hs; apply sublist_filter_bool|].
  destruct chosen as [|c chosen]; unfold when, truthy in H.
  - by injection H as <-.
  - apply bind_output in H as ([] & o1 & o2 & H1 & H2 & ->);
      [|intros _; apply appends_only_for_each, detail_item_appends].
    apply say_output in H1 as ->.
    apply for_each_output in H2 as (blocks & HF & ->); [|apply detail_item_appends].
    exists blocks. split.
    + eapply Forall2_impl; [exact HF|]. intros x block Hx. by apply detail_item_output.
    + unfold line. cbn [concat]. by rewrite !app_nil_r.
Qed.

Lemma bullet_list_run title entries report :
  bullet_list title entries report =
  if truthy entries
  then match iter entries with
       | Ok xs => Ok (tt, report ++ line [u title]
                          :: map (fun x => line [u "- "; fmt x]) xs ++ [line [[]]])
       | Raise e => Raise e
       end
  else Ok (tt, report).
Proof.
  unfold bullet_list, when. destruct (truthy entries); [|done].
  rewrite run_say. destruct (iter entries) as [xs|e].
  - rewrite run_lift_ok, run_for_each_say. unfold say, append.
    by rewrite <- !app_assoc.
  - by rewrite run_lift_raise.
Qed.

Lemma bullet_list_output title entries lines :
  bullet_list title entries [] = Ok (tt, lines) -> is_bullet_list title entries lines.
Proof.
  rewrite bullet_list_run. unfold is_bullet_list. destruct (truthy entries).
  - destruct (iter entries) as [xs|e] eqn:Hxs; [|done]. intros [= <-]. exists xs.
    split; [by apply iter_elements|].
    rewrite bullets_lines. unfold line. cbn [concat]. by rewrite !app_nil_r.
  - by intros [= <-].
Qed.

Lemma seq_output {A B : Type} (m : Report A) (k : A -> Report B) a o1 b o2 :
  appends_only (k a) ->
  m [] = Ok (a, o1) -> k a [] = Ok (b, o2) -> (m ≫= k) [] = Ok (b, o1 ++ o2).
Proof.
  intros Hk Hm Hka. unfold mbind, Report_bind. rewrite Hm, (Hk o1). by rewrite Hka.
Qed.

Lemma when_say_output c pieces (a : unit) out :
  when c (say pieces) [] = Ok (a, out) -> out = if c then [line pieces] else [].
Proof. destruct c; by intros [= <-]. Qed.

Lemma wireframe_section_output wireframe_instructions lines :
  wireframe_section wireframe_instructions [] = Ok (tt, lines) ->
  is_visual_section wireframe_instructions lines.
Proof.
  unfold wireframe_section, is_visual_section, when at 1.
  destruct (truthy wireframe_instructions); [|by intros [= <-]].
  intros H.
  apply bind_output in H as ([] & o0 & rest & H0 & H & ->); [|intros; appends].
  apply say_output in H0 as ->.
  destruct wireframe_instructions as [| | | | |d];
    try (by unfold get in H; rewrite run_lift_raise in H).
  unfold get in H. rewrite run_lift_ok in H.
  apply bind_output in H as ([] & overall & rest' & Ho & H & ->); [|intros; appends].
  apply when_say_output in Ho.
  rewrite run_lift_ok in H.
  apply bind_output in H as ([] & fixes & rest'' & Hf & H & ->); [|intros; appends].
  rewrite run_lift_ok in H.
  apply bind_output in H as ([] & colors & typo & Hc & H & ->); [|intros; appends].
  rewrite run_lift_ok in H.
  exists d, overall, fixes, colors, typo.
  split; [done|]. split; [done|]. split; [done|].
  auto using bullet_list_output.
Qed.

Lemma summary_section_output summary lines :
  summary_section summary [] = Ok (tt, lines) ->
  exists s, summary = JObj s /\ lines = summary_lines s.
Proof.
  destruct summary as [| | | | |s]; try done.
  unfold summary_section.
  rewrite run_say, !run_field, run_say, run_field, run_say, run_field, run_say,
    run_field, run_say, run_field, run_say, run_field.
  unfold say, append. intros [= <-]. exists s. split; [done|].
  unfold summary_lines, line. cbn [concat app]. by rewrite !app_nil_r.
Qed.

Lemma quick_win_output i win block :
  quick_win i win [] = Ok (tt, block) -> is_quick_win_block i win block.
Proof.
  destruct win as [| | | | |w]; try done.
  unfold quick_win. rewrite !run_field, run_say, run_field, run_say, run_field.
  unfold say, append. intros [= <-]. exists w. split; [done|].
  unfold line. cbn [concat app]. by rewrite !app_nil_r.
Qed.

Lemma quick_wins_section_output quick_wins lines :
  quick_wins_section quick_wins [] = Ok (tt, lines) -> is_quick_wins quick_wins lines.
Proof.
  unfold quick_wins_section, is_quick_wins, when.
  destruct (truthy quick_wins); [|by intros [= <-]].
  rewrite !run_say.
  destruct (iter quick_wins) as [wins|e] eqn:Hw;
    [rewrite run_lift_ok|by rewrite run_lift_raise].
  rewrite (appends_only_for_each_from 1 wins quick_win
             (fun _ _ => quick_win_appends _ _)).
  destruct (for_each_from 1 wins quick_win []) as [[[] out]|e] eqn:H; [|done].
  intros [= <-].
  apply for_each_from_output in H as (blocks & HF & ->);
    [|intros; apply quick_win_appends].
  exists wins, blocks. split; [by apply iter_elements|]. split.
  - eapply Forall2_impl; [exact HF|]. intros ix block Hx. by apply quick_win_output.
  - unfold line. cbn [concat app]. by rewrite !app_nil_r.
Qed.

Lemma priority_bucket_items feedback_items priority lines :
  priority_bucket feedback_items priority [] = Ok (tt, lines) ->
  exists items, iter feedback_items = Ok items.
Proof.
  unfold priority_bucket. destruct (iter feedback_items) as [items|e]; [by exists items|].
  by rewrite run_lift_raise.
Qed.

(** Whenever the developer report renders, its lines are texts, joined by
    newlines, in this order: the front matter (title, summary, quick wins),
    the detailed-feedback heading, the four priority buckets in the order
    critical, high, medium, low, and the visual-design section.  A bucket
    holds the items of that priority as a subsequence of [feedback_items],
    in their original order, under a heading that counts them, each item
    rendered line by line; a bucket without items contributes no line at
    all, not even its heading.  The visual-design section lists the overall
    change and the priority, color and typography sub-lists of
    [wireframe_instructions], each omitted when empty, and nothing else. *)
Theorem developer_report_structure (feedback_result : json) (doc : str) :
  generate_developer_report feedback_result = Ok doc ->
  exists d items front b_critical b_high b_medium b_low visual texts,
    feedback_result = JObj d /\
    elements (default (JArr []) (lookup (u "feedback_items") d)) items /\
    front ++ [JStr (u "## " ++ [0x1F527%N] ++ u " Detailed Feedback" ++ nl)]
      ++ b_critical ++ b_high ++ b_medium ++ b_low ++ visual = map JStr texts /\
    doc = join_text nl texts /\
    is_front_matter (default (JObj []) (lookup (u "summary") d))
                    (default (JArr []) (lookup (u "quick_wins") d)) front /\
    is_bucket (u "critical") items b_critical /\
    is_bucket (u "high") items b_high /\
    is_bucket (u "medium") items b_medium /\
    is_bucket (u "low") items b_low /\
    is_visual_section (default (JObj []) (lookup (u "wireframe_instructions") d)) visual.
Proof.
  unfold generate_developer_report.
  destruct (developer_report_lines feedback_result []) as [[[] report]|e] eqn:H; [|done].
  intros Hjoin.
  destruct feedback_result as [| | | | |d];
    try (by unfold developer_report_lines, get in H; rewrite run_lift_raise in H).
  unfold developer_report_lines, get in H. rewrite !run_lift_ok in H.
  apply bind_output in H as ([] & o_title & rest & Ht & H & ->); [|intros; appends].
  apply bind_output in H as ([] & o_summary & rest' & Hs & H & ->); [|intros; appends].
  apply bind_output in H as ([] & o_quick & rest'' & Hq & H & ->); [|intros; appends].
  apply bind_output in H as ([] & o_head & rest3 & Hh & H & ->); [|intros; appends].
  apply bind_output in H as ([] & o_buckets & visual & Hb & Hv & ->); [|intros; appends].
  injection Hh as <-. apply say_output in Ht as ->.
  apply summary_section_output in Hs as (s & Hs & ->).
  apply quick_wins_section_output in Hq.
  apply for_each_output in Hb as (blocks & HF & ->);
    [|intros; apply priority_bucket_appends].
  unfold priorities in HF.
  apply Forall2_cons_inv_l in HF as (b1 & blocks1 & H1 & HF & ->).
  apply Forall2_cons_inv_l in HF as (b2 & blocks2 & H2 & HF & ->).
  apply Forall2_cons_inv_l in HF as (b3 & blocks3 & H3 & HF & ->).
  apply Forall2_cons_inv_l in HF as (b4 & blocks4 & H4 & HF & ->).
  apply Forall2_nil_inv_l in HF as ->.
  destruct (priority_bucket_items _ _ _ H1) as [items Hitems].
  apply join_inv in Hjoin as (texts & Hlines & ->).
  exists d, items,
    (JStr (u "# " ++ [0x1F3AF%N] ++ u " UX Feedback Report for Developers" ++ nl)
     :: summary_lines s ++ o_quick), b1, b2, b3, b4, visual, texts.
  split; [done|]. split; [by apply iter_elements|]. split.
  { rewrite <- Hlines. unfold detailed_heading, line. cbn [concat app].
    rewrite !app_nil_r. by rewrite <- !app_assoc. }
  split; [done|]. split; [by exists s, o_quick|].
  split; [by eapply priority_bucket_output|].
  split; [by eapply priority_bucket_output|].
  split; [by eapply priority_bucket_output|].
  split; [by eapply priority_bucket_output|].
  by apply wireframe_section_output.
Qed.

(** Claim C6. The visual-design section is built from [overall_changes],
    [priority_fixes], [color_adjustments] and [typography_changes] only:
    the [layout_modifications] sub-list of [wireframe_instructions] is never
    read.  Instructions that hold nothing but layout modifications, however
    many, render as the section heading alone, while the same entries under
    [priority_fixes] are listed one per line; the report of such a feedback
    result is the empty report followed by that heading. *)
Theorem C6_layout_modifications_not_rendered :
  (forall entries : list json,
     wireframe_section (JObj [(u "layout_modifications", JArr entries)]) []
     = Ok (tt, [JStr (u "## " ++ [0x1F3A8%N] ++ u " Visual Design Changes" ++ nl)])) /\
  (forall (entry : json) (entries : list json),
     wireframe_section (JObj [(u "priority_fixes", JArr (entry :: entries))]) []
     = Ok (tt, [JStr (u "## " ++ [0x1F3A8%N] ++ u " Visual Design Changes" ++ nl);
                JStr (u "**Priority Visual Fixes:**")]
               ++ map (fun x => JStr (u "- " ++ fmt x)) (entry :: entries)
               ++ [JStr []])) /\
  generate_developer_report
    (JObj [(u "wireframe_instructions",
            JObj [(u "layout_modifications", JArr [JStr (u "Move the button up")])])])
  = Ok (join_text nl
          (empty_report
           ++ [u "## " ++ [0x1F3A8%N] ++ u " Visual Design Changes" ++ nl])).
Proof.
  split; [|split].
  - intros entries. reflexivity.
  - intros entry entries. unfold wireframe_section, when.
    change (truthy (JObj [(u "priority_fixes", JArr (entry :: entries))])) with true.
    cbv iota. rewrite run_say, !get_obj, !run_lift_ok.
    change (default (JStr []) (lookup (u "overall_changes")
              [(u "priority_fixes", JArr (entry :: entries))])) with (JStr []).
    change (default (JArr []) (lookup (u "priority_fixes")
              [(u "priority_fixes", JArr (entry :: entries))]))
      with (JArr (entry :: entries)).
    change (default (JArr []) (lookup (u "color_adjustments")
              [(u "priority_fixes", JArr (entry :: entries))])) with (JArr []).
    change (default (JArr []) (lookup (u "typography_changes")
              [(u "priority_fixes", JArr (entry :: entries))])) with (JArr []).
    unfold mbind, Report_bind, lift, mret, Report_ret.
    cbn -[bullet_list fmt u nl line map].
    rewrite !bullet_list_run. cbn [truthy iter]. cbv iota.
    rewrite bullets_lines. unfold line. cbn [concat app].
    by rewrite !app_nil_r.
  - vm_compute. reflexivity.
Qed.

(** ** The report renders on well-typed input *)

Lemma renders_ret : renders (mret tt).
Proof. exists []. split; [intros r; cbn; by rewrite app_nil_r|constructor]. Qed.

Lemma renders_say pieces : renders (say pieces).
Proof. exists [line pieces]. split; [by intros r|by repeat constructor]. Qed.

Lemma renders_append_text s : renders (append (JStr s)).
Proof. exists [JStr s]. split; [by intros r|by repeat constructor]. Qed.

Lemma renders_seq (m : Report unit) (k : unit -> Report unit) :
  renders m -> renders (k tt) -> renders (m ≫= k).
Proof.
  intros (o1 & H1 & T1) (o2 & H2 & T2). exists (o1 ++ o2).
  split; [|by apply Forall_app].
  intros r. unfold mbind, Report_bind. rewrite H1, H2. by rewrite app_assoc.
Qed.

Lemma renders_lift_ok {A : Type} (a : A) (k : A -> Report unit) :
  renders (k a) -> renders (lift (Ok a) ≫= k).
Proof. intros (o & H & T). exists o. split; [|done]. intros r. by rewrite run_lift_ok. Qed.

Lemma renders_field d key dflt (k : str -> Report unit) :
  renders (k (fmt (default dflt (lookup (u key) d)))) ->
  renders (field (JObj d) key dflt ≫= k).
Proof. intros (o & H & T). exists o. split; [|done]. intros r. by rewrite run_field. Qed.

Lemma renders_when c m : (c = true -> renders m) -> renders (when c m).
Proof. destruct c; [auto|intros _; apply renders_ret]. Qed.

Lemma renders_for_each {A : Type} (l : list A) body :
  Forall (fun x => renders (body x)) l -> renders (for_each l body).
Proof.
  induction 1 as [|x l Hx _ IH]; simpl; [apply renders_ret|by apply renders_seq].
Qed.

Lemma renders_for_each_from {A : Type} i (l : list A) body :
  Forall (fun x => forall j, renders (body j x)) l -> renders (for_each_from i l body).
Proof.
  intros H. revert i. induction H as [|x l Hx _ IH]; intros i; simpl;
    [apply renders_ret|by apply renders_seq].
Qed.

Ltac render :=
  repeat first
    [ apply renders_field
    | apply renders_lift_ok
    | apply renders_seq
    | apply renders_say
    | apply renders_append_text
    | apply renders_ret ].

Lemma field_ok_default d key ok dflt :
  field_ok d key ok = true -> ok dflt = true ->
  ok (default dflt (lookup (u key) d)) = true.
Proof. unfold field_ok. by destruct (lookup (u key) d). Qed.

Lemma summary_section_renders d : renders (summary_section (JObj d)).
Proof. unfold summary_section. render. Qed.

Lemma quick_win_renders i d : renders (quick_win i (JObj d)).
Proof. unfold quick_win. render. Qed.

Lemma quick_wins_section_renders quick_wins :
  list_of is_dict quick_wins = true -> renders (quick_wins_section quick_wins).
Proof.
  destruct quick_wins as [| | | |l|]; try done. simpl. intros Hl.
  unfold quick_wins_section. apply renders_when. intros _. render.
  assert (Hall : forall x, In x l -> is_dict x = true) by (by apply forallb_forall).
  apply renders_for_each_from, Forall_forall.
  intros x Hx j. apply list_elem_of_In, Hall in Hx.
  destruct x; try done. apply quick_win_renders.
Qed.

Lemma bullet_list_renders title entries :
  is_list entries = true -> renders (bullet_list title entries).
Proof.
  destruct entries as [| | | |l|]; try done. intros _.
  exists (if truthy (JArr l)
          then line [u title] :: map (fun x => line [u "- "; fmt x]) l ++ [line [[]]]
          else []).
  split.
  - intros r. rewrite bullet_list_run. cbn [iter].
    destruct (truthy (JArr l)); [done|by rewrite app_nil_r].
  - destruct (truthy (JArr l)); [|constructor].
    constructor; [done|]. apply Forall_app. split; [|by repeat constructor].
    apply Forall_forall. intros x Hx. apply list_elem_of_fmap in Hx as (y & -> & _). done.
Qed.

Lemma code_example_block_renders code_example :
  code_example_ok code_example = true -> renders (code_example_block code_example).
Proof.
  intros H. unfold code_example_block. apply renders_when.
  destruct code_example as [| | | | |d]; try done. simpl in H. intros _.
  pose proof (field_ok_default d "code" is_text (JStr []) H eq_refl) as Hc.
  render. destruct (default (JStr []) (lookup (u "code") d)); try done.
  apply renders_append_text.
Qed.

Lemma detail_item_renders item : item_ok item = true -> renders (detail_item item).
Proof.
  destruct item as [| | | | |d]; try done. simpl. intros H.
  apply andb_true_iff in H as [Hw Hc].
  pose proof (field_ok_default d "what_to_do" is_list (JArr []) Hw eq_refl) as Hw'.
  pose proof (field_ok_default d "code_example" code_example_ok (JObj []) Hc eq_refl) as Hc'.
  unfold detail_item. render.
  destruct (default (JArr []) (lookup (u "what_to_do") d)) as [| | | |steps|]; try done.
  apply renders_lift_ok. apply renders_seq.
  { apply renders_for_each, Forall_forall. intros x _. apply renders_say. }
  render. by apply code_example_block_renders.
Qed.

Lemma select_priority_total priority items :
  forallb item_ok items = true ->
  select_priority priority items = Ok (List.filter (has_priority priority) items).
Proof.
  induction items as [|item rest IH]; simpl; [done|].
  intros H. apply andb_true_iff in H as [Hi Hr].
  destruct item as [| | | | |d]; try done. cbn. rewrite (IH Hr). cbn.
  by destruct (eq_str _ _).
Qed.

Lemma priority_bucket_renders feedback_items priority :
  list_of item_ok feedback_items = true ->
  renders (priority_bucket feedback_items priority).
Proof.
  destruct feedback_items as [| | | |items|]; try done. simpl. intros H.
  unfold priority_bucket. cbn [iter]. apply renders_lift_ok.
  rewrite (select_priority_total _ _ H). apply renders_lift_ok.
  apply renders_when. intros _. render.
  apply renders_for_each, Forall_forall. intros x Hx.
  apply detail_item_renders.
  apply list_elem_of_In, filter_In in Hx as [Hx _].
  assert (Hall : forall x, In x items -> item_ok x = true) by (by apply forallb_forall).
  by apply Hall.
Qed.

Lemma wireframe_section_renders wireframe_instructions :
  wireframe_instructions_ok wireframe_instructions = true ->
  renders (wireframe_section wireframe_instructions).
Proof.
  destruct wireframe_instructions as [| | | | |d]; try done. simpl. intros H.
  apply andb_true_iff in H as [H Ht]. apply andb_true_iff in H as [Hf Hc].
  unfold wireframe_section. apply renders_when. intros _. render.
  - apply renders_when. intros _. apply renders_say.
  - by apply bullet_list_renders, (field_ok_default d "priority_fixes" is_list).
  - by apply bullet_list_renders, (field_ok_default d "color_adjustments" is_list).
  - by apply bullet_list_renders, (field_ok_default d "typography_changes" is_list).
Qed.

Lemma join_from_texts sep i l :
  Forall (fun x => is_text x = true) l -> exists doc, join_from sep i l = Ok doc.
Proof.
  intros H. revert i. induction H as [|x l Hx _ IH]; intros i; simpl; [by eexists|].
  destruct x; try done. destruct (IH (S i)) as [rest ->]. cbn. by eexists.
Qed.

Lemma developer_report_renders feedback_result :
  well_typed feedback_result = true -> renders (developer_report_lines feedback_result).
Proof.
  destruct feedback_result as [| | | | |d]; try done. simpl. intros H.
  apply andb_true_iff in H as [H Hw]. apply andb_true_iff in H as [H Hs].
  apply andb_true_iff in H as [Hi Hq].
  pose proof (field_ok_default d "summary" is_dict (JObj []) Hs eq_refl) as Hs'.
  unfold developer_report_lines, get. do 4 apply renders_lift_ok.
  apply renders_seq; [apply renders_say|].
  apply renders_seq.
  { destruct (default (JObj []) (lookup (u "summary") d)); try done.
    apply summary_section_renders. }
  apply renders_seq.
  { by apply quick_wins_section_renders, (field_ok_default d "quick_wins"). }
  apply renders_seq; [apply renders_append_text|].
  apply renders_seq.
  { apply renders_for_each, Forall_forall. intros p _.
    by apply priority_bucket_renders, (field_ok_default d "feedback_items"). }
  by apply wireframe_section_renders, (field_ok_default d "wireframe_instructions").
Qed.

(** Claim C7, as amended.  The developer report renders, without raising,
    for every mapping whose present fields have the types of the feedback
    schema; absent fields are allowed throughout, and the empty mapping is
    such an input.  Absent fields render as the placeholders [0], [Unknown],
    [N/A] and [?].  The report of the empty mapping has zero counts and,
    under the detailed-feedback heading, which is always emitted, no bucket
    and no item. *)
Theorem C7_report_total_on_typed_input :
  (forall feedback_result,
     well_typed feedback_result = true ->
     exists doc, generate_developer_report feedback_result = Ok doc) /\
  well_typed (JObj []) = true /\
  generate_developer_report (JObj []) = Ok (join_text nl empty_report) /\
  lines_of (detail_item (JObj [])) =
    Ok [JStr (u "#### ?. Unknown" ++ nl);
        JStr (u "**Category:** N/A  ");
        JStr (u "**Estimated Effort:** Unknown" ++ nl);
        JStr (u "**Why it matters:**  ");
        JStr (u "N/A" ++ nl);
        JStr (u "**What to do:**");
        JStr [];
        JStr (u "**Visual changes needed:**  ");
        JStr (u "N/A" ++ nl);
        JStr (u "---" ++ nl)] /\
  lines_of (quick_win 1 (JObj [])) =
    Ok [JStr (u "1. **N/A**"); JStr (u "   - Impact: N/A");
        JStr (u "   - Effort: N/A" ++ nl)].
Proof.
  split; [|by vm_compute].
  intros fr H. destruct (developer_report_renders fr H) as (out & Hp & Ht).
  unfold generate_developer_report. rewrite (Hp []). simpl.
  by apply join_from_texts.
Qed.

(** ** Further properties of the score *)

Lemma score_exact (ds : list (list (str * json))) :
  ds <> [] ->
  Forall (fun d => hashable (severity_of d) = true) ds ->
  _calculate_score (JArr (JObj <$> ds))
  = Ok (py_max (Int 0) (Float (py_round1 (10 - Qmin (total_weight ds) 10)))).
Proof.
  intros Hne H. unfold _calculate_score.
  assert (truthy (JArr (JObj <$> ds)) = true) as -> by (by destruct ds).
  destruct (sum_deductions_val ds (Int 0) H) as (total & Ht & Hv).
  cbn. rewrite Ht. cbn. do 3 f_equal.
  apply py_round1_comp. rewrite py_min_val, Hv. cbn [num_val].
  assert (inject_Z 0 + total_weight ds == total_weight ds)%Q as -> by ring.
  reflexivity.
Qed.

Lemma score_closed_form (ds : list (list (str * json))) :
  Forall (fun d => hashable (severity_of d) = true) ds ->
  exists score,
    _calculate_score (JArr (JObj <$> ds)) = Ok score /\
    (num_val score == 10 - Qmin (total_weight ds) 10)%Q.
Proof.
  intros H. destruct ds as [|d ds].
  - exists (Float 10). split; [reflexivity|]. simpl. by rewrite Q.min_l.
  - destruct (score_of_records (d :: ds)) as (score & Hs & Hv); [done|done|].
    destruct (clamped_remainder_tenths (d :: ds)) as (j & Hj & Hrem).
    exists score. split; [done|].
    rewrite Hv, (py_round1_comp _ (j # 10) Hrem), py_round1_tenths, Hrem.
    apply Q.max_r. unfold Qle. simpl. lia.
Qed.

Lemma weight_nonneg severity : (0 <= weight severity)%Q.
Proof. destruct severity; simpl; try done. by repeat case_decide. Qed.


Lemma total_weight_app ds1 ds2 :
  (total_weight (ds1 ++ ds2) == total_weight ds1 + total_weight ds2)%Q.
Proof.
  induction ds1 as [|d ds1 IH]; simpl; [ring|]. rewrite IH. ring.
Qed.

Lemma total_weight_perm ds ds' :
  Permutation ds ds' -> (total_weight ds == total_weight ds')%Q.
Proof.
  induction 1 as [|d ds ds' _ IH|d d' ds|ds ds' ds'' _ IH1 _ IH2]; simpl.
  - reflexivity.
  - by rewrite IH.
  - ring.
  - by rewrite IH1.
Qed.

(** One more violation, wherever it is inserted, never raises the score. *)
Theorem score_antitone (ds1 ds2 : list (list (str * json))) (d : list (str * json)) :
  Forall (fun d => hashable (severity_of d) = true) (ds1 ++ d :: ds2) ->
  exists before after,
    _calculate_score (JArr (JObj <$> ds1 ++ ds2)) = Ok before /\
    _calculate_score (JArr (JObj <$> ds1 ++ d :: ds2)) = Ok after /\
    (num_val after <= num_val before)%Q.
Proof.
  intros H.
  assert (H' : Forall (fun d => hashable (severity_of d) = true) (ds1 ++ ds2)).
  { apply Forall_app in H as [H1 H2]. apply Forall_app. split; [done|].
    by apply Forall_cons in H2 as [_ H2]. }
  destruct (score_closed_form _ H') as (before & Hb & Hbv).
  destruct (score_closed_form _ H) as (after & Ha & Hav).
  exists before, after. split; [done|]. split; [done|].
  rewrite Hbv, Hav. apply Qplus_le_r, Qopp_le_compat.
  apply Q.min_le_compat_r.
  rewrite !total_weight_app. simpl.
  pose proof (weight_nonneg (severity_of d)) as Hw.
  apply Qplus_le_r. rewrite <- (Qplus_0_l (total_weight ds2)) at 1.
  apply Qplus_le_compat; [done|apply Qle_refl].
Qed.

(** ** Where the score is defined, and the stage results built on it *)

Lemma impact_tenths severity impact :
  severity_impact_get severity (Int 0) = Ok impact ->
  exists k : Z, (0 <= k)%Z /\ (num_val impact == k # 10)%Q.
Proof.
  destruct severity as [| |n|s| |]; simpl; try done;
    try (intros [= <-]; by exists 0%Z).
  unfold severity_impact. simpl.
  repeat case_decide; intros [= <-];
    [exists 100%Z | exists 30%Z | exists 10%Z | exists 3%Z | exists 0%Z]; done.
Qed.

Lemma add_deduction_tenths total v total' :
  add_deduction total v = Ok total' ->
  exists k : Z, (0 <= k)%Z /\ (num_val total' == num_val total + (k # 10))%Q.
Proof.
  unfold add_deduction. destruct v as [| | | | |d]; try done. cbn.
  destruct (severity_impact_get _ _) as [impact|e] eqn:Hi; [|done]. cbn.
  intros [= <-]. destruct (impact_tenths _ _ Hi) as (k & Hk & Hv).
  exists k. split; [done|]. by rewrite num_add_val, Hv.
Qed.

Lemma sum_deductions_tenths items acc total :
  sum_deductions items acc = Ok total ->
  exists k : Z, (0 <= k)%Z /\ (num_val total == num_val acc + (k # 10))%Q.
Proof.
  revert acc. induction items as [|v items IH]; intros acc; simpl.
  - intros [= <-]. exists 0%Z. split; [done|]. ring.
  - destruct (add_deduction acc v) as [acc'|e] eqn:Ha; [|done]. cbn.
    intros H. destruct (IH _ H) as (k & Hk & Hv).
    destruct (add_deduction_tenths _ _ _ Ha) as (j & Hj & Hjv).
    exists (j + k)%Z. split; [lia|]. rewrite Hv, Hjv.
    unfold Qeq, Qplus. simpl. lia.
Qed.

Lemma clamp_tenths (t : Q) (k : Z) :
  (0 <= k)%Z -> (t == k # 10)%Q ->
  exists j : Z, (0 <= j <= 100)%Z /\ (10 - Qmin t 10 == j # 10)%Q.
Proof.
  intros Hk0 Hk. destruct (Z_le_gt_dec k 100) as [Hle|Hgt].
  - exists (100 - k)%Z. split; [lia|].
    rewrite Q.min_l; rewrite Hk; unfold Qle, Qeq, Qminus, Qplus, Qopp; simpl; lia.
  - exists 0%Z. split; [lia|].
    rewrite Q.min_r; [done|]. rewrite Hk. unfold Qle. simpl. lia.
Qed.

(** Whatever value it is given, a score that is returned lies in [0, 10]. *)
Lemma score_in_range violations score :
  _calculate_score violations = Ok score -> (0 <= num_val score <= 10)%Q.
Proof.
  unfold _calculate_score. destruct (truthy violations).
  2: { intros [= <-]. done. }
  cbn. destruct (iter violations) as [items|e]; [|done]. cbn.
  destruct (sum_deductions items (Int 0)) as [total|e] eqn:Hs; [|done]. cbn.
  intros [= <-].
  destruct (sum_deductions_tenths _ _ _ Hs) as (k & Hk & Hv).
  destruct (clamp_tenths (num_val total) k Hk) as (j & Hj & Hrem).
  { rewrite Hv. unfold Qeq, Qplus. simpl. lia. }
  assert (10 - num_val (py_min total (Int 10)) == j # 10)%Q as Hrem'.
  { by rewrite py_min_val. }
  rewrite py_max_val. cbn [num_val].
  rewrite (py_round1_comp _ (j # 10) Hrem'), py_round1_tenths.
  rewrite Q.max_r by (unfold Qle; simpl; lia).
  split; unfold Qle; simpl; lia.
Qed.

Lemma add_deduction_scorable total v :
  scorable v = true -> exists total', add_deduction total v = Ok total'.
Proof.
  destruct v as [| | | | |d]; try done. simpl. intros H.
  destruct (impact_weight _ H) as (w & Hw & _).
  unfold add_deduction. cbn. fold (severity_of d). rewrite Hw. cbn. by eexists.
Qed.

Lemma add_deduction_error total v :
  scorable v = false -> add_deduction total v = Raise (score_error v).
Proof.
  destruct v as [| | | | |d]; try done. simpl. intros H.
  unfold add_deduction. cbn. fold (severity_of d).
  by destruct (severity_of d).
Qed.

Lemma sum_deductions_scorable items acc :
  Forall (fun v => scorable v = true) items ->
  exists total, sum_deductions items acc = Ok total.
Proof.
  intros H. revert acc. induction H as [|v items Hv _ IH]; intros acc; simpl.
  - by eexists.
  - destruct (add_deduction_scorable acc v Hv) as [acc' ->]. cbn. apply IH.
Qed.

Lemma sum_deductions_error good bad rest acc :
  Forall (fun v => scorable v = true) good -> scorable bad = false ->
  sum_deductions (good ++ bad :: rest) acc = Raise (score_error bad).
Proof.
  intros H Hbad. revert acc. induction H as [|v good Hv _ IH]; intros acc; simpl.
  - by rewrite add_deduction_error.
  - destruct (add_deduction_scorable acc v Hv) as [acc' ->]. cbn. apply IH.
Qed.

Lemma score_raises_at_first_unscorable good bad rest :
  Forall (fun v => scorable v = true) good -> scorable bad = false ->
  _calculate_score (JArr (good ++ bad :: rest)) = Raise (score_error bad).
Proof.
  intros Hgood Hbad. unfold _calculate_score.
  assert (truthy (JArr (good ++ bad :: rest)) = true) as -> by (by destruct good).
  cbn -[sum_deductions]. by rewrite sum_deductions_error.
Qed.

(** [_calculate_score] returns a score, between 0 and 10, exactly for the
    lists whose items are all mappings with a hashable severity; otherwise
    it raises at the first item that is not: [AttributeError] for an item
    that is no mapping, [TypeError] for a list or dict as severity. *)
Theorem score_defined_on_scorable_lists (items : list json) :
  (Forall (fun v => scorable v = true) items ->
   exists score, _calculate_score (JArr items) = Ok score
                 /\ (0 <= num_val score <= 10)%Q) /\
  (forall good bad rest,
     items = good ++ bad :: rest ->
     Forall (fun v => scorable v = true) good -> scorable bad = false ->
     _calculate_score (JArr items) = Raise (score_error bad)).
Proof.
  split.
  - intros H.
    assert (exists score, _calculate_score (JArr items) = Ok score) as [score Hs].
    { unfold _calculate_score. destruct items as [|v items]; [by eexists|].
      cbn -[sum_deductions].
      destruct (sum_deductions_scorable (v :: items) (Int 0) H) as [total ->].
      cbn. by eexists. }
    exists score. split; [done|]. by apply score_in_range in Hs.
  - intros good bad rest -> Hgood Hbad. by apply score_raises_at_first_unscorable.
Qed.

(** Every result of [evaluate] is either the single-key error mapping or a
    mapping whose [overall_score] is a number between 0 and 10 and is the
    score of that same mapping's [violations]. *)
Theorem evaluate_result_shape (vision_analysis : json) :
  (exists e, evaluate_try vision_analysis = Raise e /\
             evaluate vision_analysis = JObj [(u "error", JStr (exn_text e))]) \/
  (exists d score,
     evaluate vision_analysis = JObj d /\
     lookup (u "overall_score") d = Some (JNum score) /\
     (0 <= num_val score <= 10)%Q /\
     _calculate_score (default (JArr []) (lookup (u "violations") d)) = Ok score).
Proof.
  unfold evaluate. destruct (evaluate_try vision_analysis) as [result|e] eqn:H.
  2: { left. by exists e. }
  right. unfold evaluate_try in H.
  destruct (_create_evaluation_prompt _) as [prompt|]; [|done]. cbn in H.
  destruct (generate_content prompt) as [text|]; [|done]. cbn in H.
  destruct (_parse_evaluation_response text) as [parsed|]; [|done]. cbn in H.
  destruct parsed as [| | | | |parsed]; try done. cbn -[_calculate_score] in H.
  destruct (_calculate_score _) as [score|] eqn:Hs; [|done].
  cbn in H. injection H as <-.
  exists (dict_set (u "overall_score") (JNum score) parsed), score.
  split; [done|]. split; [apply lookup_dict_set_eq|].
  split; [by apply score_in_range in Hs|].
  by rewrite lookup_dict_set_ne.
Qed.

(** On its normal path [evaluate] returns the decoded (or fallback) mapping
    with [overall_score] set to the computed score: an [overall_score] sent
    by the model is replaced, and every other field is returned as it was
    decoded. *)
Theorem evaluate_keeps_decoded_fields (vision_analysis result : json) :
  evaluate_try vision_analysis = Ok result ->
  exists prompt response_text parsed score,
    _create_evaluation_prompt vision_analysis = Ok prompt /\
    generate_content prompt = Ok response_text /\
    _parse_evaluation_response response_text = Ok (JObj parsed) /\
    _calculate_score (default (JArr []) (lookup (u "violations") parsed)) = Ok score /\
    result = JObj (dict_set (u "overall_score") (JNum score) parsed) /\
    (forall d, result = JObj d ->
       lookup (u "overall_score") d = Some (JNum score) /\
       forall k, k <> u "overall_score" -> lookup k d = lookup k parsed).
Proof.
  intros H. unfold evaluate_try in H.
  destruct (_create_evaluation_prompt _) as [prompt|] eqn:Hp; [|done]. cbn in H.
  destruct (generate_content prompt) as [text|] eqn:Hc; [|done]. cbn in H.
  destruct (_parse_evaluation_response text) as [parsed|] eqn:Hr; [|done]. cbn in H.
  destruct parsed as [| | | | |parsed]; try done. cbn -[_calculate_score] in H.
  destruct (_calculate_score _) as [score|] eqn:Hs; [|done].
  cbn in H. injection H as <-.
  exists prompt, text, parsed, score. repeat (split; [done|]).
  intros d [= <-]. split; [apply lookup_dict_set_eq|].
  intros k Hk. by apply lookup_dict_set_ne.
Qed.

(** A response that decodes to something other than an object (an array, a
    string, a number, [true], [null]) makes [evaluate] return the error
    mapping; so does a decoded object whose [violations] cannot be scored. *)
Theorem evaluate_rejects_unscorable (vision_analysis : json) (prompt response_text : str) :
  _create_evaluation_prompt vision_analysis = Ok prompt ->
  generate_content prompt = Ok response_text ->
  (forall v, json_loads (clean_fences response_text) = Ok v -> is_dict v = false ->
     evaluate vision_analysis = error_result (AttributeError (type_name v) (u "get"))) /\
  (forall d good bad rest,
     json_loads (clean_fences response_text) = Ok (JObj d) ->
     lookup (u "violations") d = Some (JArr (good ++ bad :: rest)) ->
     Forall (fun v => scorable v = true) good -> scorable bad = false ->
     evaluate vision_analysis = error_result (score_error bad)).
Proof.
  intros Hp Hc. split.
  - intros v Hv Hd. unfold evaluate, evaluate_try. rewrite Hp. cbn. rewrite Hc. cbn.
    unfold _parse_evaluation_response. rewrite Hv. by destruct v.
  - intros d good bad rest Hv Hl Hgood Hbad.
    unfold evaluate, evaluate_try. rewrite Hp. cbn. rewrite Hc. cbn.
    unfold _parse_evaluation_response. rewrite Hv. cbn -[_calculate_score].
    rewrite Hl. cbn -[_calculate_score].
    by rewrite (score_raises_at_first_unscorable good bad rest Hgood Hbad).
Qed.

(** On its normal path [generate_feedback] returns the decoded (or fallback)
    mapping with [platform] and [total_feedback_items] set; every other
    field is returned as it was decoded. *)
Theorem generate_feedback_keeps_decoded_fields
    (vision_analysis heuristic_evaluation : json) (platform : str) (result : json) :
  generate_feedback_try vision_analysis heuristic_evaluation platform = Ok result ->
  exists prompt response_text parsed n,
    _create_feedback_prompt vision_analysis heuristic_evaluation platform = Ok prompt /\
    generate_content prompt = Ok response_text /\
    _parse_feedback_response response_text = Ok (JObj parsed) /\
    has_length (default (JArr []) (lookup (u "feedback_items") parsed)) n /\
    result = JObj (dict_set (u "total_feedback_items") (JNum (Int (Z.of_nat n)))
                     (dict_set (u "platform") (JStr platform) parsed)) /\
    (forall d, result = JObj d ->
       lookup (u "platform") d = Some (JStr platform) /\
       lookup (u "total_feedback_items") d = Some (JNum (Int (Z.of_nat n))) /\
       forall k, k <> u "platform" -> k <> u "total_feedback_items" ->
         lookup k d = lookup k parsed).
Proof.
  intros H. unfold generate_feedback_try in H.
  destruct (_create_feedback_prompt _ _ _) as [prompt|] eqn:Hp; [|done]. cbn in H.
  destruct (generate_content prompt) as [text|] eqn:Hc; [|done]. cbn in H.
  destruct (_parse_feedback_response text) as [parsed|] eqn:Hr; [|done]. cbn in H.
  destruct parsed as [| | | | |parsed]; try done. cbn in H.
  rewrite lookup_dict_set_ne in H by done.
  destruct (len _) as [n|] eqn:Hn; [|done]. cbn in H. injection H as <-.
  exists prompt, text, parsed, n. repeat (split; [done|]).
  split; [by apply len_has_length|]. split; [done|].
  intros d [= <-]. split; [|split].
  - rewrite lookup_dict_set_ne by done. apply lookup_dict_set_eq.
  - apply lookup_dict_set_eq.
  - intros k Hk1 Hk2. by rewrite !lookup_dict_set_ne.
Qed.

(** [generate_feedback] returns the error mapping when the response decodes
    to something other than an object, or to an object whose
    [feedback_items] has no length (a number, [true], [null]).  A string
    there is accepted and counted by its characters. *)
Theorem generate_feedback_unsized_items
    (vision_analysis heuristic_evaluation : json) (platform prompt response_text : str) :
  _create_feedback_prompt vision_analysis heuristic_evaluation platform = Ok prompt ->
  generate_content prompt = Ok response_text ->
  (forall v, json_loads (clean_fences response_text) = Ok v -> is_dict v = false ->
     generate_feedback vision_analysis heuristic_evaluation platform
     = error_result (TypeError NoItemAssignment (type_name v))) /\
  (forall d items,
     json_loads (clean_fences response_text) = Ok (JObj d) ->
     lookup (u "feedback_items") d = Some items ->
     is_list items = false -> is_text items = false -> is_dict items = false ->
     generate_feedback vision_analysis heuristic_evaluation platform
     = error_result (TypeError NoLen (type_name items))) /\
  (forall d s,
     json_loads (clean_fences response_text) = Ok (JObj d) ->
     lookup (u "feedback_items") d = Some (JStr s) ->
     exists d', generate_feedback vision_analysis heuristic_evaluation platform = JObj d'
                /\ lookup (u "total_feedback_items") d'
                   = Some (JNum (Int (Z.of_nat (length s))))).
Proof.
  intros Hp Hc.
  assert (Hrun : forall v, json_loads (clean_fences response_text) = Ok v ->
            generate_feedback_try vision_analysis heuristic_evaluation platform
            = (result ← setitem v (u "platform") (JStr platform);
               feedback_items ← get result (u "feedback_items") (JArr []);
               n ← len feedback_items;
               setitem result (u "total_feedback_items") (of_nat n))).
  { intros v Hv. unfold generate_feedback_try. rewrite Hp. cbn. rewrite Hc. cbn.
    unfold _parse_feedback_response. by rewrite Hv. }
  split; [|split].
  - intros v Hv Hd. unfold generate_feedback. rewrite (Hrun v Hv). by destruct v.
  - intros d items Hv Hl H1 H2 H3. unfold generate_feedback. rewrite (Hrun _ Hv). cbn.
    rewrite lookup_dict_set_ne by done. rewrite Hl. cbn. by destruct items.
  - intros d s Hv Hl. unfold generate_feedback. rewrite (Hrun _ Hv). cbn.
    rewrite lookup_dict_set_ne by done. rewrite Hl. cbn.
    eexists. split; [reflexivity|]. apply lookup_dict_set_eq.
Qed.

(** ** Further properties of the text cleanup *)


(** The text handed to [json.loads] carries no leading or trailing white
    space, and white space around the response does not change it. *)
Theorem clean_fences_stripped (response_text : str) :
  strip (clean_fences response_text) = clean_fences response_text /\
  clean_fences (strip response_text) = clean_fences response_text /\
  (forall c, head (clean_fences response_text) = Some c -> isspace c = false) /\
  (forall c, last (clean_fences response_text) = Some c -> isspace c = false).
Proof.
  unfold clean_fences. cbv zeta. rewrite !strip_idem. split; [done|]. split; [done|].
  split; intros c H.
  - unfold strip in H. apply rstrip_head in H. by apply lstrip_head_nonspace in H.
  - by apply rstrip_last_nonspace in H.
Qed.

Lemma endswith_other_last (s p : str) (c a : N) :
  a <> c -> endswith (s ++ [c]) (p ++ [a]) = false.
Proof.
  intros H. unfold endswith. rewrite !rev_app_distr. simpl.
  apply andb_false_iff. left. by apply N.eqb_neq.
Qed.

Lemma strip_object_text m : strip (u "{" ++ m ++ u "}") = u "{" ++ m ++ u "}".
Proof.
  apply strip_id.
  - by intros c [= <-].
  - intros c. rewrite app_assoc, last_app. by intros [= <-].
Qed.

Lemma object_text_no_trailing_fence ws m :
  forall r', ws ++ u "{" ++ m ++ u "}" <> r' ++ u "```".
Proof.
  intros r' H. apply (f_equal (@last N)) in H.
  rewrite !app_assoc, !last_app in H. discriminate H.
Qed.

Lemma strip_object_after_space ws m :
  Forall (fun c => isspace c = true) ws ->
  strip (ws ++ u "{" ++ m ++ u "}") = u "{" ++ m ++ u "}".
Proof.
  intros H.
  replace (ws ++ u "{" ++ m ++ u "}") with (ws ++ (u "{" ++ m ++ u "}") ++ [])
    by (by rewrite app_nil_r).
  rewrite strip_padded by done. apply strip_object_text.
Qed.

(** The fence removal does not need a matching pair.  A JSON object text
    with only an opening fence ([```json] or [```]), or only a closing
    fence (a reply that was cut short), is cleaned to the object text
    itself, whatever white space, or none, separates the two. *)
Theorem clean_fences_one_sided (b ws : str) :
  is_object_text b ->
  Forall (fun c => isspace c = true) ws ->
  clean_fences (u "```json" ++ ws ++ b) = b /\
  clean_fences (u "```" ++ ws ++ b) = b /\
  clean_fences (b ++ ws ++ u "```") = b.
Proof.
  intros [m ->] Hws.
  assert (Hopen : forall fence c, head fence = Some c -> isspace c = false ->
            strip (fence ++ ws ++ u "{" ++ m ++ u "}")
            = fence ++ ws ++ u "{" ++ m ++ u "}").
  { intros fence c Hh Hc. apply strip_id.
    - intros c'. destruct fence; [done|]. simpl in *. congruence.
    - intros c'. rewrite !app_assoc, last_app. by intros [= <-]. }
  split; [|split].
  - rewrite (clean_fences_json_fence _ _ (Hopen (u "```json") 96%N eq_refl eq_refl)).
    rewrite (proj2 (cut_trailing_fence _) (object_text_no_trailing_fence ws m)).
    by apply strip_object_after_space.
  - assert (Hj : forall t, ws ++ u "{" ++ m ++ u "}" <> u "json" ++ t).
    { intros t Ht. destruct Hws as [|c ws Hc _]; [discriminate Ht|].
      injection Ht as -> _. discriminate Hc. }
    rewrite (clean_fences_plain_fence _ _ (Hopen (u "```") 96%N eq_refl eq_refl) Hj).
    rewrite (proj2 (cut_trailing_fence _) (object_text_no_trailing_fence ws m)).
    by apply strip_object_after_space.
  - set (b := u "{" ++ m ++ u "}").
    assert (Hs : strip (b ++ ws ++ u "```") = b ++ ws ++ u "```").
    { apply strip_id.
      - by intros c [= <-].
      - intros c. rewrite !app_assoc, last_app. by intros [= <-]. }
    assert (Hno : forall t, strip (b ++ ws ++ u "```") <> u "```" ++ t).
    { intros t Ht. rewrite Hs in Ht. discriminate Ht. }
    rewrite (clean_fences_no_fence _ Hno), Hs.
    rewrite (app_assoc b ws).
    rewrite (proj1 (cut_trailing_fence _) (b ++ ws) eq_refl). unfold b.
    replace ((u "{" ++ m ++ u "}") ++ ws) with ([] ++ (u "{" ++ m ++ u "}") ++ ws)
      by done.
    rewrite strip_padded by done. apply strip_object_text.
Qed.

(** ** Further properties of the markup extraction *)

Lemma html_shell_stripped core : strip (html_shell core) = html_shell core.
Proof.
  apply strip_id.
  - intros c H. vm_compute in H. by injection H as <-.
  - intros c. unfold html_shell. cbn [concat]. rewrite app_nil_r, !app_assoc, last_app.
    intros H. vm_compute in H. by injection H as <-.
Qed.

Lemma extract_html_stripped response_text :
  strip (_extract_html response_text) = _extract_html response_text.
Proof.
  unfold _extract_html. cbv zeta.
  destruct (negb (has_document_root _)); [apply html_shell_stripped|].
  unfold between_fences. repeat case_match; apply strip_idem.
Qed.

(** An extraction result that holds no fence is a fixed point: extracting
    from it again returns it unchanged. *)
Theorem extract_html_idempotent (response_text : str) :
  contains (_extract_html response_text) (u "```") = false ->
  _extract_html (_extract_html response_text) = _extract_html response_text.
Proof.
  intros Hno.
  destruct (extract_html_repair response_text) as [core Hcore].
  pose proof (extract_html_stripped response_text) as Hs.
  set (r := _extract_html response_text) in *.
  assert (Hroot : has_document_root r = true).
  { rewrite Hcore. apply repair_root. }
  assert (Hh : contains r (u "```html") = false)
    by exact (contains_shorter _ (u "```") (u "html") Hno).
  unfold _extract_html at 1. cbv zeta. rewrite Hs, Hh, Hno, Hroot. done.
Qed.

(** A fence that is opened and never closed: the text after the first
    marker is extracted without its last character, whatever it holds (the
    search for the closing fence returns [-1], which the slice reads as
    "up to the last character"). *)
Theorem extract_html_unclosed_fence_truncates (response_text pre rest : str) :
  ~ within (u "```") rest ->
  (first_occurrence (u "```html") (strip response_text) pre rest ->
   _extract_html response_text = repair (strip (take (length rest - 1) rest))) /\
  (~ within (u "```html") (strip response_text) ->
   first_occurrence (u "```") (strip response_text) pre rest ->
   _extract_html response_text = repair (strip (take (length rest - 1) rest))).
Proof.
  intros Hno. split.
  - intros Hm. unfold _extract_html, repair. cbv zeta.
    rewrite (contains_first _ _ _ _ Hm), (between_fences_unclosed _ _ _ _ Hm Hno).
    by destruct (has_document_root _).
  - intros Hh Hm. unfold _extract_html, repair. cbv zeta.
    rewrite (contains_absent _ _ Hh), (contains_first _ _ _ _ Hm).
    rewrite (between_fences_unclosed _ _ _ _ Hm Hno).
    by destruct (has_document_root _).
Qed.

(** ** The evaluation report *)

Lemma select_severity_filter severity items chosen :
  select_severity severity items = Ok chosen ->
  chosen = List.filter (has_severity severity) items.
Proof.
  revert chosen. induction items as [|item rest IH]; intros chosen; simpl.
  - by intros [= <-].
  - destruct item as [| | | | |d]; try done. cbn.
    destruct (select_severity severity rest) as [selected|e]; [|done]. cbn.
    intros [= <-]. rewrite (IH selected eq_refl). by destruct (eq_str _ _).
Qed.

Lemma violation_entry_appends i v : appends_only (violation_entry i v).
Proof. unfold violation_entry. appends. Qed.

Lemma severity_group_appends violations severity :
  appends_only (severity_group violations severity).
Proof. unfold severity_group. appends. Qed.

Lemma violations_section_appends violations : appends_only (violations_section violations).
Proof. unfold violations_section. appends. Qed.

Lemma strengths_section_appends strengths : appends_only (strengths_section strengths).
Proof. unfold strengths_section. appends. Qed.

Lemma mobile_issues_section_appends issues : appends_only (mobile_issues_section issues).
Proof. unfold mobile_issues_section. appends. Qed.

Lemma join_value_inv sep v joined :
  join_value sep v = Ok joined ->
  exists texts, elements v (map JStr texts) /\ joined = join_text sep texts.
Proof.
  unfold join_value. destruct (iter v) as [items|e] eqn:Hi; [|done]. cbn.
  intros H. apply join_inv in H as (texts & -> & ->).
  exists texts. split; [by apply iter_elements|done].
Qed.

Lemma violation_entry_output i v block :
  violation_entry i v [] = Ok (tt, block) -> is_violation_block i v block.
Proof.
  destruct v as [| | | | |d]; try done.
  unfold violation_entry. rewrite !run_field, run_say, run_field, run_say, get_obj,
    run_lift_ok.
  destruct (join_value (u ", ") (default (JArr []) (lookup (u "affected_components") d)))
    as [joined|e] eqn:Hj; [rewrite run_lift_ok|by rewrite run_lift_raise].
  rewrite run_say, run_field. unfold say, append. intros [= <-].
  apply join_value_inv in Hj as (affected & Ha & ->).
  exists d, affected. split; [done|]. split; [done|].
  unfold line. cbn [concat app]. by rewrite !app_nil_r.
Qed.

Lemma len_iter_length v n items : len v = Ok n -> iter v = Ok items -> n = length items.
Proof.
  destruct v; try done; intros [= <-] [= <-]; by rewrite ?length_map.
Qed.

Lemma severity_group_output violations severity items lines :
  iter violations = Ok items ->
  severity_group violations severity [] = Ok (tt, lines) ->
  is_severity_group severity items lines.
Proof.
  intros Hi H. unfold severity_group in H. rewrite Hi, run_lift_ok in H.
  destruct (select_severity severity items) as [chosen|e] eqn:Hs;
    [rewrite run_lift_ok in H|by rewrite run_lift_raise in H].
  apply select_severity_filter in Hs. unfold is_severity_group. cbv zeta. rewrite <- Hs.
  destruct chosen as [|c chosen]; unfold when, truthy in H.
  - by injection H as <-.
  - apply bind_output in H as ([] & o1 & o2 & H1 & H2 & ->); [|intros; appends].
    apply say_output in H1 as ->.
    apply bind_output in H2 as ([] & o2' & o3 & H2 & H3 & ->); [|intros; appends].
    apply say_output in H2 as ->.
    apply for_each_from_output in H3 as (blocks & HF & ->);
      [|intros; apply violation_entry_appends].
    exists blocks. split.
    + eapply Forall2_impl; [exact HF|]. intros ix block Hx.
      by apply violation_entry_output.
    + unfold line, rule. cbn [concat app]. by rewrite !app_nil_r.
Qed.

Lemma violations_section_output violations lines :
  violations_section violations [] = Ok (tt, lines) ->
  is_violations_section violations lines.
Proof.
  unfold violations_section, is_violations_section, when.
  destruct (truthy violations); [|by intros [= <-]].
  intros H.
  apply bind_output in H as ([] & o1 & rest & H1 & H & ->); [|intros; appends].
  apply say_output in H1 as ->.
  destruct (len violations) as [n|e] eqn:Hn;
    [rewrite run_lift_ok in H|by rewrite run_lift_raise in H].
  apply bind_output in H as ([] & o2 & rest' & H2 & H & ->); [|intros; appends].
  apply say_output in H2 as ->.
  apply bind_output in H as ([] & o3 & groups & H3 & H & ->); [|intros; appends].
  apply say_output in H3 as ->.
  apply for_each_output in H as (blocks & HF & ->);
    [|intros; apply severity_group_appends].
  unfold severities in HF.
  apply Forall2_cons_inv_l in HF as (g1 & blocks1 & H1 & HF & ->).
  apply Forall2_cons_inv_l in HF as (g2 & blocks2 & H2 & HF & ->).
  apply Forall2_cons_inv_l in HF as (g3 & blocks3 & H3 & HF & ->).
  apply Forall2_cons_inv_l in HF as (g4 & blocks4 & H4 & HF & ->).
  apply Forall2_nil_inv_l in HF as ->.
  assert (exists items, iter violations = Ok items) as [items Hitems].
  { unfold severity_group in H1. destruct (iter violations) as [items|e]; [by exists items|].
    by rewrite run_lift_raise in H1. }
  exists items, g1, g2, g3, g4.
  split; [by apply iter_elements|]. split.
  { rewrite <- (len_iter_length _ _ _ Hn Hitems).
    unfold line, rule. cbn [concat app]. by rewrite !app_nil_r. }
  split; [by eapply severity_group_output|].
  split; [by eapply severity_group_output|].
  split; [by eapply severity_group_output|].
  by eapply severity_group_output.
Qed.

(** Whenever the evaluation report renders, it opens with the banner and the
    score line and the violations section follows: a count of all
    violations, then the groups critical, high, medium, low in that order,
    each with its own count, a dashed rule and its entries numbered from 1
    in their input order; a group without violations contributes no line. *)
Theorem evaluation_report_severity_groups (evaluation_result : json) (doc : str) :
  generate_report evaluation_result = Ok doc ->
  exists d section rest texts,
    evaluation_result = JObj d /\
    evaluation_report_head (default (JNum (Int 0)) (lookup (u "overall_score") d))
      ++ section ++ rest = map JStr texts /\
    doc = join_text nl texts /\
    is_violations_section (default (JArr []) (lookup (u "violations") d)) section.
Proof.
  unfold generate_report.
  destruct (evaluation_report_lines evaluation_result []) as [[[] report]|e] eqn:H;
    [|done].
  intros Hjoin.
  destruct evaluation_result as [| | | | |d];
    try (by unfold evaluation_report_lines, get in H; rewrite run_lift_raise in H).
  unfold evaluation_report_lines, get in H. rewrite !run_lift_ok in H.
  apply bind_output in H as ([] & o1 & r1 & H1 & H & ->); [|intros; appends].
  apply bind_output in H as ([] & o2 & r2 & H2 & H & ->); [|intros; appends].
  apply bind_output in H as ([] & o3 & r3 & H3 & H & ->); [|intros; appends].
  apply bind_output in H as ([] & o4 & r4 & H4 & H & ->); [|intros; appends].
  apply bind_output in H as ([] & section & rest & Hv & H & ->); [|intros; appends].
  apply say_output in H1 as ->. apply say_output in H2 as ->.
  apply say_output in H3 as ->. apply say_output in H4 as ->.
  apply join_inv in Hjoin as (texts & Hlines & ->).
  exists d, section, rest, texts. split; [done|]. split; [exact Hlines|].
  split; [done|]. by apply violations_section_output.
Qed.

Lemma report_without_findings (d : list (str * json)) :
  truthy (default (JArr []) (lookup (u "violations") d)) = false ->
  truthy (default (JArr []) (lookup (u "strengths") d)) = false ->
  truthy (default (JArr []) (lookup (u "mobile_specific_issues") d)) = false ->
  generate_report (JObj d)
  = Ok (bare_evaluation_report (default (JNum (Int 0)) (lookup (u "overall_score") d))).
Proof.
  intros Hv Hs Hm.
  unfold generate_report, evaluation_report_lines, get. rewrite !run_lift_ok.
  unfold violations_section, strengths_section, mobile_issues_section.
  rewrite Hv, Hs, Hm. unfold when, bare_evaluation_report.
  unfold mbind, Report_bind, mret, Report_ret, say, append, line.
  cbn -[rule fmt]. by rewrite !app_nil_r.
Qed.

(** With no violations, strengths or mobile issues to show (each absent or
    empty), the evaluation report is exactly the banner, the score line and
    the closing rule; a mapping without [overall_score] shows the score 0. *)
Theorem evaluation_report_without_findings (d : list (str * json)) :
  truthy (default (JArr []) (lookup (u "violations") d)) = false ->
  truthy (default (JArr []) (lookup (u "strengths") d)) = false ->
  truthy (default (JArr []) (lookup (u "mobile_specific_issues") d)) = false ->
  generate_report (JObj d)
  = Ok (bare_evaluation_report (default (JNum (Int 0)) (lookup (u "overall_score") d)))
  /\ (lookup (u "overall_score") d = None ->
      generate_report (JObj d) = Ok (bare_evaluation_report (JNum (Int 0)))).
Proof.
  intros Hv Hs Hm. split; [by apply report_without_findings|].
  intros Hn. rewrite report_without_findings by done. by rewrite Hn.
Qed.

(** The report of a failed evaluation.  When [evaluate] returned its error
    mapping, the report shows the score 0 and no section, and the error text
    does not appear in it.  When the reply could not be decoded, the
    fallback mapping is scored 10.0 and the report shows that score and no
    section. *)
Theorem evaluation_failures_in_report (vision_analysis : json) :
  (forall e, evaluate_try vision_analysis = Raise e ->
     generate_report (evaluate vision_analysis)
     = Ok (bare_evaluation_report (JNum (Int 0)))) /\
  (forall prompt response_text msg,
     _create_evaluation_prompt vision_analysis = Ok prompt ->
     generate_content prompt = Ok response_text ->
     json_loads (clean_fences response_text) = Raise (JSONDecodeError msg) ->
     generate_report (evaluate vision_analysis)
     = Ok (bare_evaluation_report (JNum (Float 10)))).
Proof.
  split.
  - intros e He. unfold evaluate. rewrite He. unfold error_result.
    by rewrite report_without_findings.
  - intros prompt response_text msg Hp Hc Hj.
    assert (evaluate vision_analysis
            = JObj [raw_response_entry response_text;
                    parse_error_entry msg;
                    (u "violations", JArr []);
                    (u "overall_score", JNum (Float 10))]) as ->.
    { unfold evaluate, evaluate_try. rewrite Hp. cbn. rewrite Hc. cbn.
      unfold _parse_evaluation_response. by rewrite Hj. }
    by rewrite report_without_findings.
Qed.

Lemma select_severity_total severity items :
  Forall (fun v => is_dict v = true) items ->
  select_severity severity items = Ok (List.filter (has_severity severity) items).
Proof.
  induction 1 as [|v items Hv _ IH]; [done|].
  destruct v; try done. cbn. rewrite IH. cbn. by destruct (eq_str _ _).
Qed.

Lemma has_severity_listed severity v :
  severity ∈ severities -> has_severity severity v = true -> listed v = true.
Proof.
  intros Hin Hs. unfold listed. apply existsb_exists. exists severity.
  split; [by apply list_elem_of_In|done].
Qed.

Lemma listed_is_dict v : listed v = true -> is_dict v = true.
Proof. by destruct v. Qed.

Lemma filter_listed_severity severity items :
  severity ∈ severities ->
  List.filter (has_severity severity) (List.filter listed items)
  = List.filter (has_severity severity) items.
Proof.
  intros Hin. induction items as [|v items IH]; [done|]. simpl.
  destruct (listed v) eqn:Hl; simpl.
  - by rewrite IH.
  - destruct (has_severity severity v) eqn:Hs; [|done].
    by rewrite (has_severity_listed _ _ Hin Hs) in Hl.
Qed.

Lemma filter_listed_dicts items : Forall (fun v => is_dict v = true) (List.filter listed items).
Proof.
  apply Forall_forall. intros v Hv. apply list_elem_of_In, filter_In in Hv as [_ Hv].
  by apply listed_is_dict.
Qed.

Lemma filter_nil_sub severity items :
  severity ∈ severities -> List.filter listed items = [] ->
  List.filter (has_severity severity) items = [].
Proof. intros Hin Hn. by rewrite <- (filter_listed_severity _ _ Hin), Hn. Qed.

(** Violations whose severity is none of [critical], [high], [medium],
    [low] (a missing one, or one in another spelling) are invisible in the
    report except in the total: each severity group is rendered as if they
    were not in the list, and when no violation has a listed severity the
    section is its three heading lines, still counting all of them. *)
Theorem evaluation_report_unlisted_violations (items : list json) :
  Forall (fun v => is_dict v = true) items ->
  (forall severity report, severity ∈ severities ->
     severity_group (JArr items) severity report
     = severity_group (JArr (List.filter listed items)) severity report) /\
  (items <> [] -> List.filter listed items = [] ->
     lines_of (violations_section (JArr items))
     = Ok [line [nl; rule 61];
           line [u "VIOLATIONS FOUND ("; u (pretty (length items)); u ")"];
           line [rule 61; nl]]).
Proof.
  intros Hd.
  assert (Hgroup : forall severity report, severity ∈ severities ->
     severity_group (JArr items) severity report
     = severity_group (JArr (List.filter listed items)) severity report).
  { intros severity report Hin. unfold severity_group. cbn [iter].
    rewrite !run_lift_ok.
    rewrite (select_severity_total _ _ Hd).
    rewrite (select_severity_total _ _ (filter_listed_dicts items)).
    by rewrite filter_listed_severity. }
  split; [exact Hgroup|].
  intros Hne Hnil.
  assert (Hskip : forall severity report, severity ∈ severities ->
            severity_group (JArr items) severity report = Ok (tt, report)).
  { intros severity report Hin. unfold severity_group. cbn [iter].
    rewrite !run_lift_ok, (select_severity_total _ _ Hd).
    by rewrite run_lift_ok, (filter_nil_sub _ _ Hin Hnil). }
  unfold lines_of, violations_section.
  assert (truthy (JArr items) = true) as -> by (by destruct items).
  unfold when. rewrite run_say. cbn [len]. rewrite run_lift_ok, !run_say.
  unfold severities. cbn [for_each]. unfold mbind, Report_bind.
  by rewrite !Hskip by (by repeat constructor).
Qed.

Lemma join_value_texts sep l :
  forallb is_text l = true -> exists text, join_value sep (JArr l) = Ok text.
Proof.
  intros H. unfold join_value. cbn. apply join_from_texts, Forall_forall.
  intros x Hx. apply list_elem_of_In in Hx.
  assert (Hall : forall x, In x l -> is_text x = true) by (by apply forallb_forall).
  by apply Hall.
Qed.

Lemma violation_entry_renders i v :
  violation_ok v = true -> renders (violation_entry i v).
Proof.
  destruct v as [| | | | |d]; try done. simpl. intros H.
  pose proof (field_ok_default d "affected_components" (list_of is_text) (JArr []) H eq_refl)
    as Hc.
  unfold violation_entry, get. render.
  destruct (default (JArr []) (lookup (u "affected_components") d)) as [| | | |l|];
    try done.
  destruct (join_value_texts (u ", ") l Hc) as [text ->]. render.
Qed.

Lemma severity_group_renders violations severity :
  list_of violation_ok violations = true -> renders (severity_group violations severity).
Proof.
  destruct violations as [| | | |items|]; try done. simpl. intros H.
  assert (Hall : forall x, In x items -> violation_ok x = true) by (by apply forallb_forall).
  assert (Hd : Forall (fun v => is_dict v = true) items).
  { apply Forall_forall. intros x Hx. apply list_elem_of_In, Hall in Hx. by destruct x. }
  unfold severity_group. cbn [iter]. apply renders_lift_ok.
  rewrite (select_severity_total _ _ Hd). apply renders_lift_ok.
  apply renders_when. intros _. render.
  apply renders_for_each_from, Forall_forall. intros x Hx j.
  apply violation_entry_renders.
  apply list_elem_of_In, filter_In in Hx as [Hx _]. by apply Hall.
Qed.

Lemma violations_section_renders violations :
  list_of violation_ok violations = true -> renders (violations_section violations).
Proof.
  intros H. unfold violations_section. apply renders_when. intros _.
  destruct violations as [| | | |items|]; try done.
  cbn [len]. render.
  apply renders_for_each, Forall_forall. intros severity _.
  by apply severity_group_renders.
Qed.

Lemma strength_entry_renders i d : renders (strength_entry i (JObj d)).
Proof. unfold strength_entry. render. Qed.

Lemma mobile_issue_entry_renders i d : renders (mobile_issue_entry i (JObj d)).
Proof. unfold mobile_issue_entry. render. Qed.

Lemma strengths_section_renders strengths :
  list_of is_dict strengths = true -> renders (strengths_section strengths).
Proof.
  destruct strengths as [| | | |l|]; try done. simpl. intros Hl.
  unfold strengths_section. apply renders_when. intros _. cbn [len iter]. render.
  assert (Hall : forall x, In x l -> is_dict x = true) by (by apply forallb_forall).
  apply renders_for_each_from, Forall_forall.
  intros x Hx j. apply list_elem_of_In, Hall in Hx.
  destruct x; try done. apply strength_entry_renders.
Qed.

Lemma mobile_issues_section_renders issues :
  list_of is_dict issues = true -> renders (mobile_issues_section issues).
Proof.
  destruct issues as [| | | |l|]; try done. simpl. intros Hl.
  unfold mobile_issues_section. apply renders_when. intros _. cbn [len iter]. render.
  assert (Hall : forall x, In x l -> is_dict x = true) by (by apply forallb_forall).
  apply renders_for_each_from, Forall_forall.
  intros x Hx j. apply list_elem_of_In, Hall in Hx.
  destruct x; try done. apply mobile_issue_entry_renders.
Qed.

Lemma evaluation_report_renders evaluation_result :
  evaluation_ok evaluation_result = true ->
  renders (evaluation_report_lines evaluation_result).
Proof.
  destruct evaluation_result as [| | | | |d]; try done. simpl. intros H.
  apply andb_true_iff in H as [H Hm]. apply andb_true_iff in H as [Hv Hs].
  unfold evaluation_report_lines, get. do 4 apply renders_lift_ok.
  do 4 (apply renders_seq; [apply renders_say|]).
  apply renders_seq.
  { by apply violations_section_renders, (field_ok_default d "violations"). }
  apply renders_seq.
  { by apply strengths_section_renders, (field_ok_default d "strengths"). }
  apply renders_seq; [|apply renders_say].
  by apply mobile_issues_section_renders, (field_ok_default d "mobile_specific_issues").
Qed.

(** The evaluation report renders, without raising, for every mapping whose
    [violations], [strengths] and [mobile_specific_issues], where present,
    are lists of mappings and whose violations have, where present, a list
    of strings as [affected_components].  It raises for an argument that is
    no mapping, and for a listed violation whose [affected_components] is
    not iterable. *)
Theorem evaluation_report_total_on_typed_input :
  (forall evaluation_result,
     evaluation_ok evaluation_result = true ->
     exists doc, generate_report evaluation_result = Ok doc) /\
  (forall v, is_dict v = false ->
     generate_report v = Raise (AttributeError (type_name v) (u "get"))) /\
  (forall d severity components e,
     severity ∈ severities ->
     lookup (u "severity") d = Some (JStr severity) ->
     lookup (u "affected_components") d = Some components ->
     join_value (u ", ") components = Raise e ->
     generate_report (JObj [(u "violations", JArr [JObj d])]) = Raise e).
Proof.
  split; [|split].
  - intros er H. destruct (evaluation_report_renders er H) as (out & Hp & Ht).
    unfold generate_report. rewrite (Hp []). simpl. by apply join_from_texts.
  - intros v Hv. by destruct v.
  - intros d severity components e Hin Hs Hc He.
    assert (Hgroup : forall s report, s ∈ severities ->
              severity_group (JArr [JObj d]) s report
              = if decide (s = severity) then Raise e else Ok (tt, report)).
    { intros s report Hs'. unfold severity_group. cbn [iter]. rewrite run_lift_ok.
      cbn [select_severity get]. rewrite Hs. cbn.
      destruct (decide (s = severity)) as [->|Hne].
      - rewrite bool_decide_eq_true_2 by done. rewrite run_lift_ok.
        unfold when. cbn [truthy]. rewrite !run_say. cbn [for_each_from].
        unfold violation_entry. unfold mbind at 1. unfold Report_bind at 1.
        rewrite !run_field, run_say, run_field, run_say.
        unfold get. rewrite run_lift_ok, Hc. cbn [default].
        unfold id. by rewrite He, run_lift_raise.
      - rewrite bool_decide_eq_false_2 by congruence. by rewrite run_lift_ok. }
    assert (Hsection : forall report, violations_section (JArr [JObj d]) report = Raise e).
    { intros report. unfold violations_section, when. cbn [truthy len].
      rewrite run_say, run_lift_ok, !run_say.
      unfold severities in *. cbn [for_each].
      unfold mbind, Report_bind.
      apply list_elem_of_In in Hin. simpl in Hin.
      destruct Hin as [<-|[<-|[<-|[<-|[]]]]];
        repeat (rewrite Hgroup by (by repeat constructor); case_decide; try done). }
    unfold generate_report, evaluation_report_lines. cbn [get].
    rewrite !run_lift_ok, !run_say.
    assert (default (JArr []) (lookup (u "violations") [(u "violations", JArr [JObj d])])
            = JArr [JObj d]) as -> by reflexivity.
    unfold mbind at 1. unfold Report_bind at 1. by rewrite Hsection.
Qed.

(** ** The prompts *)

Lemma agree_on_cons k keys d d' :
  agree_on (k :: keys) d d' -> lookup k d = lookup k d' /\ agree_on keys d d'.
Proof. intros H. by apply Forall_cons in H. Qed.

Ltac agree H :=
  repeat match type of H with
         | agree_on (_ :: _) _ _ =>
             let E := fresh "E" in apply agree_on_cons in H as [E H]; rewrite ?E
         end.

Lemma evaluation_prompt_agree d d' :
  agree_on evaluation_prompt_fields d d' ->
  create_evaluation_prompt (JObj d) = create_evaluation_prompt (JObj d').
Proof.
  intros H. unfold evaluation_prompt_fields in H.
  unfold create_evaluation_prompt, get. by agree H.
Qed.

Lemma feedback_prompt_agree_analysis a a' heuristic_evaluation platform :
  agree_on feedback_prompt_analysis_fields a a' ->
  create_feedback_prompt (JObj a) heuristic_evaluation platform
  = create_feedback_prompt (JObj a') heuristic_evaluation platform.
Proof.
  intros H. unfold feedback_prompt_analysis_fields in H.
  unfold create_feedback_prompt. destruct heuristic_evaluation; try done.
  unfold get. by agree H.
Qed.

Lemma feedback_prompt_agree_evaluation vision_analysis h h' platform :
  agree_on feedback_prompt_evaluation_fields h h' ->
  create_feedback_prompt vision_analysis (JObj h) platform
  = create_feedback_prompt vision_analysis (JObj h') platform.
Proof.
  intros H. unfold feedback_prompt_evaluation_fields in H.
  unfold create_feedback_prompt. cbn [get]. by agree H.
Qed.

Lemma wireframe_prompt_agree_analysis a a' feedback_result :
  agree_on wireframe_analysis_fields a a' ->
  _create_wireframe_prompt (JObj a) feedback_result
  = _create_wireframe_prompt (JObj a') feedback_result.
Proof.
  intros H. unfold wireframe_analysis_fields in H.
  unfold _create_wireframe_prompt. cbn [get]. by agree H.
Qed.

Lemma wireframe_prompt_agree_feedback vision_analysis f f' :
  agree_on [u "feedback_items"; u "wireframe_instructions"] f f' ->
  _create_wireframe_prompt vision_analysis (JObj f)
  = _create_wireframe_prompt vision_analysis (JObj f').
Proof.
  intros H. unfold _create_wireframe_prompt. destruct vision_analysis; try done.
  unfold get. by agree H.
Qed.

Lemma complete_html_agree wireframe_html va va' f f' :
  lookup (u "summary") f = lookup (u "summary") f' ->
  _create_complete_html wireframe_html va (JObj f)
  = _create_complete_html wireframe_html va' (JObj f').
Proof. intros H. unfold _create_complete_html. cbn [get]. by rewrite H. Qed.

Lemma wireframe_try_agree_analysis a a' feedback_result :
  agree_on wireframe_analysis_fields a a' ->
  generate_wireframe_try (JObj a) feedback_result
  = generate_wireframe_try (JObj a') feedback_result.
Proof.
  intros H. unfold generate_wireframe_try.
  by rewrite (wireframe_prompt_agree_analysis a a' feedback_result H).
Qed.

Lemma wireframe_try_agree_feedback vision_analysis f f' :
  agree_on wireframe_feedback_fields f f' ->
  generate_wireframe_try vision_analysis (JObj f)
  = generate_wireframe_try vision_analysis (JObj f').
Proof.
  intros H. unfold wireframe_feedback_fields in H.
  apply agree_on_cons in H as [H1 H]. apply agree_on_cons in H as [H2 H].
  apply agree_on_cons in H as [H3 _].
  unfold generate_wireframe_try.
  rewrite (wireframe_prompt_agree_feedback vision_analysis f f')
    by (by repeat constructor).
  destruct (_create_wireframe_prompt _ _) as [prompt|]; [|done].
  cbn [mbind outcome_bind].
  destruct (generate_content prompt) as [text|]; [|done].
  cbn [mbind outcome_bind]. cbv zeta.
  by rewrite (complete_html_agree _ vision_analysis vision_analysis f f' H3).
Qed.

Lemma feedback_prompt_same_findings vision_analysis h h' platform :
  default (JArr []) (lookup (u "violations") h)
  = default (JArr []) (lookup (u "violations") h') ->
  default (JArr []) (lookup (u "mobile_specific_issues") h)
  = default (JArr []) (lookup (u "mobile_specific_issues") h') ->
  create_feedback_prompt vision_analysis (JObj h) platform
  = create_feedback_prompt vision_analysis (JObj h') platform.
Proof.
  intros H1 H2. unfold create_feedback_prompt. cbn [get]. by rewrite H1, H2.
Qed.

Lemma wireframe_try_same_feedback vision_analysis f f' :
  default (JArr []) (lookup (u "feedback_items") f)
  = default (JArr []) (lookup (u "feedback_items") f') ->
  default (JObj []) (lookup (u "wireframe_instructions") f)
  = default (JObj []) (lookup (u "wireframe_instructions") f') ->
  default (JObj []) (lookup (u "summary") f)
  = default (JObj []) (lookup (u "summary") f') ->
  generate_wireframe_try vision_analysis (JObj f)
  = generate_wireframe_try vision_analysis (JObj f').
Proof.
  intros H1 H2 H3.
  assert (Hprompt : _create_wireframe_prompt vision_analysis (JObj f)
                    = _create_wireframe_prompt vision_analysis (JObj f')).
  { unfold _create_wireframe_prompt. destruct vision_analysis; try done.
    unfold get. by rewrite H1, H2. }
  assert (Hpage : forall html,
            _create_complete_html html vision_analysis (JObj f)
            = _create_complete_html html vision_analysis (JObj f')).
  { intros html. unfold _create_complete_html. cbn [get]. by rewrite H3. }
  unfold generate_wireframe_try. rewrite Hprompt.
  destruct (_create_wireframe_prompt vision_analysis (JObj f')) as [prompt|];
    [|reflexivity].
  cbn [mbind outcome_bind].
  destruct (generate_content prompt) as [text|]; [|reflexivity].
  cbn [mbind outcome_bind]. cbv zeta. by rewrite Hpage.
Qed.

(** The evaluation prompt is built from five fields of the perception
    result and nothing else: two results that agree on those fields give the
    same prompt.  The builder raises for a result that is no mapping, and
    when [components] has no length. *)
Theorem evaluation_prompt_reads_five_fields :
  (forall d d',
     agree_on evaluation_prompt_fields d d' ->
     create_evaluation_prompt (JObj d) = create_evaluation_prompt (JObj d')) /\
  (forall v, is_dict v = false ->
     create_evaluation_prompt v = Raise (AttributeError (type_name v) (u "get"))) /\
  (forall d e,
     len (default (JArr []) (lookup (u "components") d)) = Raise e ->
     create_evaluation_prompt (JObj d) = Raise e).
Proof.
  split; [|split].
  - apply evaluation_prompt_agree.
  - intros v Hv. by destruct v.
  - intros d e He. unfold create_evaluation_prompt, get. cbn [mbind outcome_bind].
    by rewrite He.
Qed.

(** The feedback prompt is built from the platform, two fields of the
    perception result and two fields of the evaluation result; the score
    and every other field of the evaluation are not part of it.  The
    builder raises when either result is no mapping. *)
Theorem feedback_prompt_reads_four_fields :
  (forall a a' h h' platform,
     agree_on feedback_prompt_analysis_fields a a' ->
     agree_on feedback_prompt_evaluation_fields h h' ->
     create_feedback_prompt (JObj a) (JObj h) platform
     = create_feedback_prompt (JObj a') (JObj h') platform) /\
  (forall va h platform, is_dict h = false ->
     create_feedback_prompt va h platform
     = Raise (AttributeError (type_name h) (u "get"))) /\
  (forall va h platform, is_dict h = true -> is_dict va = false ->
     create_feedback_prompt va h platform
     = Raise (AttributeError (type_name va) (u "get"))).
Proof.
  split; [|split].
  - intros a a' h h' platform Ha Hh.
    rewrite (feedback_prompt_agree_analysis a a' _ _ Ha).
    by apply feedback_prompt_agree_evaluation.
  - intros va h platform Hh. by destruct h.
  - intros va h platform Hh Hv. destruct h; try done. by destruct va.
Qed.

(** The wireframe prompt shows the first ten components only: cutting the
    list of the perception result to its first ten items leaves the prompt
    unchanged.  The prompt is built from three fields of the perception
    result and two of the feedback result, and the builder raises when
    [components] is neither a list nor a string, which cannot be sliced. *)
Theorem wireframe_prompt_first_ten_components :
  (forall d l feedback_result,
     lookup (u "components") d = Some (JArr l) ->
     _create_wireframe_prompt
       (JObj (dict_set (u "components") (JArr (take 10 l)) d)) feedback_result
     = _create_wireframe_prompt (JObj d) feedback_result) /\
  (forall a a' f f',
     agree_on wireframe_analysis_fields a a' ->
     agree_on [u "feedback_items"; u "wireframe_instructions"] f f' ->
     _create_wireframe_prompt (JObj a) (JObj f)
     = _create_wireframe_prompt (JObj a') (JObj f')) /\
  (forall d f components,
     lookup (u "components") d = Some components ->
     is_list components = false -> is_text components = false ->
     _create_wireframe_prompt (JObj d) (JObj f) = Raise (subscript_error components)).
Proof.
  split; [|split].
  - intros d l fr Hl. unfold _create_wireframe_prompt. cbn [get].
    rewrite lookup_dict_set_eq, !lookup_dict_set_ne, Hl by done.
    cbn [default from_option id mbind outcome_bind slice_to].
    by rewrite take_take, Nat.min_id.
  - intros a a' f f' Ha Hf.
    rewrite (wireframe_prompt_agree_analysis a a' _ Ha).
    by apply wireframe_prompt_agree_feedback.
  - intros d f components Hc Hl Ht. unfold _create_wireframe_prompt, get.
    cbn [mbind outcome_bind]. rewrite Hc. by destruct components.
Qed.

Lemma heuristic_entry_appends h : appends_only (heuristic_entry h).
Proof. unfold heuristic_entry. appends. Qed.

Lemma heuristic_entry_output h block :
  heuristic_entry h [] = Ok (tt, block) -> is_heuristic_block h block.
Proof.
  unfold heuristic_entry, getitem. intros H.
  destruct h as [| | | | |d]; try (by rewrite run_lift_raise in H).
  destruct (lookup (u "id") d) as [id|] eqn:Hid; [|by rewrite run_lift_raise in H].
  rewrite run_lift_ok in H.
  destruct (lookup (u "name") d) as [name|] eqn:Hname; [|by rewrite run_lift_raise in H].
  rewrite run_lift_ok, run_say in H.
  destruct (lookup (u "description") d) as [description|] eqn:Hdescription;
    [|by rewrite run_lift_raise in H].
  rewrite run_lift_ok, run_say in H.
  destruct (lookup (u "mobile_considerations") d) as [considerations|] eqn:Hcons;
    [|by rewrite run_lift_raise in H].
  rewrite run_lift_ok in H.
  destruct (slice_to 3 considerations) as [first_three|] eqn:Hslice;
    [|by rewrite run_lift_raise in H].
  rewrite run_lift_ok in H.
  destruct (join_value (u ", ") first_three) as [joined|] eqn:Hjoin;
    [|by rewrite run_lift_raise in H].
  rewrite run_lift_ok, run_say in H. injection H as <-.
  apply join_value_inv in Hjoin as (shown & Hel & ->).
  exists d, id, name, description, considerations, shown.
  repeat (split; [done|]). split.
  - destruct considerations as [| | |t|l|]; try done; injection Hslice as <-.
    + right. exists t. split; [done|].
      apply elements_text_inv in Hel. by apply chars_texts.
    + left. exists l. split; [done|]. by apply elements_list_inv in Hel.
  - unfold line. cbn [concat app]. by rewrite !app_nil_r.
Qed.

(** Whenever the heuristics of the configuration can be formatted, each of
    them contributes four lines: its number and name, its description, its
    first three mobile considerations joined by commas (further ones are
    left out), and an empty line.  When the heuristics or the mobile
    guidelines cannot be formatted, because a key is missing or a value has
    the wrong type, no evaluation prompt is built, whatever the perception
    result. *)
Theorem heuristics_text_shape :
  (forall doc,
     _format_heuristics_for_prompt = Ok doc ->
     exists c entries hs blocks texts,
       heuristics = JObj c /\ lookup (u "heuristics") c = Some entries /\
       elements entries hs /\
       Forall2 is_heuristic_block hs blocks /\
       concat blocks = map JStr texts /\ doc = join_text nl texts) /\
  (forall e d n,
     _format_heuristics_for_prompt = Raise e ->
     has_length (default (JArr []) (lookup (u "components") d)) n ->
     create_evaluation_prompt (JObj d) = Raise e) /\
  (forall e d n doc,
     _format_heuristics_for_prompt = Ok doc ->
     _format_mobile_guidelines = Raise e ->
     has_length (default (JArr []) (lookup (u "components") d)) n ->
     create_evaluation_prompt (JObj d) = Raise e).
Proof.
  split; [|split].
  3: { intros e d n doc Hh Hg Hn. apply has_length_len in Hn.
       unfold create_evaluation_prompt, get.
       cbn [mbind outcome_bind]. rewrite Hn. cbn [mbind outcome_bind].
       rewrite Hh. cbn [mbind outcome_bind]. by rewrite Hg. }
  - intros doc H. unfold _format_heuristics_for_prompt in H.
    destruct (getitem heuristics (u "heuristics")) as [entries|] eqn:He; [|done].
    cbn [mbind outcome_bind] in H.
    destruct (iter entries) as [hs|] eqn:Hi; [|done]. cbn [mbind outcome_bind] in H.
    destruct (for_each hs heuristic_entry []) as [[[] output]|] eqn:Hf; [|done].
    apply for_each_output in Hf as (blocks & HF & ->);
      [|intros; apply heuristic_entry_appends].
    apply join_inv in H as (texts & Hlines & ->).
    unfold getitem in He. destruct heuristics as [| | | | |c]; try done.
    destruct (lookup (u "heuristics") c) as [x|] eqn:Hx; [|done]. injection He as ->.
    exists c, entries, hs, blocks, texts.
    split; [done|]. split; [done|]. split; [by apply iter_elements|].
    split; [|done].
    eapply Forall2_impl; [exact HF|]. intros h block. apply heuristic_entry_output.
  - intros e d n He Hn. apply has_length_len in Hn.
    unfold create_evaluation_prompt, get. cbn [mbind outcome_bind].
    rewrite Hn. cbn [mbind outcome_bind]. by rewrite He.
Qed.

(** ** The viewer page *)

Lemma replace_char_step (a c : N) (s new : str) :
  replace (c :: s) [a] new
  = if (a =? c)%N then new ++ replace s [a] new else c :: replace s [a] new.
Proof. unfold replace. cbn. by destruct (a =? c)%N. Qed.

Lemma replace_char_free (a : N) (s new : str) :
  Forall (fun c => c <> a) new -> Forall (fun c => c <> a) (replace s [a] new).
Proof.
  intros Hnew. induction s as [|c s IH]; [constructor|].
  rewrite replace_char_step. destruct (N.eqb_spec a c) as [->|Hne].
  - by apply Forall_app.
  - constructor; [congruence|done].
Qed.

Lemma replace_char_id (a : N) (s new : str) :
  Forall (fun c => c <> a) s -> replace s [a] new = s.
Proof.
  induction 1 as [|c s Hc _ IH]; [done|].
  rewrite replace_char_step. destruct (N.eqb_spec a c) as [->|Hne]; [done|].
  by rewrite IH.
Qed.

Lemma replace_char_length (a : N) (s new : str) :
  new <> [] -> length s <= length (replace s [a] new).
Proof.
  intros Hnew. induction s as [|c s IH]; [simpl; lia|].
  rewrite replace_char_step. destruct (a =? c)%N.
  - rewrite length_app. destruct new; [done|]. simpl in *. lia.
  - simpl. lia.
Qed.

Lemma Ok_inj {A : Type} (a b : A) : Ok a = Ok b -> a = b.
Proof. congruence. Qed.

Lemma viewer_after_low_end :
  viewer_after_low
  = take (length viewer_after_low - 8) viewer_after_low ++ u "srcdoc='".
Proof. by vm_compute. Qed.

Lemma viewer_close_start : viewer_close = u "'" ++ drop 1 viewer_close.
Proof. by vm_compute. Qed.

(** In the viewer page the wireframe markup is the value of a
    single-quoted [srcdoc] attribute.  The value holds no single quote,
    whatever the markup: every one has been replaced by [&#39;], other
    characters are kept, and markup without a single quote is embedded
    unchanged. *)
Theorem complete_html_srcdoc_escaped
    (wireframe_html : str) (vision_analysis feedback_result : json) (page : str) :
  _create_complete_html wireframe_html vision_analysis feedback_result = Ok page ->
  (exists pre post,
     page = pre ++ u "srcdoc='" ++ escaped wireframe_html ++ u "'" ++ post) /\
  Forall (fun c => c <> quote) (escaped wireframe_html) /\
  length wireframe_html <= length (escaped wireframe_html) /\
  (Forall (fun c => c <> quote) wireframe_html -> escaped wireframe_html = wireframe_html).
Proof.
  intros H. split; [|split; [|split]].
  - unfold _create_complete_html in H.
    destruct (get feedback_result _ _) as [summary|]; [|done].
    cbn [mbind outcome_bind] in H.
    destruct summary as [| | | | |d]; try done.
    unfold get in H. cbn [mbind outcome_bind] in H. apply Ok_inj in H. subst page.
    set (total := fmt _). set (high := fmt _). set (medium := fmt _). set (low := fmt _).
    exists (viewer_open ++ total ++ viewer_after_total ++ high ++ viewer_after_high
            ++ medium ++ viewer_after_medium ++ low
            ++ take (length viewer_after_low - 8) viewer_after_low),
           (drop 1 viewer_close).
    cbn [concat]. rewrite app_nil_r.
    rewrite viewer_after_low_end at 1. rewrite viewer_close_start at 1.
    fold (escaped wireframe_html). by rewrite <- !app_assoc.
  - apply replace_char_free. repeat constructor; discriminate.
  - by apply replace_char_length.
  - apply replace_char_id.
Qed.

(** The viewer page does not depend on the perception result, and it reads
    the feedback result through the four counts of its [summary] only; the
    page cannot be built when the feedback result, or its [summary], is no
    mapping. *)
Theorem complete_html_reads_summary_only (wireframe_html : str) :
  (forall va va' feedback_result,
     _create_complete_html wireframe_html va feedback_result
     = _create_complete_html wireframe_html va' feedback_result) /\
  (forall va f f' s s',
     lookup (u "summary") f = Some (JObj s) ->
     lookup (u "summary") f' = Some (JObj s') ->
     agree_on [u "total_issues"; u "high"; u "medium"; u "low"] s s' ->
     _create_complete_html wireframe_html va (JObj f)
     = _create_complete_html wireframe_html va (JObj f')) /\
  (forall va f,
     lookup (u "summary") f = None ->
     _create_complete_html wireframe_html va (JObj f)
     = _create_complete_html wireframe_html va (JObj [])) /\
  (forall va f summary,
     lookup (u "summary") f = Some summary -> is_dict summary = false ->
     _create_complete_html wireframe_html va (JObj f)
     = Raise (AttributeError (type_name summary) (u "get"))).
Proof.
  split; [done|]. split; [|split].
  - intros va f f' s s' Hs Hs' H. unfold _create_complete_html. cbn [get].
    rewrite Hs, Hs'. cbn [default from_option id mbind outcome_bind get].
    by agree H.
  - intros va f Hn. unfold _create_complete_html. cbn [get]. by rewrite Hn.
  - intros va f summary Hs Hd. unfold _create_complete_html. cbn [get]. rewrite Hs.
    by destruct summary.
Qed.

(** Every result of [generate_wireframe] is either the single-key error
    mapping or a mapping of four fields whose [wireframe_html] is trimmed
    and begins with a document root and whose [complete_html] is the viewer
    page of that markup.  When the page cannot be saved the result is the
    error mapping, and the generated markup is not part of it. *)
Theorem generate_wireframe_result_shape (vision_analysis feedback_result : json) :
  ((exists e, generate_wireframe_try vision_analysis feedback_result = Raise e /\
              generate_wireframe vision_analysis feedback_result = error_result e) \/
   (exists html_code complete_html output_path,
      generate_wireframe vision_analysis feedback_result
      = wireframe_result html_code complete_html output_path /\
      has_document_root html_code = true /\ strip html_code = html_code /\
      _create_complete_html html_code vision_analysis feedback_result = Ok complete_html /\
      _save_html complete_html = Ok output_path)) /\
  (forall prompt response_text complete_html e,
     _create_wireframe_prompt vision_analysis feedback_result = Ok prompt ->
     generate_content prompt = Ok response_text ->
     _create_complete_html (_extract_html response_text) vision_analysis feedback_result
     = Ok complete_html ->
     _save_html complete_html = Raise e ->
     generate_wireframe vision_analysis feedback_result = error_result e).
Proof.
  split.
  - unfold generate_wireframe.
    destruct (generate_wireframe_try vision_analysis feedback_result) as [result|e] eqn:H.
    2: { left. by exists e. }
    right. unfold generate_wireframe_try in H.
    destruct (_create_wireframe_prompt _ _) as [prompt|]; [|done].
    cbn [mbind outcome_bind] in H.
    destruct (generate_content prompt) as [text|]; [|done].
    cbn [mbind outcome_bind] in H. cbv zeta in H.
    destruct (_create_complete_html _ _ _) as [page|] eqn:Hpage; [|done].
    cbn [mbind outcome_bind] in H.
    destruct (_save_html page) as [path|] eqn:Hpath; [|done].
    cbn [mbind outcome_bind] in H. injection H as <-.
    exists (_extract_html text), page, path. split; [done|].
    split.
    { destruct (extract_html_repair text) as [core ->]. apply repair_root. }
    split; [apply extract_html_stripped|]. by split.
  - intros prompt text page e Hp Hc Hpage Hsave.
    unfold generate_wireframe, generate_wireframe_try.
    rewrite Hp. cbn [mbind outcome_bind]. rewrite Hc. cbn [mbind outcome_bind].
    cbv zeta. rewrite Hpage. cbn [mbind outcome_bind]. by rewrite Hsave.
Qed.

(** ** A failed feedback stage in the developer report *)

(** The report of a failed feedback stage.  When [generate_feedback]
    returned its error mapping, or its fallback for a reply that could not
    be decoded, the developer report is the report of the empty mapping:
    zero issues and no item; the failure is not shown. *)
Theorem feedback_failures_in_developer_report
    (vision_analysis heuristic_evaluation : json) (platform : str) :
  (forall e,
     generate_feedback_try vision_analysis heuristic_evaluation platform = Raise e ->
     generate_developer_report
       (generate_feedback vision_analysis heuristic_evaluation platform)
     = Ok (join_text nl empty_report)) /\
  (forall prompt response_text msg,
     _create_feedback_prompt vision_analysis heuristic_evaluation platform = Ok prompt ->
     generate_content prompt = Ok response_text ->
     json_loads (clean_fences response_text) = Raise (JSONDecodeError msg) ->
     generate_developer_report
       (generate_feedback vision_analysis heuristic_evaluation platform)
     = Ok (join_text nl empty_report)).
Proof.
  split.
  - intros e He. unfold generate_feedback. rewrite He. by vm_compute.
  - intros prompt response_text msg Hp Hc Hj.
    assert (generate_feedback vision_analysis heuristic_evaluation platform
            = JObj [raw_response_entry response_text; parse_error_entry msg;
                    (u "feedback_items", JArr []); (u "platform", JStr platform);
                    (u "total_feedback_items", JNum (Int 0))]) as ->.
    { unfold generate_feedback, generate_feedback_try. rewrite Hp. cbn. rewrite Hc. cbn.
      unfold _parse_feedback_response. by rewrite Hj. }
    by vm_compute.
Qed.

End Agents.

(** ** The stages in sequence

    The pipeline hands the result of each stage to the next ones as it is:
    perception, then evaluation, then feedback, then the wireframe.  Here
    the evaluation and feedback stages run with their own prompt
    builders. *)

Section Pipeline.

Variable exn_text : exn -> str.
Variable json_loads : str -> outcome json.
Variable generate_content : str -> outcome str.
Variables py_repr json_dumps : json -> str.
Variable heuristics : json.
Variable key_error : str -> exn.
Variable subscript_error : json -> exn.
Variable read_image : str -> outcome (list Byte.byte).
Variable generate_image_content : list Byte.byte -> str -> outcome str.
Variable _save_html : str -> outcome str.
Variable timestamp : str.

Lemma evaluate_agree d d' :
  agree_on evaluation_prompt_fields d d' ->
  evaluate exn_text json_loads generate_content
    (create_evaluation_prompt py_repr json_dumps heuristics key_error subscript_error)
    (JObj d)
  = evaluate exn_text json_loads generate_content
      (create_evaluation_prompt py_repr json_dumps heuristics key_error subscript_error)
      (JObj d').
Proof.
  intros H. unfold evaluate, evaluate_try.
  by rewrite (evaluation_prompt_agree _ _ _ _ _ d d' H).
Qed.

Lemma generate_feedback_agree_analysis a a' heuristic_evaluation platform :
  agree_on feedback_prompt_analysis_fields a a' ->
  generate_feedback exn_text json_loads generate_content
    (create_feedback_prompt py_repr json_dumps) (JObj a) heuristic_evaluation platform
  = generate_feedback exn_text json_loads generate_content
      (create_feedback_prompt py_repr json_dumps) (JObj a') heuristic_evaluation platform.
Proof.
  intros H. unfold generate_feedback, generate_feedback_try.
  by rewrite (feedback_prompt_agree_analysis _ _ a a' _ _ H).
Qed.

Lemma generate_feedback_without_findings vision_analysis h platform :
  default (JArr []) (lookup (u "violations") h) = JArr [] ->
  default (JArr []) (lookup (u "mobile_specific_issues") h) = JArr [] ->
  generate_feedback exn_text json_loads generate_content
    (create_feedback_prompt py_repr json_dumps) vision_analysis (JObj h) platform
  = generate_feedback exn_text json_loads generate_content
      (create_feedback_prompt py_repr json_dumps) vision_analysis (JObj []) platform.
Proof.
  intros H1 H2. unfold generate_feedback, generate_feedback_try.
  by rewrite (feedback_prompt_same_findings _ _ vision_analysis h [] platform H1 H2).
Qed.

Lemma generate_wireframe_without_feedback vision_analysis f :
  default (JArr []) (lookup (u "feedback_items") f) = JArr [] ->
  default (JObj []) (lookup (u "wireframe_instructions") f) = JObj [] ->
  default (JObj []) (lookup (u "summary") f) = JObj [] ->
  generate_wireframe exn_text generate_content py_repr json_dumps subscript_error
    _save_html timestamp vision_analysis (JObj f)
  = generate_wireframe exn_text generate_content py_repr json_dumps subscript_error
      _save_html timestamp vision_analysis (JObj []).
Proof.
  intros H1 H2 H3. unfold generate_wireframe.
  by rewrite (wireframe_try_same_feedback _ _ _ _ _ _ vision_analysis f [] H1 H2 H3).
Qed.

(** A perception stage that failed is not noticed downstream.  Its error
    mapping, and its fallback for a reply that could not be decoded, hold
    none of the fields the later stages read, so each later stage does what
    it does for the empty mapping: it builds the prompt of a screen of
    unknown type without components and calls the model with it. *)
Theorem failed_analysis_is_read_as_empty :
  (forall failed,
     (exists e, failed = error_result exn_text e) \/
     (exists response_text msg,
        failed = JObj [raw_response_entry response_text;
                       parse_error_entry exn_text msg]) ->
     evaluate exn_text json_loads generate_content
       (create_evaluation_prompt py_repr json_dumps heuristics key_error subscript_error)
       failed
     = evaluate exn_text json_loads generate_content
         (create_evaluation_prompt py_repr json_dumps heuristics key_error
            subscript_error)
         (JObj []) /\
     (forall heuristic_evaluation platform,
        generate_feedback exn_text json_loads generate_content
          (create_feedback_prompt py_repr json_dumps) failed heuristic_evaluation platform
        = generate_feedback exn_text json_loads generate_content
            (create_feedback_prompt py_repr json_dumps) (JObj []) heuristic_evaluation
            platform) /\
     (forall feedback_result,
        generate_wireframe exn_text generate_content py_repr json_dumps subscript_error
          _save_html timestamp failed feedback_result
        = generate_wireframe exn_text generate_content py_repr json_dumps
            subscript_error _save_html timestamp (JObj []) feedback_result)) /\
  (forall image_path e,
     read_image image_path = Raise e ->
     analyze_screenshot exn_text json_loads read_image generate_image_content image_path
     = error_result exn_text e) /\
  (forall image_path image_bytes response_text msg,
     read_image image_path = Ok image_bytes ->
     generate_image_content image_bytes _get_analysis_prompt = Ok response_text ->
     json_loads (clean_fences response_text) = Raise (JSONDecodeError msg) ->
     analyze_screenshot exn_text json_loads read_image generate_image_content image_path
     = JObj [raw_response_entry response_text; parse_error_entry exn_text msg]).
Proof.
  split; [|split].
  - intros failed Hf.
    assert (exists d, failed = JObj d /\
              agree_on evaluation_prompt_fields d [] /\
              agree_on feedback_prompt_analysis_fields d [] /\
              agree_on wireframe_analysis_fields d []) as (d & -> & H1 & H2 & H3).
    { destruct Hf as [[e ->]|(response_text & msg & ->)]; eexists;
        (split; [reflexivity|]); repeat split; by repeat constructor. }
    split; [by apply evaluate_agree|]. split.
    + intros he platform. by apply generate_feedback_agree_analysis.
    + intros fr. unfold generate_wireframe.
      by rewrite (wireframe_try_agree_analysis _ _ _ _ _ _ d [] fr H3).
  - intros image_path e He. unfold analyze_screenshot, analyze_screenshot_try.
    by rewrite He.
  - intros image_path image_bytes response_text msg Hr Hg Hj.
    unfold analyze_screenshot, analyze_screenshot_try. rewrite Hr.
    cbn [mbind outcome_bind]. cbv zeta. rewrite Hg. cbn [mbind outcome_bind].
    unfold _parse_response. by rewrite Hj.
Qed.

(** A failed evaluation cannot be told from an evaluation without findings.
    The feedback stage reads [violations] and [mobile_specific_issues]
    only, so for the error mapping of [evaluate], and for its fallback with
    the score 10.0, it builds the prompt of an evaluation that found
    nothing and returns what it returns for the empty mapping. *)
Theorem failed_evaluation_is_read_as_clean (vision_analysis : json) (platform : str) :
  (forall e,
     evaluate_try exn_text json_loads generate_content
       (create_evaluation_prompt py_repr json_dumps heuristics key_error subscript_error)
       vision_analysis = Raise e ->
     generate_feedback exn_text json_loads generate_content
       (create_feedback_prompt py_repr json_dumps) vision_analysis
       (evaluate exn_text json_loads generate_content
          (create_evaluation_prompt py_repr json_dumps heuristics key_error
             subscript_error) vision_analysis)
       platform
     = generate_feedback exn_text json_loads generate_content
         (create_feedback_prompt py_repr json_dumps) vision_analysis (JObj []) platform) /\
  (forall prompt response_text msg,
     create_evaluation_prompt py_repr json_dumps heuristics key_error subscript_error
       vision_analysis = Ok prompt ->
     generate_content prompt = Ok response_text ->
     json_loads (clean_fences response_text) = Raise (JSONDecodeError msg) ->
     generate_feedback exn_text json_loads generate_content
       (create_feedback_prompt py_repr json_dumps) vision_analysis
       (evaluate exn_text json_loads generate_content
          (create_evaluation_prompt py_repr json_dumps heuristics key_error
             subscript_error) vision_analysis)
       platform
     = generate_feedback exn_text json_loads generate_content
         (create_feedback_prompt py_repr json_dumps) vision_analysis (JObj []) platform).
Proof.
  split.
  - intros e He. unfold evaluate. rewrite He. unfold error_result.
    by apply generate_feedback_without_findings.
  - intros prompt response_text msg Hp Hc Hj.
    assert (evaluate exn_text json_loads generate_content
              (create_evaluation_prompt py_repr json_dumps heuristics key_error
                 subscript_error) vision_analysis
            = JObj [raw_response_entry response_text; parse_error_entry exn_text msg;
                    (u "violations", JArr []);
                    (u "overall_score", JNum (Float 10))]) as ->.
    { unfold evaluate, evaluate_try. rewrite Hp. cbn [mbind outcome_bind].
      rewrite Hc. cbn [mbind outcome_bind].
      unfold _parse_evaluation_response. by rewrite Hj. }
    by apply generate_feedback_without_findings.
Qed.

(** A failed feedback stage is not noticed by the wireframe stage.  For the
    error mapping of [generate_feedback], and for its fallback for a reply
    that could not be decoded, the wireframe stage asks the model for a
    wireframe with no feedback to implement and builds the viewer page with
    all counts 0, as for the empty mapping. *)
Theorem failed_feedback_is_read_as_empty
    (vision_analysis heuristic_evaluation : json) (platform : str) :
  (forall e,
     generate_feedback_try exn_text json_loads generate_content
       (create_feedback_prompt py_repr json_dumps) vision_analysis heuristic_evaluation
       platform = Raise e ->
     generate_wireframe exn_text generate_content py_repr json_dumps subscript_error
       _save_html timestamp vision_analysis
       (generate_feedback exn_text json_loads generate_content
          (create_feedback_prompt py_repr json_dumps) vision_analysis heuristic_evaluation
          platform)
     = generate_wireframe exn_text generate_content py_repr json_dumps subscript_error
         _save_html timestamp vision_analysis (JObj [])) /\
  (forall prompt response_text msg,
     create_feedback_prompt py_repr json_dumps vision_analysis heuristic_evaluation
       platform = Ok prompt ->
     generate_content prompt = Ok response_text ->
     json_loads (clean_fences response_text) = Raise (JSONDecodeError msg) ->
     generate_wireframe exn_text generate_content py_repr json_dumps subscript_error
       _save_html timestamp vision_analysis
       (generate_feedback exn_text json_loads generate_content
          (create_feedback_prompt py_repr json_dumps) vision_analysis heuristic_evaluation
          platform)
     = generate_wireframe exn_text generate_content py_repr json_dumps subscript_error
         _save_html timestamp vision_analysis (JObj [])).
Proof.
  split.
  - intros e He. unfold generate_feedback. rewrite He. unfold error_result.
    by apply generate_wireframe_without_feedback.
  - intros prompt response_text msg Hp Hc Hj.
    assert (generate_feedback exn_text json_loads generate_content
              (create_feedback_prompt py_repr json_dumps) vision_analysis
              heuristic_evaluation platform
            = JObj [raw_response_entry response_text; parse_error_entry exn_text msg;
                    (u "feedback_items", JArr []); (u "platform", JStr platform);
                    (u "total_feedback_items", JNum (Int 0))]) as ->.
    { unfold generate_feedback, generate_feedback_try. rewrite Hp.
      cbn [mbind outcome_bind]. rewrite Hc. cbn [mbind outcome_bind].
      unfold _parse_feedback_response. by rewrite Hj. }
    by apply generate_wireframe_without_feedback.
Qed.

(** A perception result that is valid JSON but no object (an array, a
    string, a number) stops every later stage before it calls the model:
    evaluation, feedback and wireframe each return the error mapping of the
    same [AttributeError], whatever the model would have answered. *)
Theorem non_object_analysis_fails_every_stage
    (image_path : str) (image_bytes : list Byte.byte) (response_text : str)
    (v : json) (platform : str) :
  read_image image_path = Ok image_bytes ->
  generate_image_content image_bytes _get_analysis_prompt = Ok response_text ->
  json_loads (clean_fences response_text) = Ok v ->
  is_dict v = false ->
  let failure := error_result exn_text (AttributeError (type_name v) (u "get")) in
  let vision_result :=
    analyze_screenshot exn_text json_loads read_image generate_image_content image_path in
  let evaluation_result :=
    evaluate exn_text json_loads generate_content
      (create_evaluation_prompt py_repr json_dumps heuristics key_error subscript_error)
      vision_result in
  let feedback_result :=
    generate_feedback exn_text json_loads generate_content
      (create_feedback_prompt py_repr json_dumps) vision_result evaluation_result
      platform in
  vision_result = v /\
  evaluation_result = failure /\
  feedback_result = failure /\
  generate_wireframe exn_text generate_content py_repr json_dumps subscript_error
    _save_html timestamp vision_result feedback_result = failure.
Proof.
  intros Hr Hg Hj Hd. cbv zeta.
  assert (analyze_screenshot exn_text json_loads read_image generate_image_content
            image_path = v) as ->.
  { unfold analyze_screenshot, analyze_screenshot_try. rewrite Hr.
    cbn [mbind outcome_bind]. cbv zeta. rewrite Hg. cbn [mbind outcome_bind].
    unfold _parse_response. by rewrite Hj. }
  assert (evaluate exn_text json_loads generate_content
            (create_evaluation_prompt py_repr json_dumps heuristics key_error
               subscript_error) v
          = error_result exn_text (AttributeError (type_name v) (u "get"))) as ->.
  { by destruct v. }
  split; [done|]. split; [done|].
  assert (generate_feedback exn_text json_loads generate_content
            (create_feedback_prompt py_repr json_dumps) v
            (error_result exn_text (AttributeError (type_name v) (u "get"))) platform
          = error_result exn_text (AttributeError (type_name v) (u "get"))) as ->.
  { by destruct v. }
  split; [done|]. by destruct v.
Qed.

End Pipeline.

(** ** Rounding of binary64 sums

    The score on doubles is settled in two parts.  Totals up to 10 are
    finitely many and are checked one by one ([closed], [scored]).  A total
    above 10 stays above 10 whatever is added to it, which is shown of the
    rounding of [SpecFloat] itself. *)

Module Binary64Facts.
Import PrimFloat SpecFloat FloatOps FloatAxioms.
Local Open Scope Z_scope.

Lemma digits2_size p : digits2_pos p = Pos.size p.
Proof. induction p; simpl; congruence. Qed.

Lemma size_bounds p : 2 ^ (Zpos (Pos.size p) - 1) <= Zpos p < 2 ^ Zpos (Pos.size p).
Proof.
  induction p as [p IH|p IH|]; cbn [Pos.size].
  - rewrite Pos2Z.inj_succ, Z.pow_succ_r by lia.
    replace (Z.succ (Zpos (Pos.size p)) - 1) with (Z.succ (Zpos (Pos.size p) - 1)) by lia.
    rewrite Z.pow_succ_r by lia. lia.
  - rewrite Pos2Z.inj_succ, Z.pow_succ_r by lia.
    replace (Z.succ (Zpos (Pos.size p)) - 1) with (Z.succ (Zpos (Pos.size p) - 1)) by lia.
    rewrite Z.pow_succ_r by lia. lia.
  - by compute.
Qed.

Lemma size_unique p k : 2 ^ (k - 1) <= Zpos p < 2 ^ k -> Zpos (Pos.size p) = k.
Proof.
  intros [Hl Hu]. pose proof (size_bounds p) as [Hl' Hu'].
  assert (0 < k).
  { destruct (Z.lt_trichotomy k 0) as [?|[->|?]]; [|simpl in Hu; lia|done].
    rewrite Z.pow_neg_r in Hu by lia. lia. }
  destruct (Z.lt_trichotomy (Zpos (Pos.size p)) k) as [Hlt|[?|Hgt]]; [|done|].
  - assert (2 ^ Zpos (Pos.size p) <= 2 ^ (k - 1)) by (apply Z.pow_le_mono_r; lia). lia.
  - assert (2 ^ k <= 2 ^ (Zpos (Pos.size p) - 1)) by (apply Z.pow_le_mono_r; lia). lia.
Qed.

Lemma shr_1_m mrs : 0 <= shr_m mrs -> shr_m (shr_1 mrs) = shr_m mrs / 2.
Proof.
  destruct mrs as [m r s]. cbn [shr_m]. intros Hm. unfold shr_1.
  destruct m as [|[p|p|]|p]; cbn [shr_m].
  - done.
  - change (Z.pos p~1) with (2 * Z.pos p + 1). apply (Z.div_unique _ _ _ 1); lia.
  - change (Z.pos p~0) with (2 * Z.pos p). apply (Z.div_unique _ _ _ 0); lia.
  - done.
  - lia.
Qed.

Lemma iter_shr_1_m p mrs :
  0 <= shr_m mrs -> shr_m (iter_pos shr_1 p mrs) = shr_m mrs / 2 ^ Zpos p.
Proof.
  revert mrs. induction p as [p IH|p IH|]; intros mrs Hm; cbn [iter_pos].
  - assert (H1 : 0 <= shr_m (shr_1 mrs)) by (rewrite shr_1_m by done; apply Z.div_pos; lia).
    assert (H2 : 0 <= shr_m (iter_pos shr_1 p (shr_1 mrs))).
    { rewrite IH by done. apply Z.div_pos; lia. }
    rewrite IH, IH, shr_1_m by done.
    rewrite !Z.div_div by lia. f_equal.
    change (Z.pos p~1) with (2 * Z.pos p + 1).
    replace (2 * Z.pos p + 1) with (1 + Z.pos p + Z.pos p) by lia.
    rewrite !Z.pow_add_r by lia. rewrite Z.pow_1_r. ring.
  - assert (H2 : 0 <= shr_m (iter_pos shr_1 p mrs)).
    { rewrite IH by done. apply Z.div_pos; lia. }
    rewrite IH, IH by done. rewrite Z.div_div by lia. f_equal.
    change (Z.pos p~0) with (2 * Z.pos p).
    replace (2 * Z.pos p) with (Z.pos p + Z.pos p) by lia.
    rewrite Z.pow_add_r by lia. ring.
  - rewrite shr_1_m by done. by rewrite Z.pow_1_r.
Qed.


Lemma pos_iter_xO m d : Zpos (Pos.iter xO m d) = Zpos m * 2 ^ Zpos d.
Proof.
  induction d as [|d IH] using Pos.peano_ind.
  - cbn [Pos.iter]. change (Z.pos m~0) with (2 * Z.pos m). rewrite Z.pow_1_r. lia.
  - rewrite Pos.iter_succ. change (Z.pos (Pos.iter xO m d)~0) with (2 * Z.pos (Pos.iter xO m d)).
    rewrite IH, Pos2Z.inj_succ, Z.pow_succ_r by lia. ring.
Qed.

Lemma shl_align_spec mx ex ex' :
  ex' <= ex ->
  exists mz, shl_align mx ex ex' = (mz, ex') /\ Zpos mz = Zpos mx * 2 ^ (ex - ex').
Proof.
  intros H. unfold shl_align. destruct (ex' - ex) as [|d|d] eqn:Hd.
  - assert (ex' = ex) as -> by lia. exists mx. rewrite Z.sub_diag. split; [done|]. simpl. lia.
  - lia.
  - exists (Pos.iter xO mx d). split; [done|].
    rewrite pos_iter_xO. f_equal. f_equal. lia.
Qed.

Lemma shl_align_id mx ex ex' : ex <= ex' -> shl_align mx ex ex' = (mx, ex).
Proof. intros H. unfold shl_align. destruct (ex' - ex) eqn:Hd; try done. lia. Qed.

Lemma shr_spec mrs e n :
  0 <= n -> 0 <= shr_m mrs ->
  exists mrs', shr mrs e n = (mrs', e + n) /\ shr_m mrs' = shr_m mrs / 2 ^ n.
Proof.
  intros Hn Hm. destruct n as [|p|p]; [| |lia].
  - exists mrs. cbn [shr]. rewrite Z.add_0_r, Z.pow_0_r, Z.div_1_r. done.
  - exists (iter_pos shr_1 p mrs). split; [done|]. by apply iter_shr_1_m.
Qed.

(** Shifting a mantissa of at least 53 digits to 53 digits. *)
Lemma shr_fexp_spec m e :
  53 <= Zpos (Pos.size m) -> -1074 <= Zpos (Pos.size m) + e - 53 ->
  exists mrs',
    shr_fexp 53 1024 (Zpos m) e loc_Exact = (mrs', e + (Zpos (Pos.size m) - 53))
    /\ shr_m mrs' = Zpos m / 2 ^ (Zpos (Pos.size m) - 53).
Proof.
  intros Hd He. unfold shr_fexp, fexp, emin. cbn [Zdigits2 shr_record_of_loc].
  rewrite digits2_size.
  replace (Z.max (Zpos (Pos.size m) + e - 53) (3 - 1024 - 53))
    with (Zpos (Pos.size m) + e - 53) by lia.
  replace (Zpos (Pos.size m) + e - 53 - e) with (Zpos (Pos.size m) - 53) by lia.
  apply (shr_spec {| shr_m := Zpos m; shr_r := false; shr_s := false |}); [lia|done].
Qed.

Lemma round_nearest_even_cases m l :
  round_nearest_even m l = m \/ round_nearest_even m l = m + 1.
Proof.
  unfold round_nearest_even. destruct l as [|[| |]]; auto. destruct (Z.even m); auto.
Qed.

#[local] Abbreviation C := Binary64.above_ten_mantissa.
#[local] Abbreviation bigsf := Binary64.above_ten_sf.

Lemma pow2_lt_inv a b : 0 <= b -> 2 ^ a < 2 ^ b -> a < b.
Proof. intros Hb H. apply (Z.pow_lt_mono_r_iff 2); [lia|done|done]. Qed.

Lemma round_aux_spec m e :
  e <= 0 -> 53 <= Zpos (Pos.size m) -> C * 2 ^ (- e) <= Zpos m * 2 ^ 49 ->
  exists m' e',
    binary_round_aux 53 1024 false (Zpos m) e loc_Exact
    = (if e' <=? 971 then S754_finite false m' e' else S754_infinity false)
    /\ Zpos (Pos.size m') = 53
    /\ -49 <= e'
    /\ e' <= e + (Zpos (Pos.size m) - 53) + 1
    /\ (e' = -49 -> C <= Zpos m').
Proof.
  intros He Hd Hv.
  pose proof (size_bounds m) as [Hl Hu].
  set (d := Zpos (Pos.size m)) in *.
  assert (He1 : -49 <= e + (d - 53)).
  { assert (2 ^ (52 - e) < 2 ^ (d + 49)).
    { rewrite (Z.pow_add_r 2 d 49) by lia.
      replace (52 - e) with (52 + - e) by lia. rewrite Z.pow_add_r by lia.
      assert (2 ^ 52 < C) by done.
      assert (0 < 2 ^ (- e)) by (apply Z.pow_pos_nonneg; lia).
      assert (0 < 2 ^ 49) by done. nia. }
    apply pow2_lt_inv in H; lia. }
  destruct (shr_fexp_spec m e) as (mrs1 & E1 & Hm1); [done|fold d; lia|].
  fold d in E1, Hm1.
  unfold binary_round_aux. rewrite E1.
  set (n := d - 53) in *. set (e1 := e + n) in *.
  set (m1 := shr_m mrs1) in *.
  assert (Hpow : 2 ^ (d - 1) = 2 ^ n * 2 ^ 52).
  { rewrite <- Z.pow_add_r by lia. f_equal. lia. }
  assert (Hpow' : 2 ^ d = 2 ^ n * 2 ^ 53).
  { rewrite <- Z.pow_add_r by lia. f_equal. lia. }
  assert (Hn : 0 < 2 ^ n) by (apply Z.pow_pos_nonneg; lia).
  assert (Hm1l : 2 ^ 52 <= m1).
  { rewrite Hm1. apply Z.div_le_lower_bound; lia. }
  assert (Hm1u : m1 < 2 ^ 53).
  { rewrite Hm1. apply Z.div_lt_upper_bound; lia. }
  assert (HC : e1 = -49 -> C <= m1).
  { intros E. rewrite Hm1. apply Z.div_le_lower_bound; [done|].
    assert (- e = n + 49) as Hne by lia. rewrite Hne, Z.pow_add_r in Hv by lia.
    assert (0 < 2 ^ 49) by done. nia. }
  destruct (round_nearest_even_cases m1 (loc_of_shr_record mrs1)) as [Hr|Hr];
    rewrite Hr.
  - destruct m1 as [|p1|p1] eqn:Ep1; [lia| |lia].
    assert (Hs1 : Zpos (Pos.size p1) = 53) by (apply size_unique; lia).
    destruct (shr_fexp_spec p1 e1) as (mrs2 & E2 & Hm2); [lia|lia|].
    rewrite Hs1 in E2, Hm2. rewrite E2. change (53 - 53) with 0 in *.
    rewrite Z.pow_0_r, Z.div_1_r in Hm2. rewrite Hm2, Z.add_0_r.
    exists p1, e1. split; [done|]. split; [done|]. split; [done|]. split; [lia|done].
  - destruct (Z.eq_dec (m1 + 1) (2 ^ 53)) as [Et|Et].
    + rewrite Et. change (2 ^ 53) with (Zpos 9007199254740992).
      destruct (shr_fexp_spec 9007199254740992 e1) as (mrs2 & E2 & Hm2);
        [done|change (Zpos (Pos.size 9007199254740992)) with 54; lia|].
      change (Zpos (Pos.size 9007199254740992)) with 54 in E2, Hm2.
      rewrite E2. change (Zpos 9007199254740992 / 2 ^ (54 - 53))
        with (Zpos 4503599627370496) in Hm2. rewrite Hm2.
      exists 4503599627370496%positive, (e1 + (54 - 53)).
      split; [done|]. split; [done|]. split; [lia|]. split; [lia|lia].
    + destruct (m1 + 1) as [|p2|p2] eqn:Ep2; [lia| |lia].
      assert (Hs2 : Zpos (Pos.size p2) = 53) by (apply size_unique; lia).
      destruct (shr_fexp_spec p2 e1) as (mrs2 & E2 & Hm2); [lia|lia|].
      rewrite Hs2 in E2, Hm2. rewrite E2. change (53 - 53) with 0 in *.
      rewrite Z.pow_0_r, Z.div_1_r in Hm2. rewrite Hm2, Z.add_0_r.
      exists p2, e1. split; [done|]. split; [done|]. split; [done|]. split; [lia|].
      intros E. specialize (HC E). lia.
Qed.


Lemma bigsf_round_aux m e :
  e <= 0 -> 53 <= Zpos (Pos.size m) -> C * 2 ^ (- e) <= Zpos m * 2 ^ 49 ->
  bigsf (binary_round_aux 53 1024 false (Zpos m) e loc_Exact) = true
  /\ (Zpos (Pos.size m) + e <= 1000 ->
      exists m' e', binary_round_aux 53 1024 false (Zpos m) e loc_Exact
                    = S754_finite false m' e').
Proof.
  intros He Hd Hv.
  destruct (round_aux_spec m e He Hd Hv) as (m' & e' & -> & Hs & Hl & Hu & HC).
  split.
  - destruct (e' <=? 971) eqn:E; [|done]. cbn [bigsf].
    rewrite Hs, E. cbn [andb]. change (53 =? 53) with true. cbn [andb].
    destruct (Z.eq_dec e' (-49)) as [E'|E'].
    + rewrite E'. specialize (HC E'). apply Z.leb_le in HC. rewrite HC. done.
    + assert (H : (-48 <=? e') = true) by (apply Z.leb_le; lia). by rewrite H.
  - intros Hf. assert ((e' <=? 971) = true) as -> by (apply Z.leb_le; lia). by exists m', e'.
Qed.

(** Rounding a value of at least [C * 2^-49] gives a double above 10. *)
Lemma bigsf_round m e :
  e <= 0 -> C * 2 ^ (- e) <= Zpos m * 2 ^ 49 ->
  bigsf (binary_round 53 1024 false m e) = true
  /\ (Zpos (Pos.size m) + e <= 1000 ->
      exists m' e', binary_round 53 1024 false m e = S754_finite false m' e').
Proof.
  intros He Hv.
  pose proof (size_bounds m) as [Hl Hu].
  set (d := Zpos (Pos.size m)) in *.
  assert (Hde : 4 <= d + e).
  { assert (2 ^ (52 - e) < 2 ^ (d + 49)).
    { rewrite (Z.pow_add_r 2 d 49) by lia.
      replace (52 - e) with (52 + - e) by lia. rewrite Z.pow_add_r by lia.
      assert (2 ^ 52 < C) by done.
      assert (0 < 2 ^ (- e)) by (apply Z.pow_pos_nonneg; lia).
      assert (0 < 2 ^ 49) by done. nia. }
    apply pow2_lt_inv in H; lia. }
  unfold binary_round, fexp, emin. rewrite digits2_size. fold d.
  replace (Z.max (d + e - 53) (3 - 1024 - 53)) with (d + e - 53) by lia.
  destruct (Z_le_gt_dec d 53) as [Hd|Hd].
  - destruct (shl_align_spec m e (d + e - 53)) as (mz & -> & Hmz); [lia|].
    replace (e - (d + e - 53)) with (53 - d) in Hmz by lia.
    assert (Hp : 2 ^ 53 = 2 ^ d * 2 ^ (53 - d)).
    { rewrite <- Z.pow_add_r by lia. f_equal. lia. }
    assert (Hp' : 2 ^ 52 = 2 ^ (d - 1) * 2 ^ (53 - d)).
    { rewrite <- Z.pow_add_r by lia. f_equal. lia. }
    assert (Hk : 0 < 2 ^ (53 - d)) by (apply Z.pow_pos_nonneg; lia).
    assert (Hsz : Zpos (Pos.size mz) = 53).
    { apply size_unique. change (53 - 1) with 52. rewrite Hmz, Hp, Hp'. nia. }
    destruct (bigsf_round_aux mz (d + e - 53)) as [Hb Hf]; [lia|lia| |].
    { rewrite Hmz. replace (- (d + e - 53)) with (- e + (53 - d)) by lia.
      rewrite Z.pow_add_r by lia. nia. }
    split; [done|]. intros Hfin. apply Hf. lia.
  - rewrite shl_align_id by lia.
    destruct (bigsf_round_aux m e) as [Hb Hf]; [done|fold d; lia|done|].
    split; [done|]. intros Hfin. apply Hf. fold d. lia.
Qed.

(** Adding a positive double with a non-positive exponent to a double above
    10 gives a double above 10. *)
Lemma bigsf_add x my ey :
  bigsf x = true -> ey <= 0 ->
  bigsf (SFadd 53 1024 x (S754_finite false my ey)) = true.
Proof.
  intros Hx Hey. destruct x as [| [|] | |[|] mx ex]; try done.
  cbn [bigsf] in Hx. apply andb_true_iff in Hx as [Hx Hv].
  apply andb_true_iff in Hx as [Hs Hex].
  apply Z.eqb_eq in Hs. apply Z.leb_le in Hex.
  pose proof (size_bounds mx) as [Hl Hu]. rewrite Hs in Hl, Hu. change (53 - 1) with 52 in Hl.
  assert (Hval : -49 <= ex /\ C <= Zpos mx * 2 ^ (ex + 49)).
  { apply orb_true_iff in Hv as [Hv|Hv].
    - apply Z.leb_le in Hv. split; [lia|].
      assert (2 ^ 1 <= 2 ^ (ex + 49)) by (apply Z.pow_le_mono_r; lia).
      assert (C < 2 ^ 52 * 2 ^ 1) by done. nia.
    - apply andb_true_iff in Hv as [He HC]. apply Z.eqb_eq in He. apply Z.leb_le in HC.
      subst ex. split; [lia|]. change (-49 + 49) with 0. lia. }
  destruct Hval as [Hex' HvC].
  unfold SFadd. cbn [cond_Zopp].
  set (ez := Z.min ex ey).
  destruct (shl_align_spec mx ex ez) as (ax & Ea & Hax); [lia|].
  destruct (shl_align_spec my ey ez) as (ay & Eb & Hay); [lia|].
  rewrite Ea, Eb. cbn [fst]. change (Zpos ax + Zpos ay) with (Zpos (ax + ay)).
  cbn [binary_normalize].
  apply bigsf_round; [lia|].
  rewrite Pos2Z.inj_add, Hax.
  assert (Hez : 2 ^ (ex - ez) * 2 ^ 49 = 2 ^ (ex + 49) * 2 ^ (- ez)).
  { rewrite <- !Z.pow_add_r by lia. f_equal. lia. }
  assert (0 < 2 ^ (- ez)) by (apply Z.pow_pos_nonneg; lia).
  assert (0 < 2 ^ 49) by done.
  assert (0 < Zpos ay) by done.
  nia.
Qed.


(** ** Doubles above 10 *)

#[local] Abbreviation bigb f := (Binary64.above_ten_sf (Prim2SF f)).

Lemma bigsf_valid x : bigsf x = true -> valid_binary x = true.
Proof.
  destruct x as [| [|] | |[|] m e]; try done. cbn [bigsf]. intros H.
  apply andb_true_iff in H as [H Hv]. apply andb_true_iff in H as [Hs He].
  apply Z.eqb_eq in Hs. apply Z.leb_le in He.
  assert (-49 <= e).
  { apply orb_true_iff in Hv as [Hv|Hv]; [apply Z.leb_le in Hv; lia|].
    apply andb_true_iff in Hv as [Hv _]. apply Z.eqb_eq in Hv. lia. }
  unfold valid_binary, bounded, canonical_mantissa, FloatOps.prec, FloatOps.emax, fexp, emin.
  rewrite digits2_size, Hs. apply andb_true_iff. split.
  - apply Z.eqb_eq. lia.
  - apply Z.leb_le. lia.
Qed.

Lemma bigb_SF2Prim x : bigsf x = true -> bigb (SF2Prim x) = true.
Proof. intros H. unfold bigb. by rewrite Prim2SF_SF2Prim by by apply bigsf_valid. Qed.

Lemma bigb_add f g my ey :
  bigb f = true -> Prim2SF g = S754_finite false my ey -> ey <= 0 ->
  bigb (f + g)%float = true.
Proof.
  intros Hf Hg Hey. unfold bigb. rewrite add_spec, Hg. by apply bigsf_add.
Qed.

Lemma bigb_add_zero f : bigb f = true -> bigb (f + 0)%float = true.
Proof.
  unfold bigb. rewrite add_spec. change (Prim2SF 0) with (S754_zero false).
  by destruct (Prim2SF f) as [| [|] | |[|] m e].
Qed.

Lemma float_of_int_big z :
  11 <= z < 2 ^ 67 ->
  exists f, Binary64.float_of_int z = Ok f /\ bigb f = true.
Proof.
  intros [Hl Hu]. destruct z as [|p|p]; [lia| |lia].
  unfold Binary64.float_of_int. cbn [binary_normalize].
  destruct (bigsf_round p 0) as [Hb Hf]; [done| |].
  { change (2 ^ (- 0)) with 1. assert (C < 11 * 2 ^ 49) by done. lia. }
  destruct Hf as (m' & e' & E).
  { pose proof (size_bounds p) as [Hs _].
    assert (2 ^ (Zpos (Pos.size p) - 1) < 2 ^ 67) as H%pow2_lt_inv by lia; lia. }
  rewrite E in Hb |- *. eexists. split; [done|]. by apply bigb_SF2Prim.
Qed.

Lemma lt_ten_big f : bigb f = true -> Binary64.lt (Binary64.Int 10) (Binary64.Float f) = true.
Proof.
  unfold bigb, Binary64.lt, Binary64.exact.
  destruct (Prim2SF f) as [| [|] | |[|] m e]; try done. cbn [bigsf]. intros H.
  apply andb_true_iff in H as [H Hv]. apply andb_true_iff in H as [Hs He].
  apply Z.eqb_eq in Hs. apply Z.leb_le in He.
  pose proof (size_bounds m) as [Hl _]. rewrite Hs in Hl. change (53 - 1) with 52 in Hl.
  apply negb_true_iff. apply not_true_is_false. intros Hq. apply Qle_bool_iff in Hq.
  unfold Qle in Hq. destruct (0 <=? e) eqn:E0.
  - apply Z.leb_le in E0. cbn in Hq.
    assert (0 < 2 ^ e) by (apply Z.pow_pos_nonneg; lia).
    assert (10 < 2 ^ 52) by done. nia.
  - apply Z.leb_gt in E0. cbn [Qnum Qden inject_Z] in Hq.
    rewrite Pos2Z.inj_pow, Z2Pos.id in Hq by lia.
    apply orb_true_iff in Hv as [Hv|Hv].
    + apply Z.leb_le in Hv.
      assert (2 ^ (- e) <= 2 ^ 48) by (apply Z.pow_le_mono_r; lia).
      assert (10 * 2 ^ 48 < 2 ^ 52) by done. lia.
    + apply andb_true_iff in Hv as [Hv HC]. apply Z.eqb_eq in Hv. apply Z.leb_le in HC.
      subst e. change (2 ^ (- -49)) with (2 ^ 49) in Hq. unfold C in HC. lia.
Qed.


(** ** Totals of the loop on doubles *)

Lemma closed_ok : Binary64.closed = true.
Proof. vm_compute. reflexivity. Qed.

Lemma scored_ok : Binary64.scored = true.
Proof. vm_compute. reflexivity. Qed.

Lemma listed_ints :
  forallb (fun entry => match snd entry with
                        | Binary64.Int z => (10 * z =? fst entry)%Z
                        | Binary64.Float _ => true
                        end) Binary64.below_ten = true.
Proof. vm_compute. reflexivity. Qed.

Lemma tenths_nearest :
  forallb (fun r => Binary64.nearest (r # 10) (Binary64.tenth r))
          (map Z.of_nat (seq 1 100)) = true.
Proof. vm_compute. reflexivity. Qed.

Lemma same_eq a b : Binary64.same a b = true -> a = b.
Proof.
  destruct a as [x|f], b as [y|g]; try done; cbn [Binary64.same]; intros H.
  - apply Z.eqb_eq in H. by subst.
  - apply Leibniz.eqb_spec in H. by subst.
Qed.

Lemma listed_In k s : Binary64.listed k s = true -> In (k, s) Binary64.below_ten.
Proof.
  unfold Binary64.listed. intros H. apply existsb_exists in H as ([k' s'] & Hin & H).
  apply andb_true_iff in H as [Hk Hs]. apply Z.eqb_eq in Hk. apply same_eq in Hs.
  cbn [fst snd] in *. by subst.
Qed.

Lemma listed_step k s dk w :
  Binary64.listed k s = true -> In (dk, w) Binary64.impacts ->
  exists s', Binary64.add s w = Ok s'
             /\ (Binary64.listed (k + dk) s' = true
                 \/ (Binary64.above_ten s' = true /\ 100 <= k + dk)).
Proof.
  intros Hl Hw. apply listed_In in Hl.
  pose proof closed_ok as H. unfold Binary64.closed in H.
  rewrite forallb_forall in H. specialize (H _ Hl).
  rewrite forallb_forall in H. specialize (H _ Hw). cbn [fst snd] in H.
  destruct (Binary64.add s w) as [s'|e]; [|done]. exists s'. split; [done|].
  apply orb_true_iff in H as [H|H]; [by left|right].
  apply andb_true_iff in H as [H1 H2]. apply Z.leb_le in H2. done.
Qed.

Lemma listed_score k s :
  Binary64.listed k s = true ->
  Binary64.clamp_and_round s = Ok (Binary64.score_of_tenths k).
Proof.
  intros Hl. apply listed_In in Hl.
  pose proof scored_ok as H. unfold Binary64.scored in H.
  rewrite forallb_forall in H. specialize (H _ Hl). cbn [fst snd] in H.
  destruct (Binary64.clamp_and_round s) as [r|e]; [|done]. by apply same_eq in H as ->.
Qed.

Lemma listed_int k z : Binary64.listed k (Binary64.Int z) = true -> 10 * z = k.
Proof.
  intros Hl. apply listed_In in Hl.
  pose proof listed_ints as H. rewrite forallb_forall in H. specialize (H _ Hl).
  cbn [fst snd] in H. by apply Z.eqb_eq in H.
Qed.

Lemma above_score s :
  Binary64.above_ten s = true -> Binary64.clamp_and_round s = Ok (Binary64.Int 0).
Proof.
  intros H. unfold Binary64.clamp_and_round.
  assert (Binary64.lt (Binary64.Int 10) s = true) as ->; [|by vm_compute].
  destruct s as [z|f]; [done|]. by apply lt_ten_big.
Qed.

Lemma above_step s dk w :
  Binary64.above_ten s = true ->
  (forall z, s = Binary64.Int z -> z < 2 ^ 67) ->
  In (dk, w) Binary64.impacts ->
  exists s', Binary64.add s w = Ok s' /\ Binary64.above_ten s' = true.
Proof.
  intros Hs Hz Hw. destruct s as [z|f]; cbn [Binary64.above_ten] in Hs.
  - apply Z.ltb_lt in Hs. specialize (Hz z eq_refl).
    assert (Hlow : exists s', Binary64.add (Binary64.Int z)
                                (Binary64.Float 0x1.3333333333333p-2) = Ok s'
                              /\ Binary64.above_ten s' = true).
    { unfold Binary64.add. cbn [Binary64.to_float].
      destruct (float_of_int_big z) as (f & -> & Hf); [lia|]. cbn.
      eexists. split; [done|]. cbn [Binary64.above_ten].
      eapply (bigb_add f); [done|by vm_compute|done]. }
    cbn in Hw. destruct Hw as [E|[E|[E|[E|[E|[]]]]]]; injection E as <- <-;
      try done; eexists; (split; [done|]); apply Z.ltb_lt; lia.
  - assert (Hadd : forall g my ey,
              Prim2SF g = S754_finite false my ey -> ey <= 0 ->
              Binary64.above_ten (Binary64.Float (f + g)) = true).
    { intros g my ey Hg Hey. by apply (bigb_add f g my ey). }
    cbn in Hw. destruct Hw as [E|[E|[E|[E|[E|[]]]]]]; injection E as <- <-;
      (eexists; split; [by vm_compute|]).
    + by eapply Hadd; [vm_compute|].
    + by eapply Hadd; [vm_compute|].
    + by eapply Hadd; [vm_compute|].
    + by eapply Hadd; [vm_compute|].
    + by apply bigb_add_zero.
Qed.

Lemma impact_step k s n dk w :
  Binary64.tracks k s n -> 0 <= n < 2 ^ 63 -> In (dk, w) Binary64.impacts ->
  exists s', Binary64.add s w = Ok s' /\ Binary64.tracks (k + dk) s' (n + 1).
Proof.
  intros (Hk & Hint & Hs) Hn Hw.
  assert (Hdk : 0 <= dk <= 100
                /\ forall z z', s = Binary64.Int z -> forall s',
                     Binary64.add s w = Ok s' -> s' = Binary64.Int z' ->
                     10 * z' = 10 * z + dk).
  { cbn in Hw. destruct Hw as [E|[E|[E|[E|[E|[]]]]]]; injection E as <- <-;
      (split; [lia|]); intros z z' -> s' Hadd ->; cbn in Hadd;
      try (injection Hadd as <-; lia).
    by destruct (Binary64.float_of_int z). }
  destruct Hdk as [Hdk Hz'].
  assert (exists s', Binary64.add s w = Ok s'
                     /\ (Binary64.listed (k + dk) s' = true
                         \/ (Binary64.above_ten s' = true /\ 100 <= k + dk)))
    as (s' & Hadd & Hs').
  { destruct Hs as [Hl|[Ha Hk100]]; [by apply listed_step|].
    destruct (above_step s dk w Ha) as (s' & Hadd & Ha'); [|done|].
    - intros z ->. specialize (Hint z eq_refl). assert (2 ^ 67 = 16 * 2 ^ 63) by done. lia.
    - exists s'. split; [done|]. right. split; [done|lia]. }
  exists s'. split; [done|]. split; [lia|]. split; [|done].
  intros z' ->. destruct s as [z|f].
  - rewrite (Hz' z z' eq_refl _ Hadd eq_refl). specialize (Hint z eq_refl). lia.
  - cbn in Hadd. destruct w as [x|g]; cbn in Hadd.
    + by destruct (Binary64.float_of_int x).
    + done.
Qed.

End Binary64Facts.

(** ** The score on doubles *)

Lemma impact_cases severity :
  hashable severity = true ->
  exists w, Binary64.severity_impact_get severity (Binary64.Int 0) = Ok w
            /\ In (tenths_of severity, w) Binary64.impacts.
Proof.
  destruct severity as [| |n|s| |]; intros H; try done;
    try (eexists; split; [reflexivity|]; cbn; tauto).
  cbn [Binary64.severity_impact_get tenths_of].
  unfold Binary64.severity_impact. cbn [lookup].
  repeat case_decide; eexists; (split; [reflexivity|]); cbn; tauto.
Qed.

Lemma sum_deductions_tracks (ds : list (list (str * json))) :
  Forall (fun d => hashable (severity_of d) = true) ds ->
  forall k s n,
    Binary64.tracks k s n -> (0 <= n)%Z -> (n + Z.of_nat (length ds) < 2 ^ 63)%Z ->
    exists s', Binary64.sum_deductions (JObj <$> ds) s = Ok s'
               /\ Binary64.tracks (k + total_tenths ds) s' (n + Z.of_nat (length ds)).
Proof.
  induction 1 as [|d ds Hd _ IH]; intros k s n Ht Hn Hlen.
  - exists s. split; [done|]. cbn. by rewrite !Z.add_0_r.
  - destruct (impact_cases _ Hd) as (w & Hw & Hin).
    destruct (Binary64Facts.impact_step k s n (tenths_of (severity_of d)) w Ht)
      as (s1 & Hadd & Ht1);
      [cbn [length] in Hlen; lia|done|].
    cbn [fmap list_fmap Binary64.sum_deductions].
    unfold Binary64.add_deduction. cbn [get mbind outcome_bind].
    fold (severity_of d). rewrite Hw. cbn [mbind outcome_bind]. rewrite Hadd.
    cbn [mbind outcome_bind].
    destruct (IH _ _ _ Ht1) as (s' & Hs' & Ht'); [lia|cbn [length] in Hlen; lia|].
    exists s'. split; [done|]. cbn [total_tenths foldr length].
    fold (total_tenths ds).
    replace (k + (tenths_of (severity_of d) + total_tenths ds))%Z
      with (k + tenths_of (severity_of d) + total_tenths ds)%Z by lia.
    replace (n + Z.of_nat (S (length ds)))%Z with (n + 1 + Z.of_nat (length ds))%Z by lia.
    done.
Qed.

(** On doubles the score of a non-empty list depends on the exact sum of
    the deductions only. *)
Lemma score_on_doubles (ds : list (list (str * json))) :
  ds <> [] ->
  Forall (fun d => hashable (severity_of d) = true) ds ->
  (Z.of_nat (length ds) < 2 ^ 63)%Z ->
  Binary64._calculate_score (JArr (JObj <$> ds))
  = Ok (Binary64.score_of_tenths (total_tenths ds)).
Proof.
  intros Hne H Hlen. unfold Binary64._calculate_score.
  assert (truthy (JArr (JObj <$> ds)) = true) as -> by (by destruct ds).
  cbn [negb iter mbind outcome_bind].
  destruct (sum_deductions_tracks ds H 0 (Binary64.Int 0) 0) as (s & -> & Ht);
    [|done|lia|].
  { split; [done|]. split; [by intros z [= <-]|]. left. by vm_compute. }
  cbn [mbind outcome_bind]. rewrite Z.add_0_l in Ht.
  change (Binary64.clamp_and_round s = Ok (Binary64.score_of_tenths (total_tenths ds))).
  destruct Ht as (_ & _ & [Hl|[Ha Hk]]).
  - by apply Binary64Facts.listed_score.
  - rewrite Binary64Facts.above_score by done. unfold Binary64.score_of_tenths.
    by assert ((100 <=? total_tenths ds)%Z = true) as -> by (by apply Z.leb_le).
Qed.

Lemma total_tenths_nonneg ds : (0 <= total_tenths ds)%Z.
Proof.
  induction ds as [|d ds IH]; [done|].
  cbn [total_tenths foldr]. fold (total_tenths ds).
  assert (0 <= tenths_of (severity_of d))%Z; [|lia].
  destruct (severity_of d); cbn; try done. repeat case_decide; done.
Qed.

Lemma total_weight_total_tenths ds : (total_weight ds == total_tenths ds # 10)%Q.
Proof.
  induction ds as [|d ds IH]; [done|]. cbn [total_weight total_tenths foldr].
  fold (total_weight ds). fold (total_tenths ds). rewrite IH.
  assert (weight (severity_of d) == tenths_of (severity_of d) # 10)%Q as ->.
  { destruct (severity_of d); cbn; try done. repeat case_decide; done. }
  unfold Qeq, Qplus. cbn. lia.
Qed.

Lemma total_tenths_perm ds ds' : ds ≡ₚ ds' -> total_tenths ds = total_tenths ds'.
Proof.
  induction 1 as [|d ds ds' _ IH|d d' ds|ds1 ds2 ds3 _ IH1 _ IH2];
    cbn [total_tenths foldr]; fold total_tenths; try fold (total_tenths ds);
    try fold (total_tenths ds'); lia.
Qed.

Lemma tenth_is_nearest r :
  (1 <= r <= 100)%Z -> Binary64.nearest (r # 10) (Binary64.tenth r) = true.
Proof.
  intros Hr. pose proof Binary64Facts.tenths_nearest as H.
  rewrite forallb_forall in H. apply H. apply in_map_iff.
  exists (Z.to_nat r). split; [lia|]. apply in_seq. lia.
Qed.

(** The exact score, in tenths: what is left of 100 after the clamped sum. *)
Lemma exact_score_tenths ds :
  (Qmax 0 (py_round1 (10 - Qmin (total_weight ds) 10))
   == (100 - Z.min (total_tenths ds) 100) # 10)%Q.
Proof.
  pose proof (total_tenths_nonneg ds) as Hk.
  set (k := total_tenths ds) in *.
  assert (Hrem : (10 - Qmin (total_weight ds) 10 == (100 - Z.min k 100) # 10)%Q).
  { rewrite total_weight_total_tenths. fold k.
    destruct (Z_le_gt_dec k 100) as [Hle|Hgt].
    - rewrite Z.min_l by done.
      rewrite Q.min_l; unfold Qle, Qeq, Qminus, Qplus, Qopp; simpl; lia.
    - rewrite Z.min_r by lia. rewrite Q.min_r; [done|]. unfold Qle. simpl. lia. }
  rewrite (py_round1_comp _ _ Hrem), py_round1_tenths.
  apply Q.max_r. unfold Qle. simpl. lia.
Qed.

(** Claim C1. The score of the empty list is the double 10.0.  For a
    non-empty list of violation records, of fewer than 2^63 items as every
    Python list is, the score computed on doubles is the exact value
    max(0, round(10 - min(sum, 10), 1)), where the sum adds 10 per
    critical, 3 per high, 1 per medium and 0.3 per low violation: that
    value is a whole number [r] of tenths between 0 and 10, and the result
    is the double nearest to [r / 10], or the int 0 when [r] is 0.  One
    critical violation scores 0, three high violations score 1.0, four
    high violations score 0. *)
Theorem C1_score_formula :
  Binary64._calculate_score (JArr []) = Ok (Binary64.Float Binary64.ten) /\
  (forall ds : list (list (str * json)),
     ds <> [] ->
     Forall (fun d => hashable (severity_of d) = true) ds ->
     (Z.of_nat (length ds) < 2 ^ 63)%Z ->
     exists score r,
       Binary64._calculate_score (JArr (JObj <$> ds)) = Ok score /\
       (0 <= r <= 100)%Z /\
       (Qmax 0 (py_round1 (10 - Qmin (total_weight ds) 10)) == r # 10)%Q /\
       match score with
       | Binary64.Int z => z = 0%Z /\ r = 0%Z
       | Binary64.Float f => (0 < r)%Z /\ Binary64.nearest (r # 10) f = true
       end) /\
  (Binary64.severity_impact_get (JStr (u "critical")) (Binary64.Int 0)
     = Ok (Binary64.Int 10) /\
   Binary64.severity_impact_get (JStr (u "high")) (Binary64.Int 0)
     = Ok (Binary64.Int 3) /\
   Binary64.severity_impact_get (JStr (u "medium")) (Binary64.Int 0)
     = Ok (Binary64.Int 1) /\
   Binary64.severity_impact_get (JStr (u "low")) (Binary64.Int 0)
     = Ok (Binary64.Float Binary64.three_tenths) /\
   Binary64.nearest (3 # 10) Binary64.three_tenths = true) /\
  (weight (JStr (u "critical")) = 10 /\ weight (JStr (u "high")) = 3 /\
   weight (JStr (u "medium")) = 1 /\ weight (JStr (u "low")) = 3 # 10)%Q /\
  Binary64._calculate_score (JArr [violation_with "critical"]) = Ok (Binary64.Int 0) /\
  Binary64._calculate_score (JArr [violation_with "high"; violation_with "high";
                                   violation_with "high"])
    = Ok (Binary64.Float Binary64.one) /\
  Binary64._calculate_score (JArr [violation_with "high"; violation_with "high";
                                   violation_with "high"; violation_with "high"])
    = Ok (Binary64.Int 0).
Proof.
  split; [reflexivity|]. split; [|by vm_compute].
  intros ds Hne H Hlen.
  pose proof (total_tenths_nonneg ds) as Hk.
  exists (Binary64.score_of_tenths (total_tenths ds)),
         (100 - Z.min (total_tenths ds) 100)%Z.
  split; [by apply score_on_doubles|]. split; [lia|].
  split; [apply exact_score_tenths|].
  unfold Binary64.score_of_tenths.
  destruct (100 <=? total_tenths ds)%Z eqn:E.
  - apply Z.leb_le in E. split; [done|lia].
  - apply Z.leb_gt in E. rewrite Z.min_l by lia.
    replace (100 - (100 - total_tenths ds))%Z with (total_tenths ds) by lia.
    split; [lia|]. apply tenth_is_nearest. lia.
Qed.

(** The score does not depend on the order of the violations: two lists
    that are permutations of each other get the same score, on doubles,
    where the running sums of the two orders may differ in their last
    digits, as in the exact model. *)
Theorem score_order_independent (ds ds' : list (list (str * json))) :
  Forall (fun d => hashable (severity_of d) = true) ds ->
  Permutation ds ds' ->
  (Z.of_nat (length ds) < 2 ^ 63)%Z ->
  Binary64._calculate_score (JArr (JObj <$> ds))
  = Binary64._calculate_score (JArr (JObj <$> ds')) /\
  _calculate_score (JArr (JObj <$> ds)) = _calculate_score (JArr (JObj <$> ds')).
Proof.
  intros H Hp Hlen.
  assert (H' : Forall (fun d => hashable (severity_of d) = true) ds').
  { by rewrite <- Hp. }
  destruct ds as [|d ds].
  { apply Permutation_nil in Hp. by subst. }
  assert (Hne : ds' <> []).
  { intros ->. symmetry in Hp. by apply Permutation_nil in Hp. }
  split.
  - rewrite (score_on_doubles (d :: ds)), (score_on_doubles ds'); try done.
    + by rewrite (total_tenths_perm _ _ Hp).
    + by rewrite <- (Permutation_length Hp).
  - rewrite (score_exact (d :: ds)), (score_exact ds') by done.
    do 3 f_equal. apply py_round1_comp.
    by rewrite (total_weight_perm _ _ Hp).
Qed.


(** The exact model and the doubles return the same score: both the int 0,
    or a rational that is a whole number of tenths and the double nearest to
    it.  This is what the properties proved of the exact model say of the
    code. *)
Theorem score_agrees_on_doubles (ds : list (list (str * json))) :
  Forall (fun d => hashable (severity_of d) = true) ds ->
  (Z.of_nat (length ds) < 2 ^ 63)%Z ->
  exists exact_score score,
    _calculate_score (JArr (JObj <$> ds)) = Ok exact_score /\
    Binary64._calculate_score (JArr (JObj <$> ds)) = Ok score /\
    match exact_score, score with
    | Int x, Binary64.Int y => x = 0%Z /\ y = 0%Z
    | Float q, Binary64.Float f =>
        exists r, (0 < r <= 100)%Z /\ (q == r # 10)%Q
                  /\ Binary64.nearest (r # 10) f = true
    | _, _ => False
    end.
Proof.
  intros H Hlen. destruct ds as [|d ds].
  { exists (Float 10), (Binary64.Float Binary64.ten).
    split; [reflexivity|]. split; [reflexivity|].
    exists 100%Z. split; [lia|]. split; [done|]. by vm_compute. }
  pose proof (total_tenths_nonneg (d :: ds)) as Hk.
  pose proof (exact_score_tenths (d :: ds)) as Hq.
  set (q := py_round1 (10 - Qmin (total_weight (d :: ds)) 10)) in *.
  set (r := (100 - Z.min (total_tenths (d :: ds)) 100)%Z) in *.
  exists (py_max (Int 0) (Float q)), (Binary64.score_of_tenths (total_tenths (d :: ds))).
  split; [by apply score_exact|]. split; [by apply score_on_doubles|].
  unfold Binary64.score_of_tenths, py_max, num_lt. cbn [num_val].
  destruct (100 <=? total_tenths (d :: ds))%Z eqn:E.
  - apply Z.leb_le in E. assert (r = 0%Z) as Hr by (unfold r; lia). rewrite Hr in Hq.
    assert (Qle_bool q (inject_Z 0) = true) as ->; [|done].
    apply Qle_bool_iff. apply (Qle_trans _ (Qmax 0 q)); [apply Q.le_max_r|].
    rewrite Hq. by unfold Qle.
  - apply Z.leb_gt in E. assert (r = (100 - total_tenths (d :: ds))%Z) as Hr
      by (unfold r; lia).
    assert (Hpos : (0 < q)%Q).
    { destruct (Qlt_le_dec 0 q) as [|Hle]; [done|].
      rewrite Q.max_l in Hq by done. unfold Qeq in Hq. simpl in Hq. lia. }
    assert (Qle_bool q (inject_Z 0) = false) as ->.
    { apply not_true_is_false. intros Hle%Qle_bool_iff.
      apply (Qlt_irrefl 0). by eapply Qlt_le_trans. }
    cbn [negb]. exists r. split; [lia|]. split.
    + rewrite <- Hq. symmetry. apply Q.max_r. by apply Qlt_le_weak.
    + rewrite Hr. apply tenth_is_nearest. lia.
Qed.

(** ** The statements at concrete inputs *)

Lemma C1_score_formula_witness :
  exists score r,
    Binary64._calculate_score
      (JArr (JObj <$> [[(u "severity", JStr (u "medium"))];
                       [(u "severity", JStr (u "low"))]])) = Ok score /\
    (0 <= r <= 100)%Z /\
    (Qmax 0 (py_round1
               (10 - Qmin (total_weight [[(u "severity", JStr (u "medium"))];
                                         [(u "severity", JStr (u "low"))]]) 10))
     == r # 10)%Q /\
    match score with
    | Binary64.Int z => z = 0%Z /\ r = 0%Z
    | Binary64.Float f => (0 < r)%Z /\ Binary64.nearest (r # 10) f = true
    end.
Proof.
  destruct C1_score_formula as (_ & H & _).
  apply (H [[(u "severity", JStr (u "medium"))]; [(u "severity", JStr (u "low"))]]).
  - discriminate.
  - repeat constructor.
  - reflexivity.
Defined.

Lemma C2_counterexample :
  exists score,
    _calculate_score (JArr [JObj []]) = Ok score /\ ~ (num_val score == 10)%Q.
Proof. exists (Float (97 # 10)). split; [reflexivity|]. intros H. discriminate H. Qed.

Lemma C2_unknown_and_missing_severity_witness :
  _calculate_score (JArr [JObj [(u "severity", JStr (u "blocker"))]]) = Ok (Float 10) /\
  _calculate_score (JArr [JObj [(u "issue", JStr (u "tiny labels"))]]) = Ok (Float (97 # 10)).
Proof.
  destruct C2_unknown_and_missing_severity as (Hunknown & Hmissing & _).
  split.
  - destruct (Hunknown (u "blocker")) as (_ & H).
    + intros [H|[H|[H|H]]]; discriminate H.
    + apply (H [(u "severity", JStr (u "blocker"))]). reflexivity.
  - apply (Hmissing [(u "issue", JStr (u "tiny labels"))]). reflexivity.
Defined.

Lemma C3_fence_stripping_exact_witness :
  clean_fences (fenced_json (u "{}")) = u "{}" /\
  _parse_response Sample.exn_text Sample.json_loads (fenced_json (u "{}")) = Ok (JObj []) /\
  _parse_response Sample.exn_text Sample.json_loads (u "{}") = Ok (JObj []) /\
  clean_fences (nl ++ u "```json" ++ u "{}" ++ u "```" ++ [32%N]) = strip (u "{}") /\
  clean_fences ([] ++ u "```" ++ u "[1, 2]" ++ u "```" ++ []) = strip (u "[1, 2]").
Proof.
  destruct (C3_fence_stripping_exact Sample.exn_text Sample.json_loads)
    as (_ & _ & _ & Hpad & _ & _ & H).
  destruct (H (u "{}")) as (Hj & _ & _ & _ & Hv).
  - repeat split; reflexivity.
  - destruct (Hv (JObj [])) as (H1 & H2 & _); [reflexivity|].
    split; [exact Hj|]. split; [exact H1|]. split; [exact H2|]. split.
    + apply (Hpad nl (u "{}") [32%N]); by repeat constructor.
    + apply (Hpad [] (u "[1, 2]") []); [constructor|constructor|].
      intros t Ht. discriminate Ht.
Defined.

Lemma C4_unparseable_fallback_witness :
  evaluate Sample.exn_text Sample.json_loads (Sample.generate_content (u "not json"))
    Sample._create_evaluation_prompt (JObj []) =
  JObj [(u "raw_response", JStr (u "not json"));
        (u "parse_error", JStr Sample.decode_error_msg);
        (u "violations", JArr []); (u "overall_score", JNum (Float 10))].
Proof.
  destruct (C4_unparseable_fallback Sample.exn_text Sample.json_loads
              (Sample.generate_content (u "not json")) Sample._create_evaluation_prompt
              (u "not json") Sample.decode_error_msg) as (_ & _ & _ & _ & H).
  - reflexivity.
  - apply (H (JObj []) (u "evaluate")); reflexivity.
Defined.

Lemma C5_total_feedback_items_recomputed_witness :
  let items := [JObj [(u "id", JNum (Int 1)); (u "priority", JStr (u "high"))];
                JObj [(u "id", JNum (Int 2))]] in
  let d := [(u "feedback_items", JArr items);
            (u "total_feedback_items", JNum (Int 2));
            (u "quick_wins", JArr []);
            (u "platform", JStr (u "android"))] in
  generate_feedback Sample.exn_text Sample.json_loads_replies
    (Sample.generate_content Sample.feedback_reply)
    Sample._create_feedback_prompt (JObj []) (JObj []) (u "android") = JObj d /\
  lookup (u "total_feedback_items") d = Some (JNum (Int (Z.of_nat (length items)))).
Proof.
  cbv zeta.
  destruct (C5_total_feedback_items_recomputed Sample.exn_text Sample.json_loads_replies
              (Sample.generate_content Sample.feedback_reply)
              Sample._create_feedback_prompt (JObj []) (JObj []) (u "android")
              (JObj [(u "feedback_items",
                      JArr [JObj [(u "id", JNum (Int 1));
                                  (u "priority", JStr (u "high"))];
                            JObj [(u "id", JNum (Int 2))]]);
                     (u "total_feedback_items", JNum (Int 2));
                     (u "quick_wins", JArr []);
                     (u "platform", JStr (u "android"))]))
    as (Hresult & d & n & prompt & response_text & parsed & Hd & _ & _ & Hitems & _).
  - reflexivity.
  - split; [exact Hresult|]. injection Hd as <-.
    apply (Hitems [JObj [(u "id", JNum (Int 1)); (u "priority", JStr (u "high"))];
                   JObj [(u "id", JNum (Int 2))]]).
    reflexivity.
Defined.

Lemma C8_counterexample :
  let response_text :=
    u "Here is the page:" ++ nl ++ u "```html" ++ nl ++ u "<html></html>" ++ nl
      ++ u "```" ++ nl ++ u "Enjoy!" in
  _extract_html response_text = u "<html></html>" /\
  _extract_html response_text <> repair (clean_fences response_text) /\
  _extract_html response_text <> repair (prefix_suffix_trim (u "```html") response_text) /\
  prefix_suffix_trim (u "```html") response_text = response_text.
Proof. vm_compute. repeat split; discriminate. Qed.

Lemma C8_markup_extraction_witness :
  _extract_html
    (u "Use `html` like this:" ++ nl ++ u "```html" ++ nl ++ u "<p>`Hi`</p>" ++ nl
       ++ u "```" ++ nl ++ u "Done.")
  = html_shell (u "<p>`Hi`</p>").
Proof.
  destruct C8_markup_extraction as (_ & _ & H & _).
  rewrite (H (u "Use `html` like this:" ++ nl ++ u "```html" ++ nl ++ u "<p>`Hi`</p>"
                ++ nl ++ u "```" ++ nl ++ u "Done.")
             (u "Use `html` like this:" ++ nl)
             (nl ++ u "<p>`Hi`</p>" ++ nl ++ u "```" ++ nl ++ u "Done.")
             (nl ++ u "<p>`Hi`</p>" ++ nl) (nl ++ u "Done.")).
  - reflexivity.
  - exact (find_first_inv (u "```html")
             (u "Use `html` like this:" ++ nl ++ u "```html" ++ nl ++ u "<p>`Hi`</p>"
                ++ nl ++ u "```" ++ nl ++ u "Done.") 22 eq_refl).
  - exact (find_first_inv (u "```")
             (nl ++ u "<p>`Hi`</p>" ++ nl ++ u "```" ++ nl ++ u "Done.") 13 eq_refl).
Defined.

Lemma C9_counterexample :
  mixes_shapes
    (evaluate Sample.exn_text Sample.json_loads (Sample.generate_content (u "not json"))
       Sample._create_evaluation_prompt (JObj [])) = true /\
  mixes_shapes
    (generate_feedback Sample.exn_text Sample.json_loads
       (Sample.generate_content (u "not json")) Sample._create_feedback_prompt
       (JObj []) (JObj []) (u "android")) = true.
Proof. split; reflexivity. Qed.

Lemma C9_result_shapes_witness :
  _parse_response Sample.exn_text Sample.json_loads (u "not json") =
    Ok (JObj [(u "raw_response", JStr (u "not json"));
              (u "parse_error", JStr Sample.decode_error_msg)]) /\
  evaluate Sample.exn_text Sample.json_loads (fun _ => Raise (OtherError (u "503")))
    Sample._create_evaluation_prompt (JObj []) = JObj [(u "error", JStr (u "503"))].
Proof.
  destruct (C9_result_shapes Sample.exn_text Sample.json_loads
              (fun _ => Raise (OtherError (u "503")))
              Sample._create_evaluation_prompt Sample._create_feedback_prompt)
    as (Herr & _ & Hparse).
  split.
  - destruct (Hparse (u "not json") Sample.decode_error_msg) as (H & _); [reflexivity|exact H].
  - apply (Herr (JObj []) (OtherError (u "503"))). reflexivity.
Defined.

Lemma C10_feedback_parse_failure_witness :
  generate_feedback Sample.exn_text Sample.json_loads
    (Sample.generate_content (u "not json")) Sample._create_feedback_prompt
    (JObj []) (JObj []) (u "ios") =
  JObj [(u "raw_response", JStr (u "not json"));
        (u "parse_error", JStr Sample.decode_error_msg);
        (u "feedback_items", JArr []); (u "platform", JStr (u "ios"));
        (u "total_feedback_items", JNum (Int 0))].
Proof.
  apply (C10_feedback_parse_failure Sample.exn_text Sample.json_loads
           (Sample.generate_content (u "not json")) Sample._create_feedback_prompt
           (JObj []) (JObj []) (u "ios") (u "feedback for ios") (u "not json")
           Sample.decode_error_msg); reflexivity.
Defined.

Lemma developer_report_structure_witness :
  exists doc d items front b_critical b_high b_medium b_low visual texts,
    generate_developer_report Sample.py_repr Sample.feedback_result = Ok doc /\
    Sample.feedback_result = JObj d /\
    elements (default (JArr []) (lookup (u "feedback_items") d)) items /\
    front ++ [JStr (u "## " ++ [0x1F527%N] ++ u " Detailed Feedback" ++ nl)]
      ++ b_critical ++ b_high ++ b_medium ++ b_low ++ visual = map JStr texts /\
    doc = join_text nl texts /\
    is_front_matter Sample.py_repr
      (default (JObj []) (lookup (u "summary") d))
      (default (JArr []) (lookup (u "quick_wins") d)) front /\
    is_bucket Sample.py_repr (u "critical") items b_critical /\
    is_bucket Sample.py_repr (u "high") items b_high /\
    is_bucket Sample.py_repr (u "medium") items b_medium /\
    is_bucket Sample.py_repr (u "low") items b_low /\
    is_visual_section Sample.py_repr
      (default (JObj []) (lookup (u "wireframe_instructions") d)) visual.
Proof.
  destruct (generate_developer_report Sample.py_repr Sample.feedback_result)
    as [doc|e] eqn:E; [|vm_compute in E; discriminate E].
  destruct (developer_report_structure Sample.py_repr Sample.feedback_result doc E)
    as (d & items & front & b1 & b2 & b3 & b4 & visual & texts & H).
  exists doc, d, items, front, b1, b2, b3, b4, visual, texts.
  split; [reflexivity|exact H].
Defined.

(** The buckets of the sample, read off the rendered lines: the critical
    item comes first, the two low items follow in their input order, and no
    heading appears for the empty high and medium buckets. *)
Example sample_bucket_lines :
  match developer_report_lines Sample.py_repr Sample.feedback_result [] with
  | Ok (_, report) =>
      List.filter (fun x => match x with
                            | JStr s => startswith s (u "###")
                            | _ => false
                            end) report
  | Raise _ => []
  end =
  [JStr (u "### CRITICAL Priority (1 items)" ++ nl);
   JStr (u "#### 2. Fix contrast" ++ nl);
   JStr (u "### LOW Priority (2 items)" ++ nl);
   JStr (u "#### 1. Tidy spacing" ++ nl);
   JStr (u "#### 3. Rename label" ++ nl)].
Proof. by vm_compute. Qed.

Lemma C7_counterexample :
  generate_developer_report Sample.py_repr
    (JObj [(u "summary", JStr (u "two issues found"))])
  = Raise (AttributeError (u "str") (u "get")) /\
  exists lines,
    lines_of (developer_report_lines Sample.py_repr (JObj [])) = Ok lines /\
    last lines = Some detailed_heading.
Proof. split; [reflexivity|]. eexists. split; reflexivity. Qed.

Lemma C7_report_total_on_typed_input_witness :
  exists doc, generate_developer_report Sample.py_repr Sample.feedback_result = Ok doc.
Proof.
  destruct (C7_report_total_on_typed_input Sample.py_repr) as (H & _).
  apply (H Sample.feedback_result). reflexivity.
Defined.

(** ** The further properties at concrete inputs *)

Lemma score_order_independent_witness :
  Binary64._calculate_score
    (JArr (JObj <$> (replicate 10 [(u "severity", JStr (u "low"))]
                     ++ replicate 6 [(u "severity", JStr (u "medium"))])))
  = Binary64._calculate_score
      (JArr (JObj <$> (replicate 6 [(u "severity", JStr (u "medium"))]
                       ++ replicate 10 [(u "severity", JStr (u "low"))]))) /\
  _calculate_score
    (JArr (JObj <$> (replicate 10 [(u "severity", JStr (u "low"))]
                     ++ replicate 6 [(u "severity", JStr (u "medium"))])))
  = _calculate_score
      (JArr (JObj <$> (replicate 6 [(u "severity", JStr (u "medium"))]
                       ++ replicate 10 [(u "severity", JStr (u "low"))]))).
Proof.
  apply score_order_independent.
  - repeat constructor.
  - apply Permutation_app_comm.
  - reflexivity.
Defined.


Lemma score_agrees_on_doubles_witness :
  exists exact_score score,
    _calculate_score (JArr (replicate 33 (violation_with "low"))) = Ok exact_score /\
    Binary64._calculate_score (JArr (replicate 33 (violation_with "low"))) = Ok score /\
    match exact_score, score with
    | Int x, Binary64.Int y => x = 0%Z /\ y = 0%Z
    | Float q, Binary64.Float f =>
        exists r, (0 < r <= 100)%Z /\ (q == r # 10)%Q
                  /\ Binary64.nearest (r # 10) f = true
    | _, _ => False
    end.
Proof.
  apply (score_agrees_on_doubles (replicate 33 [(u "severity", JStr (u "low"))])).
  - repeat constructor.
  - reflexivity.
Defined.

Lemma score_antitone_witness :
  exists before after,
    _calculate_score (JArr (JObj <$> [[(u "severity", JStr (u "low"))]] ++ [])) = Ok before /\
    _calculate_score (JArr (JObj <$> [[(u "severity", JStr (u "low"))]]
                                     ++ [(u "severity", JStr (u "high"))] :: []))
    = Ok after /\
    (num_val after <= num_val before)%Q.
Proof.
  apply (score_antitone [[(u "severity", JStr (u "low"))]] []
           [(u "severity", JStr (u "high"))]).
  repeat constructor.
Defined.

Lemma score_defined_on_scorable_lists_witness :
  (exists score, _calculate_score (JArr [JObj []; violation_with "high"]) = Ok score
                 /\ (0 <= num_val score <= 10)%Q) /\
  _calculate_score (JArr [JObj []; JStr (u "contrast"); JNull])
  = Raise (AttributeError (u "str") (u "get")).
Proof.
  split.
  - destruct (score_defined_on_scorable_lists [JObj []; violation_with "high"]) as [H _].
    apply H. repeat constructor.
  - destruct (score_defined_on_scorable_lists [JObj []; JStr (u "contrast"); JNull])
      as [_ H].
    apply (H [JObj []] (JStr (u "contrast")) [JNull]);
      [reflexivity|repeat constructor|reflexivity].
Defined.

Lemma evaluate_keeps_decoded_fields_witness :
  let result :=
    JObj [(u "violations", JArr [JObj [(u "severity", JStr (u "high"))]]);
          (u "overall_score", JNum (Float 7));
          (u "strengths", JArr [JObj [(u "observation", JStr (u "Clear labels"))]])] in
  exists prompt response_text parsed score,
    Sample._create_evaluation_prompt (JObj []) = Ok prompt /\
    Sample.generate_content Sample.evaluation_reply prompt = Ok response_text /\
    _parse_evaluation_response Sample.exn_text Sample.json_loads_replies response_text
    = Ok (JObj parsed) /\
    _calculate_score (default (JArr []) (lookup (u "violations") parsed)) = Ok score /\
    result = JObj (dict_set (u "overall_score") (JNum score) parsed) /\
    (forall d, result = JObj d ->
       lookup (u "overall_score") d = Some (JNum score) /\
       forall k, k <> u "overall_score" -> lookup k d = lookup k parsed).
Proof.
  apply (evaluate_keeps_decoded_fields Sample.exn_text Sample.json_loads_replies
           (Sample.generate_content Sample.evaluation_reply)
           Sample._create_evaluation_prompt (JObj [])).
  reflexivity.
Defined.

Lemma evaluate_rejects_unscorable_witness :
  evaluate Sample.exn_text Sample.json_loads (Sample.generate_content (u "[]"))
    Sample._create_evaluation_prompt (JObj [])
  = JObj [(u "error", JStr (u "'list' object has no attribute 'get'"))] /\
  evaluate Sample.exn_text
    (fun _ => Ok (JObj [(u "violations", JArr [JObj []; JStr (u "contrast")])]))
    (Sample.generate_content (u "{}")) Sample._create_evaluation_prompt (JObj [])
  = JObj [(u "error", JStr (u "'str' object has no attribute 'get'"))].
Proof.
  split.
  - destruct (evaluate_rejects_unscorable Sample.exn_text Sample.json_loads
                (Sample.generate_content (u "[]")) Sample._create_evaluation_prompt
                (JObj []) (u "evaluate") (u "[]")) as [H _]; [reflexivity|reflexivity|].
    apply (H (JArr [])); reflexivity.
  - destruct (evaluate_rejects_unscorable Sample.exn_text
                (fun _ => Ok (JObj [(u "violations", JArr [JObj []; JStr (u "contrast")])]))
                (Sample.generate_content (u "{}")) Sample._create_evaluation_prompt
                (JObj []) (u "evaluate") (u "{}")) as [_ H]; [reflexivity|reflexivity|].
    apply (H [(u "violations", JArr [JObj []; JStr (u "contrast")])]
             [JObj []] (JStr (u "contrast")) []);
      [reflexivity|reflexivity|repeat constructor|reflexivity].
Defined.

Lemma generate_feedback_keeps_decoded_fields_witness :
  let result :=
    JObj [(u "feedback_items",
           JArr [JObj [(u "id", JNum (Int 1)); (u "priority", JStr (u "high"))];
                 JObj [(u "id", JNum (Int 2))]]);
          (u "total_feedback_items", JNum (Int 2));
          (u "quick_wins", JArr []);
          (u "platform", JStr (u "ios"))] in
  exists prompt response_text parsed n,
    Sample._create_feedback_prompt (JObj []) (JObj []) (u "ios") = Ok prompt /\
    Sample.generate_content Sample.feedback_reply prompt = Ok response_text /\
    _parse_feedback_response Sample.exn_text Sample.json_loads_replies response_text
    = Ok (JObj parsed) /\
    has_length (default (JArr []) (lookup (u "feedback_items") parsed)) n /\
    result = JObj (dict_set (u "total_feedback_items") (JNum (Int (Z.of_nat n)))
                     (dict_set (u "platform") (JStr (u "ios")) parsed)) /\
    (forall d, result = JObj d ->
       lookup (u "platform") d = Some (JStr (u "ios")) /\
       lookup (u "total_feedback_items") d = Some (JNum (Int (Z.of_nat n))) /\
       forall k, k <> u "platform" -> k <> u "total_feedback_items" ->
         lookup k d = lookup k parsed).
Proof.
  apply (generate_feedback_keeps_decoded_fields Sample.exn_text Sample.json_loads_replies
           (Sample.generate_content Sample.feedback_reply) Sample._create_feedback_prompt
           (JObj []) (JObj []) (u "ios")).
  reflexivity.
Defined.

Lemma generate_feedback_unsized_items_witness :
  generate_feedback Sample.exn_text Sample.json_loads (Sample.generate_content (u "[]"))
    Sample._create_feedback_prompt (JObj []) (JObj []) (u "ios")
  = JObj [(u "error", JStr (u "list indices must be integers or slices, not str"))] /\
  generate_feedback Sample.exn_text
    (fun _ => Ok (JObj [(u "feedback_items", JNum (Int 3))]))
    (Sample.generate_content (u "{}")) Sample._create_feedback_prompt
    (JObj []) (JObj []) (u "ios")
  = JObj [(u "error", JStr (u "object of type 'int' has no len()"))] /\
  exists d,
    generate_feedback Sample.exn_text Sample.json_loads_replies
      (Sample.generate_content Sample.text_items_reply) Sample._create_feedback_prompt
      (JObj []) (JObj []) (u "ios") = JObj d /\
    lookup (u "total_feedback_items") d = Some (JNum (Int 4)).
Proof.
  split; [|split].
  - destruct (generate_feedback_unsized_items Sample.exn_text Sample.json_loads
                (Sample.generate_content (u "[]")) Sample._create_feedback_prompt
                (JObj []) (JObj []) (u "ios") (u "feedback for ios") (u "[]"))
      as (H & _ & _); [reflexivity|reflexivity|].
    apply (H (JArr [])); reflexivity.
  - destruct (generate_feedback_unsized_items Sample.exn_text
                (fun _ => Ok (JObj [(u "feedback_items", JNum (Int 3))]))
                (Sample.generate_content (u "{}")) Sample._create_feedback_prompt
                (JObj []) (JObj []) (u "ios") (u "feedback for ios") (u "{}"))
      as (_ & H & _); [reflexivity|reflexivity|].
    apply (H [(u "feedback_items", JNum (Int 3))] (JNum (Int 3))); reflexivity.
  - destruct (generate_feedback_unsized_items Sample.exn_text Sample.json_loads_replies
                (Sample.generate_content Sample.text_items_reply)
                Sample._create_feedback_prompt
                (JObj []) (JObj []) (u "ios") (u "feedback for ios")
                Sample.text_items_reply)
      as (_ & _ & H); [reflexivity|reflexivity|].
    apply (H [(u "feedback_items", JStr (u "none"))] (u "none")); reflexivity.
Defined.

Lemma clean_fences_one_sided_witness :
  clean_fences (u "```json" ++ [] ++ u "{}") = u "{}" /\
  clean_fences (u "```" ++ [] ++ u "{}") = u "{}" /\
  clean_fences (u "{}" ++ [] ++ u "```") = u "{}".
Proof.
  apply (clean_fences_one_sided (u "{}") []).
  - exists []. reflexivity.
  - constructor.
Defined.

Lemma extract_html_idempotent_witness :
  _extract_html (_extract_html (u "<p>Hi</p>")) = _extract_html (u "<p>Hi</p>").
Proof. apply extract_html_idempotent. reflexivity. Defined.

Lemma extract_html_unclosed_fence_truncates_witness :
  _extract_html (u "```html" ++ nl ++ u "<p>`Hi`</p></html>") = html_shell (u "<p>`Hi`</p></html") /\
  _extract_html (u "Page:" ++ nl ++ u "```" ++ nl ++ u "<html></html>")
  = u "<html></html".
Proof.
  split.
  - destruct (extract_html_unclosed_fence_truncates
                (u "```html" ++ nl ++ u "<p>`Hi`</p></html>") []
                (nl ++ u "<p>`Hi`</p></html>")) as [H _].
    + exact (find_none_inv (u "```") (nl ++ u "<p>`Hi`</p></html>") eq_refl).
    + rewrite H; [reflexivity|].
      exact (find_first_inv (u "```html")
               (u "```html" ++ nl ++ u "<p>`Hi`</p></html>") 0 eq_refl).
  - destruct (extract_html_unclosed_fence_truncates
                (u "Page:" ++ nl ++ u "```" ++ nl ++ u "<html></html>")
                (u "Page:" ++ nl) (nl ++ u "<html></html>")) as [_ H].
    + exact (find_none_inv (u "```") (nl ++ u "<html></html>") eq_refl).
    + rewrite H; [reflexivity| |].
      * exact (find_none_inv (u "```html")
                 (u "Page:" ++ nl ++ u "```" ++ nl ++ u "<html></html>") eq_refl).
      * exact (find_first_inv (u "```")
                 (u "Page:" ++ nl ++ u "```" ++ nl ++ u "<html></html>") 6 eq_refl).
Defined.

Lemma evaluation_report_severity_groups_witness :
  exists doc d section rest texts,
    generate_report Sample.py_repr Sample.evaluation_result = Ok doc /\
    Sample.evaluation_result = JObj d /\
    evaluation_report_head Sample.py_repr
      (default (JNum (Int 0)) (lookup (u "overall_score") d))
      ++ section ++ rest = map JStr texts /\
    doc = join_text nl texts /\
    is_violations_section Sample.py_repr
      (default (JArr []) (lookup (u "violations") d)) section.
Proof.
  destruct (generate_report Sample.py_repr Sample.evaluation_result)
    as [doc|e] eqn:E; [|vm_compute in E; discriminate E].
  destruct (evaluation_report_severity_groups Sample.py_repr Sample.evaluation_result doc E)
    as (d & section & rest & texts & H).
  exists doc, d, section, rest, texts. split; [reflexivity|exact H].
Defined.

Lemma evaluation_report_without_findings_witness :
  generate_report Sample.py_repr (JObj [(u "error", JStr (u "503"))])
  = Ok (bare_evaluation_report Sample.py_repr (JNum (Int 0))).
Proof.
  destruct (evaluation_report_without_findings Sample.py_repr
              [(u "error", JStr (u "503"))]) as [_ H]; [reflexivity..|].
  apply H. reflexivity.
Defined.

Lemma evaluation_failures_in_report_witness :
  generate_report Sample.py_repr
    (evaluate Sample.exn_text Sample.json_loads (fun _ => Raise (OtherError (u "503")))
       Sample._create_evaluation_prompt (JObj []))
  = Ok (bare_evaluation_report Sample.py_repr (JNum (Int 0))) /\
  generate_report Sample.py_repr
    (evaluate Sample.exn_text Sample.json_loads (Sample.generate_content (u "not json"))
       Sample._create_evaluation_prompt (JObj []))
  = Ok (bare_evaluation_report Sample.py_repr (JNum (Float 10))).
Proof.
  split.
  - destruct (evaluation_failures_in_report Sample.exn_text Sample.json_loads
                (fun _ => Raise (OtherError (u "503"))) Sample._create_evaluation_prompt
                Sample.py_repr (JObj [])) as [H _].
    apply (H (OtherError (u "503"))). reflexivity.
  - destruct (evaluation_failures_in_report Sample.exn_text Sample.json_loads
                (Sample.generate_content (u "not json")) Sample._create_evaluation_prompt
                Sample.py_repr (JObj [])) as [_ H].
    apply (H (u "evaluate") (u "not json") Sample.decode_error_msg); reflexivity.
Defined.

Lemma evaluation_report_unlisted_violations_witness :
  lines_of (violations_section Sample.py_repr
              (JArr [JObj []; JObj [(u "severity", JStr (u "Critical"))]]))
  = Ok [line [nl; rule 61]; line [u "VIOLATIONS FOUND ("; u "2"; u ")"];
        line [rule 61; nl]].
Proof.
  destruct (evaluation_report_unlisted_violations Sample.py_repr
              [JObj []; JObj [(u "severity", JStr (u "Critical"))]]) as [_ H].
  - repeat constructor.
  - apply H; [discriminate|reflexivity].
Defined.

Lemma evaluation_report_total_on_typed_input_witness :
  exists doc, generate_report Sample.py_repr Sample.evaluation_result = Ok doc.
Proof.
  destruct (evaluation_report_total_on_typed_input Sample.py_repr) as (H & _).
  apply (H Sample.evaluation_result). reflexivity.
Defined.

(** The severity groups of the sample, read off the rendered lines: the
    heading counts all three violations, the critical group comes before
    the low one, each numbered from 1, and the violation with the unlisted
    severity appears in neither. *)
Example sample_severity_groups :
  match evaluation_report_lines Sample.py_repr Sample.evaluation_result [] with
  | Ok (_, report) =>
      List.filter (fun x => match x with
                            | JStr s => contains s (u "Severity (")
                                        || contains s (u "VIOLATIONS")
                                        || startswith s (nl ++ u "1. ")
                                        || startswith s (nl ++ u "2. ")
                            | _ => false
                            end) report
  | Raise _ => []
  end =
  [JStr (u "VIOLATIONS FOUND (3)");
   JStr (nl ++ u "CRITICAL Severity (1):");
   JStr (nl ++ u "1. Error prevention");
   JStr (nl ++ u "LOW Severity (1):");
   JStr (nl ++ u "1. Aesthetic and minimalist design")].
Proof. by vm_compute. Qed.

(** ** The prompts, the viewer page and the stages in sequence at concrete inputs *)

Lemma evaluation_prompt_reads_five_fields_witness :
  create_evaluation_prompt Sample.py_repr Sample.json_dumps Sample.heuristics
    Sample.key_error Sample.subscript_error
    (JObj [(u "layout_structure", JStr (u "single column"))])
  = create_evaluation_prompt Sample.py_repr Sample.json_dumps Sample.heuristics
      Sample.key_error Sample.subscript_error (JObj []) /\
  create_evaluation_prompt Sample.py_repr Sample.json_dumps Sample.heuristics
    Sample.key_error Sample.subscript_error (JObj [(u "components", JNum (Int 4))])
  = Raise (TypeError NoLen (u "int")).
Proof.
  destruct (evaluation_prompt_reads_five_fields Sample.py_repr Sample.json_dumps
              Sample.heuristics Sample.key_error Sample.subscript_error)
    as (Hsame & _ & Hlen).
  split.
  - apply Hsame. repeat constructor.
  - apply Hlen. reflexivity.
Defined.

Lemma feedback_prompt_reads_four_fields_witness :
  create_feedback_prompt Sample.py_repr Sample.json_dumps
    (JObj [(u "typography", JNull)]) (JObj [(u "overall_score", JNum (Int 0))])
    (u "android")
  = create_feedback_prompt Sample.py_repr Sample.json_dumps (JObj []) (JObj [])
      (u "android") /\
  create_feedback_prompt Sample.py_repr Sample.json_dumps (JObj []) (JArr []) (u "android")
  = Raise (AttributeError (u "list") (u "get")).
Proof.
  destruct (feedback_prompt_reads_four_fields Sample.py_repr Sample.json_dumps)
    as (Hsame & Hraise & _).
  split.
  - apply Hsame; repeat constructor.
  - apply (Hraise (JObj []) (JArr []) (u "android")). reflexivity.
Defined.

Lemma wireframe_prompt_first_ten_components_witness :
  _create_wireframe_prompt Sample.py_repr Sample.json_dumps Sample.subscript_error
    (JObj (dict_set (u "components") (JArr (take 10 (replicate 12 JNull)))
             [(u "components", JArr (replicate 12 JNull))]))
    (JObj [])
  = _create_wireframe_prompt Sample.py_repr Sample.json_dumps Sample.subscript_error
      (JObj [(u "components", JArr (replicate 12 JNull))]) (JObj []) /\
  _create_wireframe_prompt Sample.py_repr Sample.json_dumps Sample.subscript_error
    (JObj [(u "components", JNum (Int 4))]) (JObj [])
  = Raise (Sample.subscript_error (JNum (Int 4))).
Proof.
  destruct (wireframe_prompt_first_ten_components Sample.py_repr Sample.json_dumps
              Sample.subscript_error) as (Hten & _ & Hraise).
  split.
  - apply Hten. reflexivity.
  - apply (Hraise [(u "components", JNum (Int 4))] [] (JNum (Int 4))); reflexivity.
Defined.

Lemma heuristics_text_shape_witness :
  exists doc c entries hs blocks texts,
    _format_heuristics_for_prompt Sample.py_repr Sample.heuristics Sample.key_error
      Sample.subscript_error = Ok doc /\
    Sample.heuristics = JObj c /\ lookup (u "heuristics") c = Some entries /\
    elements entries hs /\
    Forall2 (is_heuristic_block Sample.py_repr) hs blocks /\
    concat blocks = map JStr texts /\ doc = join_text nl texts.
Proof.
  destruct (heuristics_text_shape Sample.py_repr Sample.json_dumps Sample.heuristics
              Sample.key_error Sample.subscript_error) as [H _].
  destruct (_format_heuristics_for_prompt Sample.py_repr Sample.heuristics
              Sample.key_error Sample.subscript_error) as [doc|e] eqn:E;
    [|vm_compute in E; discriminate E].
  destruct (H doc eq_refl) as (c & entries & hs & blocks & texts & Hshape).
  exists doc, c, entries, hs, blocks, texts. split; [reflexivity|exact Hshape].
Defined.

Lemma complete_html_srcdoc_escaped_witness :
  exists page pre post,
    _create_complete_html Sample.py_repr (u "<p class='note'>It's done</p>")
      (JObj []) (JObj []) = Ok page /\
    page = pre ++ u "srcdoc='" ++ u "<p class=&#39;note&#39;>It&#39;s done</p>" ++ u "'"
           ++ post.
Proof.
  destruct (_create_complete_html Sample.py_repr (u "<p class='note'>It's done</p>")
              (JObj []) (JObj [])) as [page|e] eqn:E; [|discriminate E].
  destruct (complete_html_srcdoc_escaped Sample.py_repr
              (u "<p class='note'>It's done</p>") (JObj []) (JObj []) page E)
    as ((pre & post & Hpage) & _).
  exists page, pre, post. split; [reflexivity|exact Hpage].
Defined.

Lemma complete_html_reads_summary_only_witness :
  _create_complete_html Sample.py_repr (u "<p>Hi</p>") (JObj [])
    (JObj [(u "error", JStr (u "503"))])
  = _create_complete_html Sample.py_repr (u "<p>Hi</p>") (JObj []) (JObj []) /\
  _create_complete_html Sample.py_repr (u "<p>Hi</p>") (JObj [])
    (JObj [(u "summary", JStr (u "two issues found"))])
  = Raise (AttributeError (u "str") (u "get")).
Proof.
  destruct (complete_html_reads_summary_only Sample.py_repr (u "<p>Hi</p>"))
    as (_ & _ & Hnone & Hraise).
  split.
  - apply Hnone. reflexivity.
  - apply (Hraise (JObj []) [(u "summary", JStr (u "two issues found"))]
             (JStr (u "two issues found"))); reflexivity.
Defined.

Lemma generate_wireframe_result_shape_witness :
  generate_wireframe Sample.exn_text (Sample.generate_content (u "<p>Hi</p>"))
    Sample.py_repr Sample.json_dumps Sample.subscript_error Sample._save_html_full
    Sample.timestamp (JObj []) (JObj [])
  = JObj [(u "error", JStr (u "[Errno 28] No space left on device"))].
Proof.
  destruct (generate_wireframe_result_shape Sample.exn_text
              (Sample.generate_content (u "<p>Hi</p>")) Sample.py_repr Sample.json_dumps
              Sample.subscript_error Sample._save_html_full Sample.timestamp
              (JObj []) (JObj [])) as [_ H].
  destruct (_create_wireframe_prompt Sample.py_repr Sample.json_dumps
              Sample.subscript_error (JObj []) (JObj [])) as [prompt|e] eqn:Ep;
    [|discriminate Ep].
  destruct (_create_complete_html Sample.py_repr (_extract_html (u "<p>Hi</p>"))
              (JObj []) (JObj [])) as [page|e] eqn:Eh; [|discriminate Eh].
  apply (H prompt (u "<p>Hi</p>") page
           (OtherError (u "[Errno 28] No space left on device")));
    reflexivity || assumption.
Defined.

Lemma feedback_failures_in_developer_report_witness :
  generate_developer_report Sample.py_repr
    (generate_feedback Sample.exn_text Sample.json_loads
       (fun _ => Raise (OtherError (u "503"))) Sample._create_feedback_prompt
       (JObj []) (JObj []) (u "android"))
  = Ok (join_text nl empty_report) /\
  generate_developer_report Sample.py_repr
    (generate_feedback Sample.exn_text Sample.json_loads
       (Sample.generate_content (u "not json")) Sample._create_feedback_prompt
       (JObj []) (JObj []) (u "android"))
  = Ok (join_text nl empty_report).
Proof.
  split.
  - destruct (feedback_failures_in_developer_report Sample.exn_text Sample.json_loads
                (fun _ => Raise (OtherError (u "503"))) Sample._create_feedback_prompt
                Sample.py_repr (JObj []) (JObj []) (u "android")) as [H _].
    apply (H (OtherError (u "503"))). reflexivity.
  - destruct (feedback_failures_in_developer_report Sample.exn_text Sample.json_loads
                (Sample.generate_content (u "not json")) Sample._create_feedback_prompt
                Sample.py_repr (JObj []) (JObj []) (u "android")) as [_ H].
    apply (H (u "feedback for android") (u "not json") Sample.decode_error_msg);
      reflexivity.
Defined.

Lemma failed_analysis_is_read_as_empty_witness :
  analyze_screenshot Sample.exn_text Sample.json_loads Sample.read_image_missing
    (Sample.generate_image_content (u "{}")) (u "missing.png")
  = JObj [(u "error", JStr (u "[Errno 2] No such file or directory"))] /\
  evaluate Sample.exn_text Sample.json_loads (Sample.generate_content (u "{}"))
    (create_evaluation_prompt Sample.py_repr Sample.json_dumps Sample.heuristics
       Sample.key_error Sample.subscript_error)
    (JObj [(u "error", JStr (u "[Errno 2] No such file or directory"))])
  = evaluate Sample.exn_text Sample.json_loads (Sample.generate_content (u "{}"))
      (create_evaluation_prompt Sample.py_repr Sample.json_dumps Sample.heuristics
         Sample.key_error Sample.subscript_error)
      (JObj []).
Proof.
  destruct (failed_analysis_is_read_as_empty Sample.exn_text Sample.json_loads
              (Sample.generate_content (u "{}")) Sample.py_repr Sample.json_dumps
              Sample.heuristics Sample.key_error Sample.subscript_error
              Sample.read_image_missing (Sample.generate_image_content (u "{}"))
              Sample._save_html Sample.timestamp) as (Hdown & Hread & _).
  split.
  - apply (Hread (u "missing.png")
             (OtherError (u "[Errno 2] No such file or directory"))).
    reflexivity.
  - destruct (Hdown (JObj [(u "error", JStr (u "[Errno 2] No such file or directory"))]))
      as [H _]; [|exact H].
    left. exists (OtherError (u "[Errno 2] No such file or directory")). reflexivity.
Defined.

Lemma failed_evaluation_is_read_as_clean_witness :
  generate_feedback Sample.exn_text Sample.json_loads
    (Sample.generate_content (u "not json"))
    (create_feedback_prompt Sample.py_repr Sample.json_dumps) (JObj [])
    (evaluate Sample.exn_text Sample.json_loads (Sample.generate_content (u "not json"))
       (create_evaluation_prompt Sample.py_repr Sample.json_dumps Sample.heuristics
          Sample.key_error Sample.subscript_error) (JObj []))
    (u "android")
  = generate_feedback Sample.exn_text Sample.json_loads
      (Sample.generate_content (u "not json"))
      (create_feedback_prompt Sample.py_repr Sample.json_dumps) (JObj []) (JObj [])
      (u "android").
Proof.
  destruct (failed_evaluation_is_read_as_clean Sample.exn_text Sample.json_loads
              (Sample.generate_content (u "not json")) Sample.py_repr Sample.json_dumps
              Sample.heuristics Sample.key_error Sample.subscript_error
              (JObj []) (u "android")) as [_ H].
  destruct (create_evaluation_prompt Sample.py_repr Sample.json_dumps Sample.heuristics
              Sample.key_error Sample.subscript_error (JObj [])) as [prompt|e] eqn:Ep;
    [|vm_compute in Ep; discriminate Ep].
  apply (H prompt (u "not json") Sample.decode_error_msg); reflexivity.
Defined.

Lemma failed_feedback_is_read_as_empty_witness :
  generate_wireframe Sample.exn_text (fun _ => Raise (OtherError (u "503")))
    Sample.py_repr Sample.json_dumps Sample.subscript_error Sample._save_html
    Sample.timestamp (JObj [])
    (generate_feedback Sample.exn_text Sample.json_loads
       (fun _ => Raise (OtherError (u "503")))
       (create_feedback_prompt Sample.py_repr Sample.json_dumps) (JObj []) (JObj [])
       (u "android"))
  = generate_wireframe Sample.exn_text (fun _ => Raise (OtherError (u "503")))
      Sample.py_repr Sample.json_dumps Sample.subscript_error Sample._save_html
      Sample.timestamp (JObj []) (JObj []).
Proof.
  destruct (failed_feedback_is_read_as_empty Sample.exn_text Sample.json_loads
              (fun _ => Raise (OtherError (u "503"))) Sample.py_repr Sample.json_dumps
              Sample.subscript_error Sample._save_html Sample.timestamp
              (JObj []) (JObj []) (u "android")) as [H _].
  apply (H (OtherError (u "503"))). reflexivity.
Defined.

Lemma non_object_analysis_fails_every_stage_witness :
  let failure := JObj [(u "error", JStr (u "'list' object has no attribute 'get'"))] in
  let vision_result :=
    analyze_screenshot Sample.exn_text Sample.json_loads Sample.read_image
      (Sample.generate_image_content (u "[]")) (u "screen.png") in
  let evaluation_result :=
    evaluate Sample.exn_text Sample.json_loads (Sample.generate_content (u "{}"))
      (create_evaluation_prompt Sample.py_repr Sample.json_dumps Sample.heuristics
         Sample.key_error Sample.subscript_error)
      vision_result in
  let feedback_result :=
    generate_feedback Sample.exn_text Sample.json_loads (Sample.generate_content (u "{}"))
      (create_feedback_prompt Sample.py_repr Sample.json_dumps) vision_result
      evaluation_result (u "android") in
  vision_result = JArr [] /\
  evaluation_result = failure /\
  feedback_result = failure /\
  generate_wireframe Sample.exn_text (Sample.generate_content (u "{}")) Sample.py_repr
    Sample.json_dumps Sample.subscript_error Sample._save_html Sample.timestamp
    vision_result feedback_result = failure.
Proof.
  apply (non_object_analysis_fails_every_stage Sample.exn_text Sample.json_loads
           (Sample.generate_content (u "{}")) Sample.py_repr Sample.json_dumps
           Sample.heuristics Sample.key_error Sample.subscript_error Sample.read_image
           (Sample.generate_image_content (u "[]")) Sample._save_html Sample.timestamp
           (u "screen.png") [] (u "[]") (JArr []) (u "android")); reflexivity.
Defined.

(** The heuristics of the sample configuration as the prompt shows them:
    the fourth mobile consideration is left out. *)
Example sample_heuristics_text :
  _format_heuristics_for_prompt Sample.py_repr Sample.heuristics Sample.key_error
    Sample.subscript_error
  = Ok (text [u "1. Visibility of system status";
              u "   Description: Keep users informed";
              u "   Mobile considerations: loading, progress, feedback";
              []]) /\
  _format_mobile_guidelines Sample.py_repr Sample.heuristics Sample.key_error
    Sample.subscript_error
  = Ok (text [u "**Touch Targets:**"; u "  - Minimum 44px"; []]).
Proof. by vm_compute. Qed.

(** ** The score on IEEE doubles at concrete inputs

    The rational model and the binary64 model return the same numbers; in
    the last two lists the running sum of doubles is inexact
    (33 x 0.3 gives 9.900000000000002) and the rounding to one decimal
    absorbs the error. *)

Example binary64_scores :
  Binary64._calculate_score (JArr []) = Ok (Binary64.Float Binary64.ten) /\
  Binary64._calculate_score (JArr [violation_with "critical"]) = Ok (Binary64.Int 0) /\
  Binary64._calculate_score (JArr (replicate 3 (violation_with "high")))
    = Ok (Binary64.Float Binary64.one) /\
  Binary64._calculate_score (JArr (replicate 4 (violation_with "high")))
    = Ok (Binary64.Int 0) /\
  Binary64._calculate_score (JArr [violation_with "unknown"]) = Ok (Binary64.Float Binary64.ten) /\
  Binary64._calculate_score (JArr [JObj []])
    = Ok (Binary64.Float Binary64.nine_point_seven) /\
  Binary64._calculate_score
    (JArr [violation_with "medium"; violation_with "low"; violation_with "low";
           violation_with "high"])
    = Ok (Binary64.Float Binary64.five_point_four) /\
  Binary64._calculate_score (JArr (replicate 33 (violation_with "low")))
    = Ok (Binary64.Float Binary64.one_tenth) /\
  Binary64._calculate_score
    (JArr (replicate 10 (violation_with "low") ++ replicate 7 (violation_with "medium")))
    = Ok (Binary64.Int 0).
Proof. by vm_compute. Qed.

Example rational_scores :
  _calculate_score (JArr [JObj []]) = Ok (Float (97 # 10)) /\
  _calculate_score
    (JArr [violation_with "medium"; violation_with "low"; violation_with "low";
           violation_with "high"])
    = Ok (Float (27 # 5)) /\
  _calculate_score (JArr (replicate 33 (violation_with "low"))) = Ok (Float (1 # 10)) /\
  _calculate_score
    (JArr (replicate 10 (violation_with "low") ++ replicate 7 (violation_with "medium")))
    = Ok (Int 0).
Proof. by vm_compute. Qed.

(** ** A fence that is never closed

    Without a closing fence [find] returns [-1], which the slice reads as
    "up to the last character": the final [>] of the markup is dropped. *)

Example extract_html_unclosed_fence :
  _extract_html (u "```html" ++ nl ++ u "<html></html>") = u "<html></html".
Proof. by vm_compute. Qed.
